(** * real-time-fund: migration of the stored document to the multi-portfolio shape

    A shallow embedding of [src/unnamed/part_000] (the full migration module)
    and of [src/app/lib/migration.js] (its reduced copy), followed by the
    properties of the legacy detector, the migrator, the merger and the
    validator.

    Documents are plain data as [JSON.parse] produces it, plus [undefined]:
    a tree of primitives, arrays and objects that holds no function and in
    which no two positions hold the same object.  Numbers are the integers,
    the two infinities and NaN (no fractions, no negative zero); strings are
    sequences of 8-bit characters.  An exception (always a TypeError here)
    is the [None] of an option. *)

From Stdlib Require Import ZArith List String Ascii Bool Lia DecimalString.
Import ListNotations.
Local Open Scope string_scope.
Local Open Scope list_scope.

(** ** The option monad: a computation that may throw *)

Definition obind {A B : Type} (c : option A) (k : A -> option B) : option B :=
  match c with
  | Some a => k a
  | None => None
  end.

Notation "'let?' x ':=' c 'in' k" := (obind c (fun x => k))
  (at level 10, x name, c at level 100, k at level 200).

Fixpoint mapOpt {A B : Type} (f : A -> option B) (l : list A) : option (list B) :=
  match l with
  | [] => Some []
  | x :: r => let? y := f x in let? ys := mapOpt f r in Some (y :: ys)
  end.

(** Case analysis on the first step of a computation that returned. *)
Ltac obind_inv H :=
  match type of H with
  | obind ?c _ = Some _ =>
      let E := fresh "E" in
      destruct c eqn:E; [cbn [obind] in H | discriminate H]
  end.

(** ** Values *)

Inductive number : Type :=
| NaN
| Infinity (negative : bool)
| Fin (z : Z).

#[warnings="-register-all"]
Inductive value : Type :=
| VUndefined
| VNull
| VBool (b : bool)
| VNum (n : number)
| VStr (s : string)
| VArr (items : list value)
| VObj (props : list (string * value)).

Definition number_eqb (a b : number) : bool :=
  match a, b with
  | NaN, NaN => true
  | Infinity x, Infinity y => Bool.eqb x y
  | Fin x, Fin y => Z.eqb x y
  | _, _ => false
  end.

(** [a >= b] on numbers: false as soon as one side is NaN. *)
Definition number_geb (a b : number) : bool :=
  match a, b with
  | NaN, _ | _, NaN => false
  | Infinity false, _ => true
  | Infinity true, Infinity true => true
  | Infinity true, _ => false
  | Fin _, Infinity neg => neg
  | Fin x, Fin y => Z.leb y x
  end.

(** [ToString] of a number: an integer prints its decimal digits, which is
    what JavaScript does below 10^21. *)
Definition number_toString (n : number) : string :=
  match n with
  | NaN => "NaN"
  | Infinity false => "Infinity"
  | Infinity true => "-Infinity"
  | Fin z => NilZero.string_of_int (Z.to_int z)
  end.

(** Truthiness: what [!x], [x && y], [x || y] and [x ? y : z] test. *)
Definition truthy (v : value) : bool :=
  match v with
  | VUndefined | VNull => false
  | VBool b => b
  | VNum NaN => false
  | VNum (Fin z) => negb (Z.eqb z 0)
  | VNum (Infinity _) => true
  | VStr s => negb (String.eqb s "")
  | VArr _ | VObj _ => true
  end.

(** [a || b] *)
Definition orElse (a b : value) : value := if truthy a then a else b.

Definition typeof (v : value) : string :=
  match v with
  | VUndefined => "undefined"
  | VBool _ => "boolean"
  | VNum _ => "number"
  | VStr _ => "string"
  | VNull | VArr _ | VObj _ => "object"
  end.

(** [Array.isArray] *)
Definition isArray (v : value) : bool :=
  match v with VArr _ => true | _ => false end.

Definition nullish (v : value) : bool :=
  match v with VUndefined | VNull => true | _ => false end.

(** [x !== undefined] *)
Definition notUndefined (v : value) : bool :=
  match v with VUndefined => false | _ => true end.

(** *** Property lists

    An object keeps its own properties in insertion order, each key once; a
    [Map] keyed by strings is the same structure.  (JavaScript enumerates
    integer-like keys of an object before the others; no property below
    rests on the order of keys that come from a document.) *)

Definition plist : Type := list (string * value).

Fixpoint assoc (k : string) (ps : plist) : option value :=
  match ps with
  | [] => None
  | (k', v) :: r => if String.eqb k' k then Some v else assoc k r
  end.

(** Assignment to a key: an existing key keeps its position, a new key goes
    last.  This is [obj[k] = v], a field of an object literal written after a
    spread, and [Map.prototype.set]. *)
Fixpoint assocSet (ps : plist) (k : string) (v : value) : plist :=
  match ps with
  | [] => [(k, v)]
  | (k', v') :: r =>
      if String.eqb k' k then (k', v) :: r else (k', v') :: assocSet r k v
  end.

(** [delete obj[k]] *)
Definition assocRemove (ps : plist) (k : string) : plist :=
  filter (fun kv => negb (String.eqb (fst kv) k)) ps.

(** The fields [fields] written, in order, over the properties [base]:
    [{...base, k1: v1, ..., kn: vn}] and [{...base, ...fields}]. *)
Definition overlay (base fields : plist) : plist :=
  fold_left (fun o kv => assocSet o (fst kv) (snd kv)) fields base.

Definition indexKey (i : nat) : string := NilEmpty.string_of_uint (Nat.to_uint i).

Definition indexed (l : list value) : plist :=
  combine (map indexKey (seq 0 (List.length l))) l.

Definition characters (s : string) : list value :=
  map (fun c => VStr (String c EmptyString)) (list_ascii_of_string s).

(** The own enumerable properties that an object spread [{...v}] copies:
    nothing for a primitive other than a string, the indices for a string or
    an array. *)
Definition ownProps (v : value) : plist :=
  match v with
  | VObj ps => ps
  | VArr l => indexed l
  | VStr s => indexed (characters s)
  | _ => []
  end.

(** [v.k] for [v] neither null nor undefined.  The prototypes of plain data
    contribute [length] (arrays and strings) among the names read below. *)
Definition member (v : value) (k : string) : value :=
  match assoc k (ownProps v) with
  | Some x => x
  | None =>
      match v with
      | VArr l => if String.eqb k "length" then VNum (Fin (Z.of_nat (List.length l))) else VUndefined
      | VStr s => if String.eqb k "length" then VNum (Fin (Z.of_nat (String.length s))) else VUndefined
      | _ => VUndefined
      end
  end.

(** [v.k]: reading a property of null or undefined throws. *)
Definition getProp (v : value) (k : string) : option value :=
  if nullish v then None else Some (member v k).

(** [v?.k] *)
Definition optGet (v : value) (k : string) : value :=
  if nullish v then VUndefined else member v k.

(** The receiver of [.map], [.filter], [.forEach] and [.findIndex]: plain
    data other than an array has no such method, and the call throws. *)
Definition asArray (v : value) : option (list value) :=
  match v with VArr l => Some l | _ => None end.

(** The elements that a spread [[...v]] yields: arrays and strings are
    iterable, everything else throws. *)
Definition iterate (v : value) : option (list value) :=
  match v with
  | VArr l => Some l
  | VStr s => Some (characters s)
  | _ => None
  end.

(** *** Conversions *)

Definition joinWith (sep : string) (parts : list string) : string :=
  match parts with
  | [] => ""
  | p :: r => fold_left (fun acc q => (acc ++ sep ++ q)%string) r p
  end.

(** [ToString], as a template literal applies it.  An array is joined with
    commas (null and undefined elements print as nothing); an object prints
    through [Object.prototype.toString] unless an own [toString] property, a
    datum and hence not callable, hides it: then no conversion exists. *)
Fixpoint toStr (v : value) : option string :=
  match v with
  | VUndefined => Some "undefined"
  | VNull => Some "null"
  | VBool true => Some "true"
  | VBool false => Some "false"
  | VNum n => Some (number_toString n)
  | VStr s => Some s
  | VArr l =>
      let? parts :=
        (fix elems (l : list value) : option (list string) :=
           match l with
           | [] => Some []
           | x :: r =>
               let? s := (if nullish x then Some "" else toStr x) in
               let? ss := elems r in
               Some (s :: ss)
           end) l in
      Some (joinWith "," parts)
  | VObj ps =>
      match assoc "toString" ps with
      | Some _ => None
      | None => Some "[object Object]"
      end
  end.

(** *** Equalities *)

(** [SameValueZero], the membership test of [Set]: NaN equals itself; an
    object or array is only the same as itself, and two positions of a
    document never hold the same one. *)
Definition sameValueZero (a b : value) : bool :=
  match a, b with
  | VUndefined, VUndefined => true
  | VNull, VNull => true
  | VBool x, VBool y => Bool.eqb x y
  | VNum x, VNum y => number_eqb x y
  | VStr x, VStr y => String.eqb x y
  | _, _ => false
  end.

(** [a === b]: as above, but NaN differs from itself. *)
Definition strictEquals (a b : value) : bool :=
  match a, b with
  | VNum NaN, _ => false
  | _, _ => sameValueZero a b
  end.

(** *** Set *)

(** [set.has(x)] on the elements in insertion order. *)
Definition has (elements : list value) (x : value) : bool :=
  existsb (sameValueZero x) elements.

Definition setAdd (elements : list value) (x : value) : list value :=
  if has elements x then elements else elements ++ [x].

(** [new Set(l)], and [Array.from] of it: first occurrences, in order. *)
Definition setOf (l : list value) : list value :=
  fold_left setAdd l [].

(** *** Arrays *)

(** [findIndex]: [Some None] is the -1 of the source. *)
Fixpoint findIndex (p : value -> option bool) (l : list value) : option (option nat) :=
  match l with
  | [] => Some None
  | x :: r =>
      let? b := p x in
      if b then Some (Some 0)
      else let? i := findIndex p r in Some (option_map S i)
  end.

(** [l[i] = v] for an index inside the array. *)
Fixpoint update (i : nat) (v : value) (l : list value) : list value :=
  match l, i with
  | [], _ => []
  | _ :: r, 0 => v :: r
  | x :: r, S j => x :: update j v r
  end.

(** ** The host: randomness and the clock

    The module reads three things of its host: whether [crypto.randomUUID]
    exists, random numbers, and the current time.  A [world] fixes what each
    successive read returns and counts the reads made so far. *)

(** A point in time, in the UTC fields that [toISOString] prints. *)
Record instant : Type := {
  year : nat; month : nat; day : nat;
  hour : nat; minute : nat; second : nat; millisecond : nat
}.

Record world : Type := {
  (** [typeof crypto !== 'undefined' && crypto.randomUUID] *)
  hasRandomUUID : bool;
  (** the hexadecimal digits that successive [crypto.randomUUID()] calls are made of *)
  secureRandom : nat -> N;
  secureReads : nat;
  (** [(Math.random() * 16) | 0], call after call *)
  mathRandom : nat -> N;
  mathReads : nat;
  (** [new Date()], call after call *)
  clock : nat -> instant;
  clockReads : nat
}.

(** A computation that reads the host and may throw. *)
Definition M (A : Type) : Type := world -> option (A * world).

Definition ret {A : Type} (a : A) : M A := fun w => Some (a, w).

Definition bind {A B : Type} (c : M A) (k : A -> M B) : M B :=
  fun w =>
    match c w with
    | Some (a, w') => k a w'
    | None => None
    end.

(** A pure computation that may throw, run inside [M]. *)
Definition lift {A : Type} (c : option A) : M A :=
  fun w =>
    match c with
    | Some a => Some (a, w)
    | None => None
    end.

Notation "x <- c ;; k" := (bind c (fun x => k))
  (at level 61, c at next level, right associativity).

Fixpoint mapM {A B : Type} (f : A -> M B) (l : list A) : M (list B) :=
  match l with
  | [] => ret []
  | x :: r => y <- f x ;; ys <- mapM f r ;; ret (y :: ys)
  end.

Definition nextSecure : M N :=
  fun w =>
    Some (N.modulo (secureRandom w (secureReads w)) 16,
          {| hasRandomUUID := hasRandomUUID w;
             secureRandom := secureRandom w; secureReads := S (secureReads w);
             mathRandom := mathRandom w; mathReads := mathReads w;
             clock := clock w; clockReads := clockReads w |}).

Definition nextMathRandom : M N :=
  fun w =>
    Some (N.modulo (mathRandom w (mathReads w)) 16,
          {| hasRandomUUID := hasRandomUUID w;
             secureRandom := secureRandom w; secureReads := secureReads w;
             mathRandom := mathRandom w; mathReads := S (mathReads w);
             clock := clock w; clockReads := clockReads w |}).

Definition newDate : M instant :=
  fun w =>
    Some (clock w (clockReads w),
          {| hasRandomUUID := hasRandomUUID w;
             secureRandom := secureRandom w; secureReads := secureReads w;
             mathRandom := mathRandom w; mathReads := mathReads w;
             clock := clock w; clockReads := S (clockReads w) |}).

(** A decimal numeral padded with zeros on the left to [width] digits. *)
Definition padded (width n : nat) : string :=
  let digits := NilEmpty.string_of_uint (Nat.to_uint n) in
  (string_of_list_ascii (repeat "0"%char (width - String.length digits)) ++ digits)%string.

(** [Date.prototype.toISOString]: [YYYY-MM-DDTHH:mm:ss.sssZ]. *)
Definition toISOString (t : instant) : string :=
  (padded 4 (year t) ++ "-" ++ padded 2 (month t) ++ "-" ++ padded 2 (day t) ++ "T"
   ++ padded 2 (hour t) ++ ":" ++ padded 2 (minute t) ++ ":" ++ padded 2 (second t)
   ++ "." ++ padded 3 (millisecond t) ++ "Z")%string.

(** [new Date().toISOString()] *)
Definition now : M string :=
  t <- newDate ;; ret (toISOString t).

(** [v.toString(16)] for an integer below 16. *)
Definition hexDigit (v : N) : ascii :=
  match v with
  | 0%N => "0" | 1%N => "1" | 2%N => "2" | 3%N => "3"
  | 4%N => "4" | 5%N => "5" | 6%N => "6" | 7%N => "7"
  | 8%N => "8" | 9%N => "9" | 10%N => "a" | 11%N => "b"
  | 12%N => "c" | 13%N => "d" | 14%N => "e" | _ => "f"
  end%char.

(** [pattern.replace(/[xy]/g, c => ...)]: every [x] becomes a random
    hexadecimal digit, every [y] one of [8], [9], [a], [b]; the random source
    is read once for each, left to right. *)
Fixpoint fillPattern (random : M N) (pattern : string) : M string :=
  match pattern with
  | EmptyString => ret EmptyString
  | String c rest =>
      if (Ascii.eqb c "x" || Ascii.eqb c "y")%bool then
        r <- random ;;
        let v := if Ascii.eqb c "x" then r else N.lor (N.land r 3) 8 in
        s <- fillPattern random rest ;;
        ret (String (hexDigit v) s)
      else
        s <- fillPattern random rest ;;
        ret (String c s)
  end.

Definition uuidPattern : string := "xxxxxxxx-xxxx-4xxx-yxxx-xxxxxxxxxxxx".

(** [crypto.randomUUID()]: a version-4 UUID drawn from the secure source. *)
Definition randomUUID : M string := fillPattern nextSecure uuidPattern.

(** ** Guards that both modules write inline *)

(** [typeof r === 'number' && r >= 5000 ? r : 30000] *)
Definition refreshMsOf (r : value) : value :=
  match r with
  | VNum n => if number_geb n (Fin 5000) then r else VNum (Fin 30000)
  | _ => VNum (Fin 30000)
  end.

(** [Array.isArray(x) ? x : []] *)
Definition arrayOrEmpty (x : value) : value :=
  if isArray x then x else VArr [].

(** [x && typeof x === 'object' && !Array.isArray(x) ? x : {}] *)
Definition objectOrEmpty (x : value) : value :=
  if (truthy x && String.eqb (typeof x) "object" && negb (isArray x))%bool
  then x else VObj [].

(** ** src/app/lib/migration.js *)

Module AppLib.

Definition generateId : M string :=
  fun w =>
    if hasRandomUUID w then randomUUID w
    else fillPattern nextMathRandom uuidPattern w.

Definition createPortfolio (name : value) : M value :=
  id <- generateId ;;
  createdAt <- now ;;
  ret (VObj [("id", VStr id);
             ("name", orElse name (VStr "新账本"));
             ("createdAt", VStr createdAt);
             ("funds", VArr []);
             ("favorites", VArr []);
             ("groups", VArr []);
             ("holdings", VObj []);
             ("pendingTrades", VArr [])]).

(** The callback of [data.portfolios.map]. *)
Definition repairPortfolio (p : value) : M value :=
  pid <- lift (getProp p "id") ;;
  id <- (if truthy pid then ret pid else s <- generateId ;; ret (VStr s)) ;;
  pname <- lift (getProp p "name") ;;
  pcreated <- lift (getProp p "createdAt") ;;
  createdAt <- (if truthy pcreated then ret pcreated else s <- now ;; ret (VStr s)) ;;
  funds <- lift (getProp p "funds") ;;
  favorites <- lift (getProp p "favorites") ;;
  groups <- lift (getProp p "groups") ;;
  holdings <- lift (getProp p "holdings") ;;
  pendingTrades <- lift (getProp p "pendingTrades") ;;
  ret (VObj [("id", id);
             ("name", orElse pname (VStr "未命名账本"));
             ("createdAt", createdAt);
             ("funds", arrayOrEmpty funds);
             ("favorites", arrayOrEmpty favorites);
             ("groups", arrayOrEmpty groups);
             ("holdings", objectOrEmpty holdings);
             ("pendingTrades", arrayOrEmpty pendingTrades)]).

Definition validateV2Data (data : value) : M value :=
  if (negb (truthy data) || negb (String.eqb (typeof data) "object"))%bool then
    p <- createPortfolio (VStr "默认账本") ;;
    ret (VObj [("version", VNum (Fin 2));
               ("refreshMs", VNum (Fin 30000));
               ("portfolios", VArr [p])])
  else
    let refreshMs := refreshMsOf (member data "refreshMs") in
    portfolios <-
      match member data "portfolios" with
      | VArr (p :: ps) => mapM repairPortfolio (p :: ps)
      | _ => p <- createPortfolio (VStr "默认账本") ;; ret [p]
      end ;;
    ret (VObj [("version", VNum (Fin 2));
               ("refreshMs", refreshMs);
               ("portfolios", VArr portfolios)]).

End AppLib.

(** ** src/unnamed/part_000: the full migration module *)

Module Part000.

Section LegacyDetector.

(** The language's [StringToNumber]; only [version] can reach it. *)
Variable StringToNumber : string -> number.

(** [ToNumber]: an object or array first becomes a string. *)
Definition toNumber (v : value) : option number :=
  match v with
  | VUndefined => Some NaN
  | VNull => Some (Fin 0)
  | VBool b => Some (Fin (if b then 1 else 0))
  | VNum n => Some n
  | VStr s => Some (StringToNumber s)
  | VArr _ | VObj _ => let? s := toStr v in Some (StringToNumber s)
  end.

(** [v >= c] against a number. *)
Definition geNumber (v : value) (c : number) : option bool :=
  let? n := toNumber v in Some (number_geb n c).

(** [data.version && data.version >= 2], as the [if] tests it. *)
Definition isCurrentVersion (data : value) : option bool :=
  let version := member data "version" in
  if truthy version then geNumber version (Fin 2) else Some false.

Definition isLegacyData (data : value) : option bool :=
  if (negb (truthy data) || negb (String.eqb (typeof data) "object"))%bool
  then Some false
  else
    let? current := isCurrentVersion data in
    if current then Some false
    else Some (isArray (member data "funds")
               || notUndefined (member data "holdings"))%bool.

End LegacyDetector.

Definition generateId : M string :=
  fun w =>
    if hasRandomUUID w then randomUUID w
    else fillPattern nextMathRandom uuidPattern w.

(** [portfolioName] is [undefined] when the caller leaves it out. *)
Definition migrateToV2 (oldData portfolioName : value) : M value :=
  let portfolioName :=
    if notUndefined portfolioName then portfolioName else VStr "默认账本" in
  portfolioId <- generateId ;;
  now <- now ;;
  refreshMs <- lift (getProp oldData "refreshMs") ;;
  funds <- lift (getProp oldData "funds") ;;
  favorites <- lift (getProp oldData "favorites") ;;
  groups <- lift (getProp oldData "groups") ;;
  holdings <- lift (getProp oldData "holdings") ;;
  pendingTrades <- lift (getProp oldData "pendingTrades") ;;
  ret (VObj [("version", VNum (Fin 2));
             ("refreshMs", refreshMsOf refreshMs);
             ("portfolios",
              VArr [VObj [("id", VStr portfolioId);
                          ("name", portfolioName);
                          ("createdAt", VStr now);
                          ("funds", arrayOrEmpty funds);
                          ("favorites", arrayOrEmpty favorites);
                          ("groups", arrayOrEmpty groups);
                          ("holdings", objectOrEmpty holdings);
                          ("pendingTrades", arrayOrEmpty pendingTrades)]])]).

Definition createEmptyV2Data : M value :=
  portfolioId <- generateId ;;
  now <- now ;;
  ret (VObj [("version", VNum (Fin 2));
             ("refreshMs", VNum (Fin 30000));
             ("portfolios",
              VArr [VObj [("id", VStr portfolioId);
                          ("name", VStr "默认账本");
                          ("createdAt", VStr now);
                          ("funds", VArr []);
                          ("favorites", VArr []);
                          ("groups", VArr []);
                          ("holdings", VObj []);
                          ("pendingTrades", VArr [])]])]).

Definition createPortfolio (name : value) : M value :=
  id <- generateId ;;
  createdAt <- now ;;
  ret (VObj [("id", VStr id);
             ("name", orElse name (VStr "新账本"));
             ("createdAt", VStr createdAt);
             ("funds", VArr []);
             ("favorites", VArr []);
             ("groups", VArr []);
             ("holdings", VObj []);
             ("pendingTrades", VArr [])]).

(** *** mergeOldDataToPortfolio *)

(** [funds.map(f => f.code)] *)
Definition codesOf (funds : list value) : option (list value) :=
  mapOpt (fun f => getProp f "code") funds.

(** [f && f.code && !existingCodes.has(f.code)] *)
Definition isNewFund (existingCodes : list value) (f : value) : bool :=
  (truthy f && truthy (member f "code")
   && negb (has existingCodes (member f "code")))%bool.

(** [g => g.id === incomingGroup.id] *)
Definition sameId (incomingGroup g : value) : option bool :=
  let? gid := getProp g "id" in
  let? iid := getProp incomingGroup "id" in
  Some (strictEquals gid iid).

(** The body of [(oldData.groups || []).forEach(incomingGroup => ...)]. *)
Definition mergeGroup (allCodes mergedGroups : list value) (incomingGroup : value)
  : option (list value) :=
  let? existingIdx := findIndex (sameId incomingGroup) mergedGroups in
  match existingIdx with
  | Some i =>
      let existing := nth i mergedGroups VUndefined in
      let? existingCodes := getProp existing "codes" in
      let? old := iterate existingCodes in
      let? incomingCodes := getProp incomingGroup "codes" in
      let? new := iterate (orElse incomingCodes (VArr [])) in
      let codes := filter (has allCodes) (setOf (old ++ new)) in
      Some (update i (VObj (overlay (ownProps existing) [("codes", VArr codes)]))
              mergedGroups)
  | None =>
      let? incomingCodes := getProp incomingGroup "codes" in
      let? codes := asArray (orElse incomingCodes (VArr [])) in
      Some (mergedGroups
            ++ [VObj (overlay (ownProps incomingGroup)
                        [("codes", VArr (filter (has allCodes) codes))])])
  end.

Fixpoint mergeGroups (allCodes mergedGroups incoming : list value)
  : option (list value) :=
  match incoming with
  | [] => Some mergedGroups
  | incomingGroup :: rest =>
      let? mergedGroups := mergeGroup allCodes mergedGroups incomingGroup in
      mergeGroups allCodes mergedGroups rest
  end.

(** [Object.keys(mergedHoldings).forEach(code => { if (!allCodes.has(code))
    delete mergedHoldings[code]; })] *)
Definition pruneHoldings (allCodes : list value) (mergedHoldings : plist) : plist :=
  fold_left
    (fun holdings code =>
       if has allCodes (VStr code) then holdings else assocRemove holdings code)
    (map fst mergedHoldings) mergedHoldings.

Definition keyOf (trade : value) : option string :=
  if truthy (optGet trade "id") then
    let? id := toStr (optGet trade "id") in
    Some ("id:" ++ id)%string
  else
    let? fundCode := toStr (orElse (optGet trade "fundCode") (VStr "")) in
    let? type := toStr (orElse (optGet trade "type") (VStr "")) in
    let? date := toStr (orElse (optGet trade "date") (VStr "")) in
    let? share := toStr (orElse (optGet trade "share") (VStr "")) in
    let? amount := toStr (orElse (optGet trade "amount") (VStr "")) in
    let isAfter3pm := if truthy (optGet trade "isAfter3pm") then "1" else "0" in
    Some ("k:" ++ fundCode ++ ":" ++ type ++ ":" ++ date ++ ":" ++ share
          ++ ":" ++ amount ++ ":" ++ isAfter3pm)%string.

(** The body of both [pendingTrades.forEach(trade => ...)] loops; a truthy
    [trade] is neither null nor undefined, so [trade.fundCode] is read. *)
Definition addTrade (allCodes : list value) (pendingMap : plist) (trade : value)
  : option plist :=
  if (truthy trade && has allCodes (member trade "fundCode"))%bool then
    let? key := keyOf trade in
    Some (assocSet pendingMap key trade)
  else Some pendingMap.

Fixpoint addTrades (allCodes : list value) (pendingMap : plist) (trades : list value)
  : option plist :=
  match trades with
  | [] => Some pendingMap
  | trade :: rest =>
      let? pendingMap := addTrade allCodes pendingMap trade in
      addTrades allCodes pendingMap rest
  end.

(** Past the first line both arguments are truthy, hence neither null nor
    undefined: their properties are read with [member]. *)
Definition mergeOldDataToPortfolio (portfolio oldData : value) : option value :=
  if (negb (truthy portfolio) || negb (truthy oldData))%bool then Some portfolio
  else
    let? portfolioFunds := asArray (orElse (member portfolio "funds") (VArr [])) in
    let? existing := codesOf portfolioFunds in
    let existingCodes := setOf existing in
    let? oldFunds := asArray (orElse (member oldData "funds") (VArr [])) in
    let newFunds := filter (isNewFund existingCodes) oldFunds in
    let mergedFunds := portfolioFunds ++ newFunds in
    let? codes := codesOf mergedFunds in
    let allCodes := setOf codes in
    let? portfolioFavorites :=
      iterate (orElse (member portfolio "favorites") (VArr [])) in
    let? oldFavorites := iterate (orElse (member oldData "favorites") (VArr [])) in
    let mergedFavorites :=
      filter (has allCodes) (setOf (portfolioFavorites ++ oldFavorites)) in
    let? portfolioGroups := iterate (orElse (member portfolio "groups") (VArr [])) in
    let? oldGroups := asArray (orElse (member oldData "groups") (VArr [])) in
    let? mergedGroups := mergeGroups allCodes portfolioGroups oldGroups in
    let mergedHoldings :=
      pruneHoldings allCodes
        (overlay (ownProps (orElse (member portfolio "holdings") (VObj [])))
           (ownProps (orElse (member oldData "holdings") (VObj [])))) in
    let? portfolioTrades :=
      asArray (orElse (member portfolio "pendingTrades") (VArr [])) in
    let? pendingMap := addTrades allCodes [] portfolioTrades in
    let? oldTrades := asArray (orElse (member oldData "pendingTrades") (VArr [])) in
    let? pendingMap := addTrades allCodes pendingMap oldTrades in
    let mergedPending := map snd pendingMap in
    Some (VObj (overlay (ownProps portfolio)
                  [("funds", VArr mergedFunds);
                   ("favorites", VArr mergedFavorites);
                   ("groups", VArr mergedGroups);
                   ("holdings", VObj mergedHoldings);
                   ("pendingTrades", VArr mergedPending)])).

(** *** validateV2Data *)

(** The callback of [data.portfolios.map]. *)
Definition repairPortfolio (p : value) : M value :=
  pid <- lift (getProp p "id") ;;
  id <- (if truthy pid then ret pid else s <- generateId ;; ret (VStr s)) ;;
  pname <- lift (getProp p "name") ;;
  pcreated <- lift (getProp p "createdAt") ;;
  createdAt <- (if truthy pcreated then ret pcreated else s <- now ;; ret (VStr s)) ;;
  funds <- lift (getProp p "funds") ;;
  favorites <- lift (getProp p "favorites") ;;
  groups <- lift (getProp p "groups") ;;
  holdings <- lift (getProp p "holdings") ;;
  pendingTrades <- lift (getProp p "pendingTrades") ;;
  ret (VObj [("id", id);
             ("name", orElse pname (VStr "未命名账本"));
             ("createdAt", createdAt);
             ("funds", arrayOrEmpty funds);
             ("favorites", arrayOrEmpty favorites);
             ("groups", arrayOrEmpty groups);
             ("holdings", objectOrEmpty holdings);
             ("pendingTrades", arrayOrEmpty pendingTrades)]).

Definition validateV2Data (data : value) : M value :=
  if (negb (truthy data) || negb (String.eqb (typeof data) "object"))%bool then
    createEmptyV2Data
  else
    let refreshMs := refreshMsOf (member data "refreshMs") in
    portfolios <-
      match member data "portfolios" with
      | VArr (p :: ps) => mapM repairPortfolio (p :: ps)
      | _ => p <- createPortfolio (VStr "默认账本") ;; ret [p]
      end ;;
    ret (VObj [("version", VNum (Fin 2));
               ("refreshMs", refreshMs);
               ("portfolios", VArr portfolios)]).

End Part000.

(** ** What the properties below speak of *)

(** [typeof v === 'object'] for a [v] other than null: a plain object or an
    array. *)
Definition isObject (v : value) : bool :=
  match v with VObj _ | VArr _ => true | _ => false end.

(** "[version] is not simultaneously truthy and [>= 2]": it is falsy, or the
    comparison with 2 answers no. *)
Definition notCurrentVersion (StringToNumber : string -> number) (version : value) : Prop :=
  truthy version = false
  \/ Part000.geNumber StringToNumber version (Fin 2) = Some false.

(** "A non-array object". *)
Definition isPlainObject (v : value) : bool :=
  match v with VObj _ => true | _ => false end.

(** "A number [>= 5000]". *)
Definition isRefreshMs (v : value) : bool :=
  match v with VNum n => number_geb n (Fin 5000) | _ => false end.

(** [result] is [source] verbatim when [source] has the shape, and
    [fallback] otherwise. *)
Definition carriedOver (shape : value -> bool) (source fallback result : value) : Prop :=
  (shape source = true -> result = source)
  /\ (shape source = false -> result = fallback).

Definition documentKeys : list string := ["version"; "refreshMs"; "portfolios"].

Definition portfolioKeys : list string :=
  ["id"; "name"; "createdAt"; "funds"; "favorites"; "groups"; "holdings";
   "pendingTrades"].

(** The five collections that the merger rewrites. *)
Definition mergedKeys : list string :=
  ["funds"; "favorites"; "groups"; "holdings"; "pendingTrades"].

(** The names of the own properties of a value. *)
Definition keys (v : value) : list string := map fst (ownProps v).

(** A portfolio with the eight fields and nothing in its collections. *)
Definition emptyPortfolio (id name createdAt : string) : value :=
  VObj [("id", VStr id);
        ("name", VStr name);
        ("createdAt", VStr createdAt);
        ("funds", VArr []);
        ("favorites", VArr []);
        ("groups", VArr []);
        ("holdings", VObj []);
        ("pendingTrades", VArr [])].

(** The empty document: version 2, refreshMs 30000, one default portfolio. *)
Definition emptyDocument (id createdAt : string) : value :=
  VObj [("version", VNum (Fin 2));
        ("refreshMs", VNum (Fin 30000));
        ("portfolios", VArr [emptyPortfolio id "默认账本" createdAt])].

(** A portfolio each of whose fields passes the validator's check of it. *)
Definition soundPortfolio (p : value) : Prop :=
  exists id name createdAt funds favorites groups holdings pendingTrades,
    p = VObj [("id", id);
              ("name", name);
              ("createdAt", createdAt);
              ("funds", VArr funds);
              ("favorites", VArr favorites);
              ("groups", VArr groups);
              ("holdings", VObj holdings);
              ("pendingTrades", VArr pendingTrades)]
    /\ truthy id = true /\ truthy name = true /\ truthy createdAt = true.

(** A document each of whose fields passes the validator's check of it. *)
Definition soundDocument (d : value) : Prop :=
  exists refreshMs p ps,
    d = VObj [("version", VNum (Fin 2));
              ("refreshMs", refreshMs);
              ("portfolios", VArr (p :: ps))]
    /\ isRefreshMs refreshMs = true
    /\ Forall soundPortfolio (p :: ps).

(** The entries of a collection field: those of the array, none when the
    field is anything else. *)
Definition arrayItems (v : value) : list value :=
  match v with VArr l => l | _ => [] end.

(** The [code] of each entry of a list of funds. *)
Definition fundCodes (funds : list value) : list value :=
  map (fun f => member f "code") funds.

(** No two entries are the same code, in the sense of [Set] membership. *)
Fixpoint distinctCodes (codes : list value) : Prop :=
  match codes with
  | [] => True
  | c :: rest => has rest c = false /\ distinctCodes rest
  end.

(** Every code listed by the group is among [codes]. *)
Definition groupClosed (codes : list value) (g : value) : Prop :=
  Forall (fun c => In c codes) (arrayItems (member g "codes")).

Definition distinctFunds (p : value) : Prop :=
  distinctCodes (fundCodes (arrayItems (member p "funds"))).

Definition closedFavorites (p : value) : Prop :=
  Forall (fun c => In c (fundCodes (arrayItems (member p "funds"))))
    (arrayItems (member p "favorites")).

Definition closedGroups (p : value) : Prop :=
  Forall (groupClosed (fundCodes (arrayItems (member p "funds"))))
    (arrayItems (member p "groups")).

Definition closedHoldings (p : value) : Prop :=
  Forall (fun k => In (VStr k) (fundCodes (arrayItems (member p "funds"))))
    (keys (member p "holdings")).

Definition closedTrades (p : value) : Prop :=
  Forall (fun t => In (member t "fundCode") (fundCodes (arrayItems (member p "funds"))))
    (arrayItems (member p "pendingTrades")).

(** The invariant of a portfolio: fund codes pairwise distinct, and every
    favorite, group code, holdings key and trade fund code among them. *)
Definition closedPortfolio (p : value) : Prop :=
  distinctFunds p /\ closedFavorites p /\ closedGroups p
  /\ closedHoldings p /\ closedTrades p.

(** A legacy fund that carries a code: [f && f.code]. *)
Definition hasCode (f : value) : bool :=
  (truthy f && truthy (member f "code"))%bool.

(** *** Pending trades *)

(** A trade that the merge keeps: [trade && allCodes.has(trade.fundCode)]. *)
Definition retained (allCodes : list value) (trade : value) : bool :=
  (truthy trade && has allCodes (member trade "fundCode"))%bool.

(** The tuple that identifies a trade without id: the five fields, a falsy
    or missing one read as the empty string, and whether [isAfter3pm] is
    truthy. *)
Definition tradeTuple (trade : value) : list value * bool :=
  ([orElse (optGet trade "fundCode") (VStr "");
    orElse (optGet trade "type") (VStr "");
    orElse (optGet trade "date") (VStr "");
    orElse (optGet trade "share") (VStr "");
    orElse (optGet trade "amount") (VStr "")],
   truthy (optGet trade "isAfter3pm")).

Definition keyIs (k : string) (trade : value) : bool :=
  match Part000.keyOf trade with
  | Some k' => String.eqb k' k
  | None => false
  end.

(** The last retained trade of the list whose key is [k]. *)
Fixpoint lastWith (allCodes : list value) (k : string) (trades : list value)
  : option value :=
  match trades with
  | [] => None
  | t :: rest =>
      match lastWith allCodes k rest with
      | Some x => Some x
      | None => if (retained allCodes t && keyIs k t)%bool then Some t else None
      end
  end.

(** The trade that wins key [k]: the last legacy one, else the last of the
    portfolio. *)
Definition winner (allCodes : list value) (k : string)
           (portfolioTrades oldTrades : list value) : option value :=
  match lastWith allCodes k oldTrades with
  | Some t => Some t
  | None => lastWith allCodes k portfolioTrades
  end.

(** The keys of the retained trades, in the order of the trades. *)
Definition tradeKeys (allCodes : list value) (trades : list value) : list string :=
  flat_map
    (fun t =>
       if retained allCodes t then
         match Part000.keyOf t with Some k => [k] | None => [] end
       else [])
    trades.

Definition mem (k : string) (ks : list string) : bool := existsb (String.eqb k) ks.

(** [ks] followed by the keys of [new] that are not yet there, each once, in
    the order of their first occurrence. *)
Definition addKeys (ks new : list string) : list string :=
  fold_left (fun acc k => if mem k acc then acc else acc ++ [k]) new ks.

(** The keys of a list, each once, in the order of their first occurrence. *)
Definition firstOccurrences (ks : list string) : list string := addKeys [] ks.

(** The tuple of a trade without id as the key prints it: each of the five
    fields converted to a string, a falsy or missing one as the empty
    string, and [1] or [0] for [isAfter3pm]. *)
Definition printedTuple (trade : value) : option (list string) :=
  let? fundCode := toStr (orElse (optGet trade "fundCode") (VStr "")) in
  let? type := toStr (orElse (optGet trade "type") (VStr "")) in
  let? date := toStr (orElse (optGet trade "date") (VStr "")) in
  let? share := toStr (orElse (optGet trade "share") (VStr "")) in
  let? amount := toStr (orElse (optGet trade "amount") (VStr "")) in
  Some [fundCode; type; date; share; amount;
        if truthy (optGet trade "isAfter3pm") then "1" else "0"].

(** The string holds no colon, the separator of the key. *)
Fixpoint colonFree (s : string) : bool :=
  match s with
  | EmptyString => true
  | String c rest => (negb (Ascii.eqb c ":") && colonFree rest)%bool
  end.

(** The key in the words of C5: the id itself when it is truthy, and
    otherwise the tuple of the six fields themselves, a missing one read as
    the empty string. *)
Definition orEmpty (v : value) : value :=
  match v with VUndefined => VStr "" | _ => v end.

Definition claimedKey (trade : value) : value + list value :=
  if truthy (optGet trade "id") then inl (optGet trade "id")
  else inr [orEmpty (optGet trade "fundCode");
            orEmpty (optGet trade "type");
            orEmpty (optGet trade "date");
            orEmpty (optGet trade "share");
            orEmpty (optGet trade "amount");
            orEmpty (optGet trade "isAfter3pm")].

(** [a] is [l] with some entries left out: the entries of [a] in their
    original order. *)
Inductive subsequence : list value -> list value -> Prop :=
| subsequence_nil : forall l, subsequence [] l
| subsequence_take : forall x a l, subsequence a l -> subsequence (x :: a) (x :: l)
| subsequence_skip : forall x a l, subsequence a l -> subsequence a (x :: l).

(** The order in the words of C5: trades of the portfolio in their
    original order, followed by trades of the legacy data. *)
Definition claimedOrder (portfolioTrades oldTrades merged : list value) : Prop :=
  exists kept added,
    merged = kept ++ added
    /\ subsequence kept portfolioTrades
    /\ subsequence added oldTrades.

(** *** The inputs on which the operations return *)

(** A collection field left out (or otherwise falsy), or an array. *)
Definition arrayOrFalsy (x : value) : bool :=
  (isArray x || negb (truthy x))%bool.

(** [g.id === i.id] *)
Definition sameGroupId (g i : value) : bool :=
  strictEquals (member g "id") (member i "id").

(** A merged group that the remaining legacy groups can meet: it is not null
    or undefined, and it has a [codes] array unless none of them has its
    id. *)
Definition groupReady (remaining : list value) (g : value) : Prop :=
  nullish g = false
  /\ (isArray (member g "codes") = true
      \/ Forall (fun i => sameGroupId g i = false) remaining).

(** The fields that only enter a trade's key are primitives. *)
Definition plainKeyed (trade : value) : Prop :=
  Forall (fun f => isObject (optGet trade f) = false)
    ["id"; "type"; "date"; "share"; "amount"].

(** A pair of arguments on which [mergeOldDataToPortfolio] reads no property
    of null or undefined, calls no array method on something else, and
    prints no object into a key. *)
Definition mergeable (portfolio oldData : value) : Prop :=
  Forall (fun field => arrayOrFalsy (member portfolio field) = true
                       /\ arrayOrFalsy (member oldData field) = true)
    ["funds"; "favorites"; "groups"; "pendingTrades"]
  /\ Forall (fun f => nullish f = false) (arrayItems (member portfolio "funds"))
  /\ Forall (groupReady (arrayItems (member oldData "groups")))
       (arrayItems (member portfolio "groups"))
  /\ Forall (fun g => nullish g = false /\ arrayOrFalsy (member g "codes") = true)
       (arrayItems (member oldData "groups"))
  /\ Forall plainKeyed (arrayItems (member portfolio "pendingTrades"))
  /\ Forall plainKeyed (arrayItems (member oldData "pendingTrades")).

(** A host without [crypto.randomUUID], on the first of January 2025. *)
Definition sampleWorld : world :=
  {| hasRandomUUID := false;
     secureRandom := fun i => N.of_nat i; secureReads := 0;
     mathRandom := fun i => N.of_nat (7 * i + 3); mathReads := 0;
     clock := fun i => {| year := 2025; month := 1; day := 1;
                          hour := 8; minute := 30; second := i;
                          millisecond := 0 |};
     clockReads := 0 |}.

(** *** A portfolio and a legacy document to run the operations on *)

Definition fund (code : string) : value := VObj [("code", VStr code)].

Definition samplePortfolio : value :=
  VObj [("id", VStr "p-1");
        ("name", VStr "主账本");
        ("createdAt", VStr "2024-05-01T00:00:00.000Z");
        ("note", VStr "kept");
        ("funds", VArr [fund "110022"; fund "161725"]);
        ("favorites", VArr [VStr "110022"]);
        ("groups",
         VArr [VObj [("id", VStr "g1"); ("name", VStr "稳健");
                     ("codes", VArr [VStr "110022"])];
               VObj [("id", VStr "g0"); ("name", VStr "空")]]);
        ("holdings", VObj [("110022", VObj [("share", VNum (Fin 100))])]);
        ("pendingTrades",
         VArr [VObj [("id", VStr "t1"); ("fundCode", VStr "110022");
                     ("type", VStr "buy"); ("amount", VNum (Fin 500))];
               VObj [("fundCode", VStr "161725"); ("type", VStr "sell");
                     ("date", VStr "2024-05-02"); ("share", VNum (Fin 10));
                     ("isAfter3pm", VBool true)]])].

Definition sampleLegacy : value :=
  VObj [("refreshMs", VNum (Fin 10000));
        ("funds",
         VArr [fund "161725"; VNull; fund "000001";
               VObj [("name", VStr "no code")]]);
        ("favorites", VArr [VStr "000001"; VStr "999999"; VStr "110022"]);
        ("groups",
         VArr [VObj [("id", VStr "g1");
                     ("codes", VArr [VStr "000001"; VStr "999999"])];
               VObj [("id", VStr "g2"); ("name", VStr "新")]]);
        ("holdings",
         VObj [("000001", VObj [("share", VNum (Fin 5))]);
               ("999999", VObj [("share", VNum (Fin 1))])]);
        ("pendingTrades",
         VArr [VNull;
               VObj [("id", VStr "t1"); ("fundCode", VStr "110022");
                     ("type", VStr "buy"); ("amount", VNum (Fin 800))];
               VObj [("fundCode", VStr "000001"); ("type", VStr "buy");
                     ("date", VStr "2024-05-03"); ("amount", VNum (Fin 100))];
               VObj [("fundCode", VStr "000001"); ("type", VStr "buy");
                     ("date", VStr "2024-05-03"); ("amount", VNum (Fin 100))];
               VObj [("fundCode", VStr "999999"); ("type", VStr "buy")]])].

Definition sampleMerged : value :=
  Eval vm_compute in
    match Part000.mergeOldDataToPortfolio samplePortfolio sampleLegacy with
    | Some r => r
    | None => VUndefined
    end.

(** A stored version-2 document with stray fields and a portfolio that
    lacks most of its own. *)
Definition sampleStored : value :=
  VObj [("version", VNum (Fin 2));
        ("refreshMs", VNum (Fin 1000));
        ("theme", VStr "dark");
        ("portfolios",
         VArr [samplePortfolio;
               VObj [("name", VStr ""); ("funds", VStr "none");
                     ("holdings", VArr [])]])].

Definition sampleValidated : value * world :=
  Eval vm_compute in
    match Part000.validateV2Data sampleStored sampleWorld with
    | Some r => r
    | None => (VUndefined, sampleWorld)
    end.

(** *** Identifiers *)

Definition isHexDigit (c : ascii) : bool :=
  existsb (Ascii.eqb c) (list_ascii_of_string "0123456789abcdef").

(** [s] has the layout of [pattern]: a hexadecimal digit for every [x], one
    of [8], [9], [a], [b] for every [y], and the pattern's own character
    everywhere else. *)
Fixpoint matchesPattern (pattern s : string) : bool :=
  match pattern, s with
  | EmptyString, EmptyString => true
  | String p pattern', String c s' =>
      ((if Ascii.eqb p "x" then isHexDigit c
        else if Ascii.eqb p "y" then
               existsb (Ascii.eqb c) (list_ascii_of_string "89ab")
             else Ascii.eqb c p)
       && matchesPattern pattern' s')%bool
  | _, _ => false
  end.

(** The number of [x] and [y] in a pattern. *)
Fixpoint placeholders (pattern : string) : nat :=
  match pattern with
  | EmptyString => 0
  | String c rest =>
      (if (Ascii.eqb c "x" || Ascii.eqb c "y")%bool then 1 else 0)
      + placeholders rest
  end.

(** *** What validation keeps *)

(** What the repaired portfolio [p'] keeps of the input portfolio [p]: each
    of [id], [name] and [createdAt] that is truthy, and each collection
    that has the kind its field asks for; a collection of another kind is
    emptied and a falsy name replaced. *)
Definition keptBy (p p' : value) : Prop :=
  (truthy (member p "id") = true -> member p' "id" = member p "id")
  /\ carriedOver truthy (member p "name") (VStr "未命名账本") (member p' "name")
  /\ (truthy (member p "createdAt") = true ->
      member p' "createdAt" = member p "createdAt")
  /\ carriedOver isArray (member p "funds") (VArr []) (member p' "funds")
  /\ carriedOver isArray (member p "favorites") (VArr []) (member p' "favorites")
  /\ carriedOver isArray (member p "groups") (VArr []) (member p' "groups")
  /\ carriedOver isPlainObject (member p "holdings") (VObj []) (member p' "holdings")
  /\ carriedOver isArray (member p "pendingTrades") (VArr [])
       (member p' "pendingTrades").

(** The portfolio needs no identifier and no timestamp of the host. *)
Definition identified (p : value) : Prop :=
  truthy (member p "id") = true /\ truthy (member p "createdAt") = true.

(** *** What the merge reads of its arguments *)

(** The holdings that [{...(v.holdings || {})}] spreads: the own properties
    of the field, none when the field is falsy. *)
Definition holdingsOf (v : value) : plist :=
  ownProps (orElse (member v "holdings") (VObj [])).

(** [g'] has the properties of [g], except possibly [codes]. *)
Definition sameButCodes (g g' : value) : Prop :=
  forall k, k <> "codes" -> assoc k (ownProps g') = assoc k (ownProps g).

(** The sample portfolio as validation leaves it: without its stray field. *)
Definition sampleSound : value :=
  VObj [("id", VStr "p-1");
        ("name", VStr "主账本");
        ("createdAt", VStr "2024-05-01T00:00:00.000Z");
        ("funds", VArr [fund "110022"; fund "161725"]);
        ("favorites", VArr [VStr "110022"]);
        ("groups",
         VArr [VObj [("id", VStr "g1"); ("name", VStr "稳健");
                     ("codes", VArr [VStr "110022"])];
               VObj [("id", VStr "g0"); ("name", VStr "空")]]);
        ("holdings", VObj [("110022", VObj [("share", VNum (Fin 100))])]);
        ("pendingTrades",
         VArr [VObj [("id", VStr "t1"); ("fundCode", VStr "110022");
                     ("type", VStr "buy"); ("amount", VNum (Fin 500))];
               VObj [("fundCode", VStr "161725"); ("type", VStr "sell");
                     ("date", VStr "2024-05-02"); ("share", VNum (Fin 10));
                     ("isAfter3pm", VBool true)]])].

Definition sampleSoundMerged : value :=
  Eval vm_compute in
    match Part000.mergeOldDataToPortfolio sampleSound sampleLegacy with
    | Some r => r
    | None => VUndefined
    end.

(** A legacy document that holds settings only. *)
Definition sampleSettings : value := VObj [("refreshMs", VNum (Fin 10000))].

(** Trades on which the keys and the order show: two of one id, ids that
    print alike, fields with a colon, a zero against a missing field. *)
Definition tradeA1 : value :=
  VObj [("id", VStr "a"); ("fundCode", VStr "F"); ("amount", VNum (Fin 1))].
Definition tradeB : value :=
  VObj [("id", VStr "b"); ("fundCode", VStr "F")].
Definition tradeA3 : value :=
  VObj [("id", VStr "a"); ("fundCode", VStr "F"); ("amount", VNum (Fin 3))].
Definition tradeC : value :=
  VObj [("id", VStr "c"); ("fundCode", VStr "F")].
Definition trade7 : value :=
  VObj [("id", VNum (Fin 7)); ("fundCode", VStr "F")].
Definition trade7s : value :=
  VObj [("id", VStr "7"); ("fundCode", VStr "F")].
Definition tradeColon1 : value :=
  VObj [("fundCode", VStr "F"); ("type", VStr "a:b"); ("date", VStr "c")].
Definition tradeColon2 : value :=
  VObj [("fundCode", VStr "F"); ("type", VStr "a"); ("date", VStr "b:c")].
Definition tradeZero : value :=
  VObj [("fundCode", VStr "F"); ("share", VNum (Fin 0))].
Definition tradeBare : value :=
  VObj [("fundCode", VStr "F")].

(** A portfolio that lists fund [F] and the given pending trades. *)
Definition holding (trades : list value) : value :=
  VObj [("funds", VArr [fund "F"]); ("pendingTrades", VArr trades)].

(** The pending trades of a merge. *)
Definition mergedTrades (portfolio oldData : value) : option value :=
  option_map (fun r => member r "pendingTrades")
    (Part000.mergeOldDataToPortfolio portfolio oldData).

(** * Properties *)

(** ** Values, sets and property lists *)

Lemma isObject_guard (v : value) :
  (negb (truthy v) || negb (String.eqb (typeof v) "object"))%bool = negb (isObject v).
Proof.
  destruct v as [ | | b | n | s | l | ps]; try reflexivity.
  - destruct b; reflexivity.
  - cbn. now rewrite orb_true_r.
  - cbn. now rewrite orb_true_r.
Qed.

Lemma number_eqb_eq (a b : number) : number_eqb a b = true -> a = b.
Proof.
  destruct a as [ | x | x], b as [ | y | y]; cbn; try discriminate; intros H.
  - reflexivity.
  - apply Bool.eqb_prop in H. now subst.
  - apply Z.eqb_eq in H. now subst.
Qed.

Lemma sameValueZero_eq (a b : value) : sameValueZero a b = true -> a = b.
Proof.
  destruct a, b; cbn; try discriminate; intros H.
  - reflexivity.
  - reflexivity.
  - apply Bool.eqb_prop in H. now subst.
  - apply number_eqb_eq in H. now subst.
  - apply String.eqb_eq in H. now subst.
Qed.

Lemma sameValueZero_sym (a b : value) : sameValueZero a b = sameValueZero b a.
Proof.
  destruct (sameValueZero a b) eqn:E.
  - pose proof (sameValueZero_eq _ _ E) as Heq. subst. now rewrite E.
  - destruct (sameValueZero b a) eqn:E'; [ | reflexivity].
    pose proof (sameValueZero_eq _ _ E') as Heq. subst. congruence.
Qed.

(** ** Legacy detector *)

(** C4. [isLegacyData] answers true exactly for an object whose [version] is
    not at once truthy and [>= 2] and that has a [funds] array or a
    [holdings] other than undefined; it answers false for every value that is
    not an object and for every object whose [version] is [>= 2], whatever
    [funds] and [holdings] are. *)
Theorem isLegacyData_characterised (StringToNumber : string -> number) (v : value) :
  (Part000.isLegacyData StringToNumber v = Some true <->
     isObject v = true
     /\ notCurrentVersion StringToNumber (member v "version")
     /\ (isArray (member v "funds") = true \/ member v "holdings" <> VUndefined))
  /\ (isObject v = false -> Part000.isLegacyData StringToNumber v = Some false)
  /\ (forall n, isObject v = true -> member v "version" = VNum n ->
        number_geb n (Fin 2) = true ->
        Part000.isLegacyData StringToNumber v = Some false)
  /\ (isObject v = true -> truthy (member v "version") = true ->
      Part000.geNumber StringToNumber (member v "version") (Fin 2) = Some true ->
      Part000.isLegacyData StringToNumber v = Some false).
Proof.
  unfold Part000.isLegacyData, Part000.isCurrentVersion, notCurrentVersion.
  rewrite isObject_guard.
  destruct (isObject v) eqn:Hobj; cbn [negb].
  - assert (Hshape :
      (isArray (member v "funds") || notUndefined (member v "holdings"))%bool = true
      <-> (isArray (member v "funds") = true \/ member v "holdings" <> VUndefined)).
    { rewrite orb_true_iff.
      destruct (member v "holdings"); cbn; intuition (discriminate || congruence). }
    split; [split | split; [ | split]].
    + intros H. split; [reflexivity | ].
      destruct (truthy (member v "version")) eqn:Ht.
      * destruct (Part000.geNumber StringToNumber (member v "version") (Fin 2))
          as [[ | ] | ]; cbn in H; try discriminate.
        injection H as H'. split; [now right | now apply Hshape].
      * cbn in H. injection H as H'. split; [now left | now apply Hshape].
    + intros (_ & Hver & Hs). apply Hshape in Hs.
      destruct Hver as [Hf | Hge].
      * rewrite Hf. cbn. now rewrite Hs.
      * rewrite Hge. destruct (truthy (member v "version")); cbn; now rewrite Hs.
    + discriminate.
    + intros n _ Hn Hge. rewrite Hn.
      assert (Ht : truthy (VNum n) = true).
      { destruct n as [ | neg | z]; cbn in *; try discriminate; try reflexivity.
        apply Z.leb_le in Hge. apply negb_true_iff, Z.eqb_neq. lia. }
      rewrite Ht. unfold Part000.geNumber. cbn. now rewrite Hge.
    + intros _ Ht Hge. now rewrite Ht, Hge.
  - split; [split | split; [ | split]]; try discriminate; try reflexivity.
    intros (H & _). discriminate.
Qed.

(** ** The host *)

Lemma fillPattern_total (random : M N) (pattern : string) :
  (forall w, exists r w', random w = Some (r, w')) ->
  forall w, exists s w', fillPattern random pattern w = Some (s, w').
Proof.
  intros Hrandom. induction pattern as [ | c rest IH]; intros w; cbn.
  - now exists EmptyString, w.
  - destruct (Ascii.eqb c "x" || Ascii.eqb c "y")%bool.
    + unfold bind. destruct (Hrandom w) as (r & w1 & ->).
      destruct (IH w1) as (s & w2 & ->). unfold ret. eauto.
    + unfold bind. destruct (IH w) as (s & w1 & ->). unfold ret. eauto.
Qed.

Lemma fillPattern_length (random : M N) (pattern : string) (w w' : world) (s : string) :
  fillPattern random pattern w = Some (s, w') ->
  String.length s = String.length pattern.
Proof.
  revert w w' s. induction pattern as [ | c rest IH]; intros w w' s; cbn.
  - unfold ret. intros [= <- _]. reflexivity.
  - destruct (Ascii.eqb c "x" || Ascii.eqb c "y")%bool; unfold bind.
    + destruct (random w) as [[r w1] | ]; [ | discriminate].
      destruct (fillPattern random rest w1) as [[s1 w2] | ] eqn:E; [ | discriminate].
      unfold ret. intros [= <- _]. cbn. f_equal. eauto.
    + destruct (fillPattern random rest w) as [[s1 w2] | ] eqn:E; [ | discriminate].
      unfold ret. intros [= <- _]. cbn. f_equal. eauto.
Qed.

Lemma generateId_same (w : world) : AppLib.generateId w = Part000.generateId w.
Proof. reflexivity. Qed.

Lemma generateId_total (w : world) :
  exists id w', Part000.generateId w = Some (id, w').
Proof.
  unfold Part000.generateId, randomUUID.
  destruct (hasRandomUUID w); apply fillPattern_total; intros w0;
    unfold nextSecure, nextMathRandom; eauto.
Qed.

Lemma generateId_length (w w' : world) (id : string) :
  Part000.generateId w = Some (id, w') -> String.length id = 36.
Proof.
  unfold Part000.generateId, randomUUID.
  destruct (hasRandomUUID w); intros H; now apply fillPattern_length in H.
Qed.

Lemma generateId_truthy (w w' : world) (id : string) :
  Part000.generateId w = Some (id, w') -> truthy (VStr id) = true.
Proof.
  intros H. apply generateId_length in H. destruct id; [discriminate | reflexivity].
Qed.

Lemma append_nonempty (a b : string) (c : ascii) :
  String.eqb (a ++ String c b) "" = false.
Proof. destruct a; reflexivity. Qed.

Lemma toISOString_truthy (t : instant) : truthy (VStr (toISOString t)) = true.
Proof.
  unfold toISOString. cbn [truthy].
  change ("-" ++ ?rest)%string with (String "-" rest).
  now rewrite append_nonempty.
Qed.

Lemma now_total (w : world) :
  exists t w', now w = Some (toISOString t, w').
Proof. unfold now, bind, newDate, ret. eauto. Qed.

(** ** Validator *)

Lemma getProp_some (v : value) (k : string) :
  nullish v = false -> getProp v k = Some (member v k).
Proof. unfold getProp. now intros ->. Qed.

Lemma truthy_not_nullish (v : value) : truthy v = true -> nullish v = false.
Proof. destruct v; cbn; congruence. Qed.

Lemma arrayOrEmpty_array (x : value) : exists l, arrayOrEmpty x = VArr l.
Proof. unfold arrayOrEmpty. destruct x; cbn; eauto. Qed.

Lemma objectOrEmpty_object (x : value) : exists ps, objectOrEmpty x = VObj ps.
Proof.
  unfold objectOrEmpty.
  destruct x; cbn; rewrite ?andb_false_r; cbn; eauto.
Qed.

Lemma refreshMsOf_sound (r : value) : isRefreshMs (refreshMsOf r) = true.
Proof.
  destruct r as [ | | b | n | s | l | ps]; try reflexivity.
  cbn. destruct (number_geb n (Fin 5000)) eqn:E; cbn; [exact E | reflexivity].
Qed.

Lemma refreshMsOf_fixed (r : value) : isRefreshMs r = true -> refreshMsOf r = r.
Proof.
  destruct r as [ | | b | n | s | l | ps]; try discriminate.
  cbn. now intros ->.
Qed.

Lemma repairPortfolio_sound (p p' : value) (w w' : world) :
  Part000.repairPortfolio p w = Some (p', w') -> soundPortfolio p'.
Proof.
  unfold Part000.repairPortfolio, bind, lift, getProp.
  destruct (nullish p); [discriminate | ].
  intros H.
  assert (Hid : exists id w1, truthy id = true /\
     (if truthy (member p "id") then ret (member p "id")
      else fun w0 => match Part000.generateId w0 with
                     | Some (s, w2) => ret (VStr s) w2
                     | None => None
                     end) w = Some (id, w1)).
  { destruct (truthy (member p "id")) eqn:Ht.
    - unfold ret. eauto.
    - destruct (generateId_total w) as (s & w1 & E). rewrite E.
      unfold ret. eauto using generateId_truthy. }
  destruct Hid as (id & w1 & Hid & E). rewrite E in H. clear E.
  assert (Hc : exists c w2, truthy c = true /\
     (if truthy (member p "createdAt") then ret (member p "createdAt")
      else fun w0 => match now w0 with
                     | Some (s, w3) => ret (VStr s) w3
                     | None => None
                     end) w1 = Some (c, w2)).
  { destruct (truthy (member p "createdAt")) eqn:Ht.
    - unfold ret. eauto.
    - destruct (now_total w1) as (t & w2 & E). rewrite E.
      unfold ret. eauto using toISOString_truthy. }
  destruct Hc as (c & w2 & Hc & E). rewrite E in H. clear E.
  unfold ret in H. injection H as <- <-.
  destruct (arrayOrEmpty_array (member p "funds")) as (funds & ->).
  destruct (arrayOrEmpty_array (member p "favorites")) as (favorites & ->).
  destruct (arrayOrEmpty_array (member p "groups")) as (groups & ->).
  destruct (arrayOrEmpty_array (member p "pendingTrades")) as (trades & ->).
  destruct (objectOrEmpty_object (member p "holdings")) as (holdings & ->).
  exists id, (orElse (member p "name") (VStr "未命名账本")), c,
    funds, favorites, groups, holdings, trades.
  repeat split; try assumption.
  unfold orElse. destruct (truthy (member p "name")) eqn:Ht; [exact Ht | reflexivity].
Qed.

Lemma repairPortfolio_fixed (p : value) (w : world) :
  soundPortfolio p -> Part000.repairPortfolio p w = Some (p, w).
Proof.
  intros (id & name & createdAt & funds & favorites & groups & holdings & trades
          & -> & Hid & Hname & Hc).
  unfold Part000.repairPortfolio, bind, lift, getProp. cbn.
  rewrite Hid, Hc. unfold ret, orElse. now rewrite Hname.
Qed.

Lemma mapM_repair_sound (ps ps' : list value) (w w' : world) :
  mapM Part000.repairPortfolio ps w = Some (ps', w') ->
  Forall soundPortfolio ps' /\ List.length ps' = List.length ps.
Proof.
  revert ps' w w'. induction ps as [ | p ps IH]; intros ps' w w'; cbn.
  - unfold ret. intros [= <- _]. now split.
  - unfold bind.
    destruct (Part000.repairPortfolio p w) as [[p1 w1] | ] eqn:E; [ | discriminate].
    destruct (mapM Part000.repairPortfolio ps w1) as [[ps1 w2] | ] eqn:E'; [ | discriminate].
    unfold ret. intros [= <- _].
    destruct (IH _ _ _ E') as (Hs & Hl).
    split; [ | cbn; now f_equal].
    constructor; [ | exact Hs]. eauto using repairPortfolio_sound.
Qed.

Lemma mapM_repair_fixed (ps : list value) (w : world) :
  Forall soundPortfolio ps -> mapM Part000.repairPortfolio ps w = Some (ps, w).
Proof.
  induction 1 as [ | p ps Hp _ IH]; cbn; [reflexivity | ].
  unfold bind. rewrite (repairPortfolio_fixed _ _ Hp), IH. reflexivity.
Qed.

Lemma createPortfolio_result (name : value) (w : world) :
  exists id t w',
    Part000.createPortfolio name w
    = Some (VObj [("id", VStr id);
                  ("name", orElse name (VStr "新账本"));
                  ("createdAt", VStr (toISOString t));
                  ("funds", VArr []);
                  ("favorites", VArr []);
                  ("groups", VArr []);
                  ("holdings", VObj []);
                  ("pendingTrades", VArr [])], w')
    /\ String.length id = 36.
Proof.
  unfold Part000.createPortfolio, bind.
  destruct (generateId_total w) as (id & w1 & E). rewrite E.
  destruct (now_total w1) as (t & w2 & E'). rewrite E'.
  exists id, t, w2. split; [reflexivity | eauto using generateId_length].
Qed.

Lemma createEmptyV2Data_result (w : world) :
  exists id t w',
    Part000.createEmptyV2Data w = Some (emptyDocument id (toISOString t), w')
    /\ String.length id = 36.
Proof.
  unfold Part000.createEmptyV2Data, bind.
  destruct (generateId_total w) as (id & w1 & E). rewrite E.
  destruct (now_total w1) as (t & w2 & E'). rewrite E'.
  exists id, t, w2. split; [reflexivity | eauto using generateId_length].
Qed.

Lemma emptyPortfolio_sound (id name : string) (t : instant) :
  String.length id = 36 -> truthy (VStr name) = true ->
  soundPortfolio (emptyPortfolio id name (toISOString t)).
Proof.
  intros Hid Hname.
  exists (VStr id), (VStr name), (VStr (toISOString t)), [], [], [], [], [].
  repeat split; try assumption.
  - destruct id; [discriminate | reflexivity].
  - apply toISOString_truthy.
Qed.

Lemma validateV2Data_same (data : value) (w : world) :
  AppLib.validateV2Data data w = Part000.validateV2Data data w.
Proof.
  unfold AppLib.validateV2Data, Part000.validateV2Data.
  destruct (negb (truthy data) || negb (String.eqb (typeof data) "object"))%bool.
  - unfold Part000.createEmptyV2Data, AppLib.createPortfolio, bind.
    rewrite generateId_same.
    destruct (Part000.generateId w) as [[id w1] | ]; reflexivity.
  - reflexivity.
Qed.

Lemma validateV2Data_default (x : value) (w : world) :
  isObject x = true ->
  isArray (member x "portfolios") = false \/ member x "portfolios" = VArr [] ->
  exists id t w',
    Part000.validateV2Data x w
    = Some (VObj [("version", VNum (Fin 2));
                  ("refreshMs", refreshMsOf (member x "refreshMs"));
                  ("portfolios",
                   VArr [emptyPortfolio id "默认账本" (toISOString t)])], w')
    /\ String.length id = 36.
Proof.
  intros Hobj Hnone.
  unfold Part000.validateV2Data. rewrite isObject_guard, Hobj. cbn [negb].
  destruct (createPortfolio_result (VStr "默认账本") w) as (id & t & w' & E & Hid).
  exists id, t, w'. split; [ | exact Hid].
  assert (Hbranch :
    match member x "portfolios" with
    | VArr (p :: ps) => mapM Part000.repairPortfolio (p :: ps)
    | _ => p <- Part000.createPortfolio (VStr "默认账本") ;; ret [p]
    end = (p <- Part000.createPortfolio (VStr "默认账本") ;; ret [p])).
  { destruct Hnone as [H | H].
    - destruct (member x "portfolios"); try reflexivity. discriminate.
    - now rewrite H. }
  rewrite Hbranch. unfold bind. rewrite E. reflexivity.
Qed.

Lemma validateV2Data_sound (x d : value) (w w' : world) :
  Part000.validateV2Data x w = Some (d, w') -> soundDocument d.
Proof.
  destruct (isObject x) eqn:Hobj.
  - destruct (member x "portfolios") as [ | | b | n | s | [ | p ps] | props] eqn:Hp.
    7: { unfold Part000.validateV2Data. rewrite isObject_guard, Hobj, Hp.
         cbn [negb]. unfold bind.
         destruct (mapM Part000.repairPortfolio (p :: ps) w) as [[ps' w1] | ] eqn:E;
           [ | discriminate].
         unfold ret. intros [= <- _].
         destruct (mapM_repair_sound _ _ _ _ E) as (Hs & Hl).
         destruct ps' as [ | p' ps']; [discriminate | ].
         exists (refreshMsOf (member x "refreshMs")), p', ps'.
         split; [reflexivity | split; [apply refreshMsOf_sound | exact Hs]]. }
    all: destruct (validateV2Data_default x w Hobj) as (id & t & w1 & E & Hid);
      [rewrite Hp; (now left) || (now right) | ];
      rewrite E; intros [= <- _];
      exists (refreshMsOf (member x "refreshMs")),
        (emptyPortfolio id "默认账本" (toISOString t)), [];
      (split; [reflexivity | split; [apply refreshMsOf_sound | ]]);
      constructor; [now apply emptyPortfolio_sound | constructor].
  - unfold Part000.validateV2Data. rewrite isObject_guard, Hobj. cbn [negb].
    destruct (createEmptyV2Data_result w) as (id & t & w1 & E & Hid).
    rewrite E. intros [= <- _].
    exists (VNum (Fin 30000)), (emptyPortfolio id "默认账本" (toISOString t)), [].
    split; [reflexivity | split; [reflexivity | ]].
    constructor; [now apply emptyPortfolio_sound | constructor].
Qed.

Lemma validateV2Data_fixed (d : value) (w : world) :
  soundDocument d -> Part000.validateV2Data d w = Some (d, w).
Proof.
  intros (r & p & ps & -> & Hr & Hps).
  unfold Part000.validateV2Data. rewrite isObject_guard. cbn [isObject negb].
  change (member _ "portfolios") with (VArr (p :: ps)).
  change (member _ "refreshMs") with r.
  cbv iota. unfold bind.
  rewrite (mapM_repair_fixed _ w Hps). unfold ret.
  now rewrite (refreshMsOf_fixed _ Hr).
Qed.

Lemma soundPortfolio_keys (p : value) : soundPortfolio p -> keys p = portfolioKeys.
Proof.
  intros (id & name & createdAt & funds & favorites & groups & holdings & trades
          & -> & _). reflexivity.
Qed.

(** C3. Validating twice is validating once: the document that
    [validateV2Data] returns passes every check of a second run, which
    returns it as it is and reads neither the random source nor the clock. *)
Theorem validateV2Data_idempotent (x : value) (w : world) :
  bind (Part000.validateV2Data x) Part000.validateV2Data w
  = Part000.validateV2Data x w
  /\ (forall d w',
        Part000.validateV2Data x w = Some (d, w') ->
        soundDocument d
        /\ forall w'', Part000.validateV2Data d w'' = Some (d, w'')).
Proof.
  split.
  - unfold bind.
    destruct (Part000.validateV2Data x w) as [[d w'] | ] eqn:E; [ | reflexivity].
    apply validateV2Data_fixed. eauto using validateV2Data_sound.
  - intros d w' E. pose proof (validateV2Data_sound _ _ _ _ E) as Hd.
    split; [exact Hd | ]. intros w''. now apply validateV2Data_fixed.
Qed.

(** C7. On a value that is not an object, null included, [validateV2Data]
    is [createEmptyV2Data]: it returns the empty document (version 2,
    refreshMs 30000, one default portfolio) with a fresh id and timestamp.
    On an object whose [portfolios] is absent, not an array or an empty
    array, the result holds exactly one freshly created default portfolio. *)
Theorem validateV2Data_defaults (v : value) (w : world) :
  (isObject v = false ->
     Part000.validateV2Data v w = Part000.createEmptyV2Data w
     /\ exists id t w',
          Part000.validateV2Data v w = Some (emptyDocument id (toISOString t), w')
          /\ String.length id = 36)
  /\ (exists id t w',
        Part000.createEmptyV2Data w = Some (emptyDocument id (toISOString t), w'))
  /\ (isObject v = true ->
      isArray (member v "portfolios") = false \/ member v "portfolios" = VArr [] ->
      exists refreshMs id t w',
        Part000.validateV2Data v w
        = Some (VObj [("version", VNum (Fin 2));
                      ("refreshMs", refreshMs);
                      ("portfolios",
                       VArr [emptyPortfolio id "默认账本" (toISOString t)])], w')
        /\ isRefreshMs refreshMs = true
        /\ String.length id = 36).
Proof.
  split; [ | split].
  - intros Hobj.
    assert (E : Part000.validateV2Data v w = Part000.createEmptyV2Data w).
    { unfold Part000.validateV2Data. now rewrite isObject_guard, Hobj. }
    split; [exact E | ]. rewrite E.
    destruct (createEmptyV2Data_result w) as (id & t & w' & E' & Hid). eauto.
  - destruct (createEmptyV2Data_result w) as (id & t & w' & E' & Hid). eauto.
  - intros Hobj Hnone.
    destruct (validateV2Data_default v w Hobj Hnone) as (id & t & w' & E & Hid).
    exists (refreshMsOf (member v "refreshMs")), id, t, w'.
    split; [exact E | split; [apply refreshMsOf_sound | exact Hid]].
Qed.

(** C9. The functions that the two modules both define agree on every
    input and in every world: [generateId], [createPortfolio] and
    [validateV2Data], the last also where one copy writes out the empty
    document that the other obtains from [createEmptyV2Data]. *)
Theorem modules_agree :
  (forall w, AppLib.generateId w = Part000.generateId w)
  /\ (forall name w, AppLib.createPortfolio name w = Part000.createPortfolio name w)
  /\ (forall data w, AppLib.validateV2Data data w = Part000.validateV2Data data w).
Proof.
  split; [ | split].
  - exact generateId_same.
  - reflexivity.
  - exact validateV2Data_same.
Qed.

(** ** Migrator *)

Lemma refreshMsOf_carried (r : value) :
  carriedOver isRefreshMs r (VNum (Fin 30000)) (refreshMsOf r).
Proof.
  unfold carriedOver. destruct r; cbn; try (split; congruence).
  destruct (number_geb n (Fin 5000)); split; congruence.
Qed.

Lemma arrayOrEmpty_carried (x : value) :
  carriedOver isArray x (VArr []) (arrayOrEmpty x).
Proof.
  unfold carriedOver, arrayOrEmpty. destruct (isArray x); split; congruence.
Qed.

Lemma objectOrEmpty_carried (x : value) :
  carriedOver isPlainObject x (VObj []) (objectOrEmpty x).
Proof.
  unfold carriedOver, objectOrEmpty.
  destruct x; cbn; rewrite ?andb_false_r; cbn; split; congruence.
Qed.

(** C6. [migrateToV2] of an object returns a version-2 document with
    exactly one portfolio.  Its [refreshMs] is the legacy one when that is a
    number [>= 5000] and 30000 otherwise; [funds], [favorites], [groups] and
    [pendingTrades] are the legacy values verbatim when arrays and [[]]
    otherwise, nothing filtered; [holdings] is the legacy value verbatim
    when a non-array object and [{}] otherwise; the name is the one given,
    the default when none is. *)
Theorem migrateToV2_shape (d name : value) (w : world) :
  isObject d = true ->
  exists id t w' refreshMs portfolioName funds favorites groups holdings pendingTrades,
    Part000.migrateToV2 d name w
    = Some (VObj [("version", VNum (Fin 2));
                  ("refreshMs", refreshMs);
                  ("portfolios",
                   VArr [VObj [("id", VStr id);
                               ("name", portfolioName);
                               ("createdAt", VStr (toISOString t));
                               ("funds", funds);
                               ("favorites", favorites);
                               ("groups", groups);
                               ("holdings", holdings);
                               ("pendingTrades", pendingTrades)]])], w')
    /\ String.length id = 36
    /\ carriedOver isRefreshMs (member d "refreshMs") (VNum (Fin 30000)) refreshMs
    /\ carriedOver notUndefined name (VStr "默认账本") portfolioName
    /\ carriedOver isArray (member d "funds") (VArr []) funds
    /\ carriedOver isArray (member d "favorites") (VArr []) favorites
    /\ carriedOver isArray (member d "groups") (VArr []) groups
    /\ carriedOver isPlainObject (member d "holdings") (VObj []) holdings
    /\ carriedOver isArray (member d "pendingTrades") (VArr []) pendingTrades.
Proof.
  intros Hobj.
  assert (Hn : nullish d = false) by (destruct d; discriminate || reflexivity).
  destruct (generateId_total w) as (id & w1 & E).
  destruct (now_total w1) as (t & w2 & E').
  exists id, t, w2, (refreshMsOf (member d "refreshMs")),
    (if notUndefined name then name else VStr "默认账本"),
    (arrayOrEmpty (member d "funds")), (arrayOrEmpty (member d "favorites")),
    (arrayOrEmpty (member d "groups")), (objectOrEmpty (member d "holdings")),
    (arrayOrEmpty (member d "pendingTrades")).
  split.
  { unfold Part000.migrateToV2, bind, lift. rewrite E, E'.
    rewrite !(getProp_some _ _ Hn). reflexivity. }
  split; [eauto using generateId_length | ].
  split; [apply refreshMsOf_carried | ].
  split; [unfold carriedOver; destruct (notUndefined name); split; congruence | ].
  repeat split; try apply arrayOrEmpty_carried; apply objectOrEmpty_carried.
Qed.

(** ** Property lists *)

Lemma assoc_assocSet_same (ps : plist) (k : string) (v : value) :
  assoc k (assocSet ps k v) = Some v.
Proof.
  induction ps as [ | [k' v'] r IH]; cbn.
  - now rewrite String.eqb_refl.
  - destruct (String.eqb k' k) eqn:E; cbn; rewrite E; [reflexivity | exact IH].
Qed.

Lemma assoc_assocSet_other (ps : plist) (k k' : string) (v : value) :
  k <> k' -> assoc k' (assocSet ps k v) = assoc k' ps.
Proof.
  intros Hne. induction ps as [ | [k0 v0] r IH]; cbn.
  - apply String.eqb_neq in Hne. now rewrite Hne.
  - destruct (String.eqb k0 k) eqn:E; cbn.
    + apply String.eqb_eq in E. subst k0.
      apply String.eqb_neq in Hne. now rewrite Hne.
    + now rewrite IH.
Qed.

Lemma assoc_assocSet (ps : plist) (k k' : string) (v : value) :
  assoc k' (assocSet ps k v) = if String.eqb k k' then Some v else assoc k' ps.
Proof.
  destruct (String.eqb k k') eqn:E.
  - apply String.eqb_eq in E. subst. apply assoc_assocSet_same.
  - apply String.eqb_neq in E. now apply assoc_assocSet_other.
Qed.

Lemma assocSet_fresh (m : plist) (k : string) (v : value) :
  ~ In k (map fst m) -> assocSet m k v = m ++ [(k, v)].
Proof.
  induction m as [ | [k' v'] m IH]; cbn; [reflexivity | ].
  intros H. destruct (String.eqb k' k) eqn:E.
  - apply String.eqb_eq in E. subst. exfalso. apply H. now left.
  - f_equal. apply IH. intros Hin. apply H. now right.
Qed.

Lemma keys_assocSet (ps : plist) (k : string) (v : value) :
  map fst (assocSet ps k v)
  = if existsb (String.eqb k) (map fst ps) then map fst ps else map fst ps ++ [k].
Proof.
  induction ps as [ | [k' v'] r IH]; cbn; [reflexivity | ].
  rewrite (String.eqb_sym k k').
  destruct (String.eqb k' k) eqn:E; cbn; [reflexivity | ].
  rewrite IH. now destruct (existsb (String.eqb k) (map fst r)).
Qed.

Lemma values_assocSet (P : value -> Prop) (ps : plist) (k : string) (v : value) :
  P v -> Forall P (map snd ps) -> Forall P (map snd (assocSet ps k v)).
Proof.
  intros Hv. induction ps as [ | [k' v'] r IH]; cbn; intros H.
  - now constructor.
  - inversion H as [ | x l Hx Hl]; subst.
    destruct (String.eqb k' k); cbn; constructor; auto.
Qed.

Lemma member_obj (ps : plist) (k : string) :
  member (VObj ps) k = match assoc k ps with Some x => x | None => VUndefined end.
Proof. reflexivity. Qed.

(** What an overlay of the five merged collections leaves in place. *)
Lemma overlay_merged (base : plist) (funds favorites groups holdings trades : value) :
  let r := overlay base [("funds", funds); ("favorites", favorites);
                         ("groups", groups); ("holdings", holdings);
                         ("pendingTrades", trades)] in
  assoc "funds" r = Some funds
  /\ assoc "favorites" r = Some favorites
  /\ assoc "groups" r = Some groups
  /\ assoc "holdings" r = Some holdings
  /\ assoc "pendingTrades" r = Some trades
  /\ forall k, ~ In k mergedKeys -> assoc k r = assoc k base.
Proof.
  cbn. repeat split.
  1-5: repeat (rewrite assoc_assocSet; cbn [String.eqb Ascii.eqb Bool.eqb]);
    try reflexivity; apply assoc_assocSet_same.
  intros k Hk. unfold mergedKeys in Hk. cbn in Hk.
  rewrite !assoc_assocSet_other; [reflexivity | | | | | ];
    intros <-; apply Hk; tauto.
Qed.

(** ** Merger: the run behind a result *)

Lemma merge_falsy (portfolio oldData : value) :
  truthy portfolio = false \/ truthy oldData = false ->
  Part000.mergeOldDataToPortfolio portfolio oldData = Some portfolio.
Proof.
  unfold Part000.mergeOldDataToPortfolio.
  intros [-> | ->]; cbn; [reflexivity | now rewrite orb_true_r].
Qed.

Lemma merge_inv (portfolio oldData r : value) :
  truthy portfolio = true -> truthy oldData = true ->
  Part000.mergeOldDataToPortfolio portfolio oldData = Some r ->
  exists portfolioFunds existing oldFunds codes portfolioFavorites oldFavorites
         portfolioGroups oldGroups mergedGroups portfolioTrades pending1
         oldTrades pending2,
    asArray (orElse (member portfolio "funds") (VArr [])) = Some portfolioFunds
    /\ Part000.codesOf portfolioFunds = Some existing
    /\ asArray (orElse (member oldData "funds") (VArr [])) = Some oldFunds
    /\ Part000.codesOf
         (portfolioFunds ++ filter (Part000.isNewFund (setOf existing)) oldFunds)
       = Some codes
    /\ iterate (orElse (member portfolio "favorites") (VArr [])) = Some portfolioFavorites
    /\ iterate (orElse (member oldData "favorites") (VArr [])) = Some oldFavorites
    /\ iterate (orElse (member portfolio "groups") (VArr [])) = Some portfolioGroups
    /\ asArray (orElse (member oldData "groups") (VArr [])) = Some oldGroups
    /\ Part000.mergeGroups (setOf codes) portfolioGroups oldGroups = Some mergedGroups
    /\ asArray (orElse (member portfolio "pendingTrades") (VArr [])) = Some portfolioTrades
    /\ Part000.addTrades (setOf codes) [] portfolioTrades = Some pending1
    /\ asArray (orElse (member oldData "pendingTrades") (VArr [])) = Some oldTrades
    /\ Part000.addTrades (setOf codes) pending1 oldTrades = Some pending2
    /\ r = VObj (overlay (ownProps portfolio)
                   [("funds",
                     VArr (portfolioFunds
                           ++ filter (Part000.isNewFund (setOf existing)) oldFunds));
                    ("favorites",
                     VArr (filter (has (setOf codes))
                             (setOf (portfolioFavorites ++ oldFavorites))));
                    ("groups", VArr mergedGroups);
                    ("holdings",
                     VObj (Part000.pruneHoldings (setOf codes)
                             (overlay
                                (ownProps (orElse (member portfolio "holdings") (VObj [])))
                                (ownProps (orElse (member oldData "holdings") (VObj []))))));
                    ("pendingTrades", VArr (map snd pending2))]).
Proof.
  intros Hp Ho. unfold Part000.mergeOldDataToPortfolio.
  rewrite Hp, Ho. cbn [negb orb]. intros H.
  repeat obind_inv H.
  injection H as <-.
  do 13 eexists. repeat split; eassumption || reflexivity.
Qed.

Lemma merge_frame (portfolio oldData r : value) :
  truthy portfolio = true -> truthy oldData = true ->
  Part000.mergeOldDataToPortfolio portfolio oldData = Some r ->
  isPlainObject r = true
  /\ (forall k, ~ In k mergedKeys ->
        assoc k (ownProps r) = assoc k (ownProps portfolio))
  /\ (isPlainObject portfolio = true ->
      forall k, ~ In k mergedKeys -> member r k = member portfolio k)
  /\ isArray (member r "funds") = true
  /\ isArray (member r "favorites") = true
  /\ isArray (member r "groups") = true
  /\ isPlainObject (member r "holdings") = true
  /\ isArray (member r "pendingTrades") = true.
Proof.
  intros Hp Ho H.
  destruct (merge_inv _ _ _ Hp Ho H)
    as (pf & ex & olf & codes & pfav & ofav & pg & og & mg & pt & m1 & ot & m2
        & _ & _ & _ & _ & _ & _ & _ & _ & _ & _ & _ & _ & _ & ->).
  match goal with
  | |- context [overlay ?b [("funds", ?f); ("favorites", ?fa); ("groups", ?g);
                            ("holdings", ?h); ("pendingTrades", ?t)]] =>
      destruct (overlay_merged b f fa g h t) as (Hf & Hfa & Hg & Hh & Ht & Hk)
  end.
  cbn zeta in *.
  split; [reflexivity | ].
  split; [exact Hk | ].
  split.
  { intros Hplain k Hnot. destruct portfolio; try discriminate.
    rewrite !member_obj. cbn [ownProps] in Hk. now rewrite Hk. }
  rewrite !member_obj, Hf, Hfa, Hg, Hh, Ht. repeat split.
Qed.

(** ** Sets of codes *)

Lemma has_app (a b : list value) (x : value) :
  has (a ++ b) x = (has a x || has b x)%bool.
Proof. apply existsb_app. Qed.

Lemma has_In (l : list value) (x : value) : has l x = true -> In x l.
Proof.
  unfold has. rewrite existsb_exists. intros (y & Hy & E).
  apply sameValueZero_eq in E. now subst.
Qed.

Lemma has_fold_setAdd (l acc : list value) (x : value) :
  has (fold_left setAdd l acc) x = (has acc x || has l x)%bool.
Proof.
  revert acc. induction l as [ | y l IH]; intros acc; cbn [fold_left].
  - unfold has at 3. cbn. now rewrite orb_false_r.
  - rewrite IH.
    change (has (y :: l) x) with (sameValueZero x y || has l x)%bool.
    unfold setAdd. destruct (has acc y) eqn:E.
    + destruct (has acc x) eqn:Ex; [reflexivity | cbn].
      destruct (sameValueZero x y) eqn:Exy; [ | reflexivity].
      apply sameValueZero_eq in Exy. subst. congruence.
    + rewrite has_app.
      change (has [y] x) with (sameValueZero x y || false)%bool.
      now rewrite orb_false_r, orb_assoc.
Qed.

Lemma has_setOf (l : list value) (x : value) : has (setOf l) x = has l x.
Proof. unfold setOf. now rewrite has_fold_setAdd. Qed.

Lemma has_setOf_In (l : list value) (x : value) : has (setOf l) x = true -> In x l.
Proof. rewrite has_setOf. apply has_In. Qed.

Lemma filter_has_In (codes l : list value) :
  Forall (fun c => In c codes) (filter (has (setOf codes)) l).
Proof.
  apply Forall_forall. intros c Hc. apply filter_In in Hc.
  now apply has_setOf_In.
Qed.

Lemma has_filter_false (f : value -> bool) (l : list value) (x : value) :
  has l x = false -> has (filter f l) x = false.
Proof.
  unfold has. induction l as [ | y l IH]; cbn; [reflexivity | ].
  intros H. apply orb_false_iff in H. destruct H as (Hy & Hl).
  destruct (f y); cbn; [rewrite Hy | ]; auto.
Qed.

Lemma distinctCodes_filter (f : value -> bool) (l : list value) :
  distinctCodes l -> distinctCodes (filter f l).
Proof.
  induction l as [ | c l IH]; cbn; [trivial | ].
  intros (Hc & Hl). destruct (f c); cbn; auto using has_filter_false.
Qed.

Lemma distinctCodes_app (a b : list value) :
  distinctCodes a -> distinctCodes b ->
  (forall x, In x b -> has a x = false) ->
  distinctCodes (a ++ b).
Proof.
  intros Ha Hb Hab. induction a as [ | c a IH]; cbn; [exact Hb | ].
  destruct Ha as (Hc & Ha). split.
  - rewrite has_app, Hc. cbn.
    destruct (has b c) eqn:E; [ | reflexivity].
    unfold has in E. apply existsb_exists in E. destruct E as (y & Hy & Ecy).
    specialize (Hab y Hy). cbn in Hab. rewrite sameValueZero_sym, Ecy in Hab.
    discriminate.
  - apply IH; [exact Ha | ]. intros x Hx. specialize (Hab x Hx).
    cbn in Hab. now apply orb_false_iff in Hab.
Qed.

(** ** Merger: funds *)

Lemma codesOf_fundCodes (funds codes : list value) :
  Part000.codesOf funds = Some codes -> codes = fundCodes funds.
Proof.
  unfold Part000.codesOf.
  revert codes. induction funds as [ | f funds IH]; intros codes H; cbn [mapOpt] in H.
  - now injection H as <-.
  - unfold getProp in H. destruct (nullish f); [discriminate H | ].
    cbn [obind] in H. obind_inv H. injection H as <-.
    cbn. f_equal. now apply IH.
Qed.

Lemma fundCodes_filter (q : value -> bool) (funds : list value) :
  fundCodes (filter (fun f => q (member f "code")) funds)
  = filter q (fundCodes funds).
Proof.
  unfold fundCodes.
  induction funds as [ | f funds IH]; cbn [filter map]; [reflexivity | ].
  destruct (q (member f "code")) eqn:E; cbn [filter map]; now rewrite IH.
Qed.

Lemma filter_isNewFund (existingCodes funds : list value) :
  filter (Part000.isNewFund existingCodes) funds
  = filter (fun f => negb (has existingCodes (member f "code")))
      (filter hasCode funds).
Proof.
  induction funds as [ | f funds IH]; cbn [filter]; [reflexivity | ].
  unfold Part000.isNewFund at 1. fold (hasCode f).
  destruct (hasCode f); cbn [filter andb]; [ | exact IH].
  destruct (has existingCodes (member f "code")); cbn [negb]; now rewrite IH.
Qed.

Lemma asArray_orElse (x : value) (l : list value) :
  asArray (orElse x (VArr [])) = Some l -> l = arrayItems x.
Proof.
  unfold orElse. destruct (truthy x) eqn:Ht.
  - destruct x; cbn; congruence.
  - cbn. intros [= <-]. destruct x; cbn in *; congruence.
Qed.

Lemma mergedFunds_distinct (existing legacy : list value) :
  distinctCodes (fundCodes existing) ->
  distinctCodes (fundCodes (filter hasCode legacy)) ->
  distinctCodes
    (fundCodes
       (existing
        ++ filter (Part000.isNewFund (setOf (fundCodes existing))) legacy)).
Proof.
  intros He Hl. unfold fundCodes at 1. rewrite map_app. fold (fundCodes existing).
  rewrite filter_isNewFund.
  change (map (fun f => member f "code") ?l) with (fundCodes l).
  rewrite (fundCodes_filter (fun c => negb (has (setOf (fundCodes existing)) c))).
  apply distinctCodes_app.
  - exact He.
  - now apply distinctCodes_filter.
  - intros x Hx. apply filter_In in Hx. destruct Hx as (_ & Hx).
    rewrite has_setOf in Hx. now apply negb_true_iff in Hx.
Qed.

(** ** Merger: groups *)

Lemma Forall_update (P : value -> Prop) (i : nat) (v : value) (l : list value) :
  P v -> Forall P l -> Forall P (update i v l).
Proof.
  intros Hv. revert i. induction l as [ | x l IH]; intros i H; cbn.
  - destruct i; constructor.
  - inversion H as [ | y r Hx Hl]; subst. destruct i; constructor; auto.
Qed.

Lemma assocSet_codes (ps : plist) (codes : value) :
  member (VObj (assocSet ps "codes" codes)) "codes" = codes.
Proof. rewrite member_obj. now rewrite assoc_assocSet_same. Qed.

Lemma mergeGroup_closed (codes merged out : list value) (incoming : value) :
  Forall (groupClosed codes) merged ->
  Part000.mergeGroup (setOf codes) merged incoming = Some out ->
  Forall (groupClosed codes) out.
Proof.
  intros Hm H. unfold Part000.mergeGroup in H.
  obind_inv H. destruct o as [i | ].
  - repeat obind_inv H. injection H as <-.
    apply Forall_update; [ | exact Hm].
    unfold groupClosed. rewrite assocSet_codes. apply filter_has_In.
  - repeat obind_inv H. injection H as <-.
    apply Forall_app. split; [exact Hm | ].
    constructor; [ | constructor].
    unfold groupClosed. rewrite assocSet_codes. apply filter_has_In.
Qed.

Lemma mergeGroups_closed (codes incoming merged out : list value) :
  Forall (groupClosed codes) merged ->
  Part000.mergeGroups (setOf codes) merged incoming = Some out ->
  Forall (groupClosed codes) out.
Proof.
  revert merged. induction incoming as [ | g rest IH]; intros merged Hm H;
    cbn [Part000.mergeGroups] in H.
  - now injection H as <-.
  - obind_inv H. eauto using mergeGroup_closed.
Qed.

Lemma assoc_In (k : string) (ps : plist) (x : value) :
  assoc k ps = Some x -> exists k', In (k', x) ps.
Proof.
  induction ps as [ | [k' v] r IH]; cbn; [discriminate | ].
  destruct (String.eqb k' k).
  - intros [= <-]. eauto.
  - intros H. destruct (IH H) as (k0 & Hk0). eauto.
Qed.

(** A property of a string is a character, its length or undefined: never
    an array. *)
Lemma member_string_items (s k : string) : arrayItems (member (VStr s) k) = [].
Proof.
  unfold member. cbn [ownProps].
  destruct (assoc k (indexed (characters s))) as [x | ] eqn:E.
  - apply assoc_In in E. destruct E as (k' & Hin).
    apply in_combine_r in Hin. unfold characters in Hin.
    apply in_map_iff in Hin. destruct Hin as (c & <- & _). reflexivity.
  - destruct (String.eqb k "length"); reflexivity.
Qed.

Lemma iterate_groups_closed (codes : list value) (x : value) (groups : list value) :
  iterate (orElse x (VArr [])) = Some groups ->
  Forall (groupClosed codes) (arrayItems x) ->
  Forall (groupClosed codes) groups.
Proof.
  unfold orElse. destruct (truthy x) eqn:Ht.
  - destruct x; cbn [iterate]; try discriminate.
    + intros [= <-] _. apply Forall_forall. intros g Hg.
      unfold characters in Hg. apply in_map_iff in Hg. destruct Hg as (c & <- & _).
      unfold groupClosed. now rewrite member_string_items.
    + now intros [= <-].
  - cbn. intros [= <-] _. constructor.
Qed.

Lemma groupClosed_weaken (codes codes' : list value) (g : value) :
  (forall c, In c codes -> In c codes') -> groupClosed codes g -> groupClosed codes' g.
Proof. unfold groupClosed. intros Hsub. apply Forall_impl. exact Hsub. Qed.

(** ** Merger: holdings *)

Lemma keys_assocRemove (h : plist) (c k : string) :
  In k (map fst (assocRemove h c)) -> In k (map fst h) /\ k <> c.
Proof.
  unfold assocRemove. intros H. apply in_map_iff in H.
  destruct H as ([k' v] & <- & Hin). apply filter_In in Hin.
  destruct Hin as (Hin & Hne). cbn in *. split.
  - apply in_map_iff. now exists (k', v).
  - apply negb_true_iff, String.eqb_neq in Hne. exact Hne.
Qed.

Lemma prune_keys (allCodes : list value) (ks : list string) (h : plist) (k : string) :
  In k (map fst
          (fold_left
             (fun holdings code =>
                if has allCodes (VStr code) then holdings
                else assocRemove holdings code) ks h)) ->
  In k (map fst h) /\ (In k ks -> has allCodes (VStr k) = true).
Proof.
  revert h. induction ks as [ | c ks IH]; intros h; cbn [fold_left].
  - intros H. split; [exact H | intros []].
  - intros H. apply IH in H. destruct H as (Hin & Hks).
    destruct (has allCodes (VStr c)) eqn:Hc.
    + split; [exact Hin | ]. intros [<- | Hk]; auto.
    + apply keys_assocRemove in Hin. destruct Hin as (Hin & Hne).
      split; [exact Hin | ]. intros [<- | Hk]; [congruence | auto].
Qed.

Lemma pruneHoldings_closed (codes : list value) (h : plist) :
  Forall (fun k => In (VStr k) codes) (map fst (Part000.pruneHoldings (setOf codes) h)).
Proof.
  apply Forall_forall. intros k Hk. unfold Part000.pruneHoldings in Hk.
  apply prune_keys in Hk. destruct Hk as (Hin & Hhas).
  apply has_setOf_In. auto.
Qed.

(** ** Merger: pending trades *)

Lemma addTrades_values (P : value -> Prop) (allCodes : list value)
      (trades : list value) (pendingMap out : plist) :
  (forall t, truthy t = true -> has allCodes (member t "fundCode") = true -> P t) ->
  Forall P (map snd pendingMap) ->
  Part000.addTrades allCodes pendingMap trades = Some out ->
  Forall P (map snd out).
Proof.
  intros HP. revert pendingMap.
  induction trades as [ | t rest IH]; intros m Hm H; cbn [Part000.addTrades] in H.
  - now injection H as <-.
  - obind_inv H. apply (IH p); [ | exact H].
    unfold Part000.addTrade in E.
    destruct (truthy t && has allCodes (member t "fundCode"))%bool eqn:Hret.
    + obind_inv E. injection E as <-.
      apply andb_true_iff in Hret. destruct Hret as (Ht & Hc).
      apply values_assocSet; auto.
    + now injection E as <-.
Qed.

(** ** Merger: the invariant of the result *)

Lemma merged_closed (portfolio oldData r : value) :
  truthy portfolio = true -> truthy oldData = true ->
  Part000.mergeOldDataToPortfolio portfolio oldData = Some r ->
  (distinctFunds portfolio ->
   distinctCodes (fundCodes (filter hasCode (arrayItems (member oldData "funds")))) ->
   distinctFunds r)
  /\ closedFavorites r
  /\ (closedGroups portfolio -> closedGroups r)
  /\ closedHoldings r
  /\ closedTrades r.
Proof.
  intros Hp Ho H.
  destruct (merge_inv _ _ _ Hp Ho H)
    as (pf & ex & olf & codes & pfav & ofav & pg & og & mg & pt & m1 & ot & m2
        & Epf & Eex & Eolf & Ecodes & _ & _ & Epg & _ & Emg & _ & Em1 & _ & Em2 & ->).
  apply asArray_orElse in Epf, Eolf.
  apply codesOf_fundCodes in Eex, Ecodes.
  match goal with
  | |- context [overlay ?b [("funds", ?f); ("favorites", ?fa); ("groups", ?g);
                            ("holdings", ?h); ("pendingTrades", ?t)]] =>
      destruct (overlay_merged b f fa g h t) as (Hf & Hfa & Hg & Hh & Ht & _)
  end.
  cbn zeta in *.
  unfold distinctFunds, closedFavorites, closedGroups, closedHoldings, closedTrades, keys.
  rewrite !member_obj, Hf, Hfa, Hg, Hh, Ht. cbn [arrayItems ownProps].
  rewrite <- Ecodes.
  split; [ | split; [ | split; [ | split]]].
  - intros Hd Hl. rewrite Ecodes, Eex, Epf, Eolf. now apply mergedFunds_distinct.
  - apply filter_has_In.
  - intros Hcl. eapply mergeGroups_closed; [ | exact Emg].
    eapply iterate_groups_closed; [exact Epg | ].
    eapply Forall_impl; [ | exact Hcl].
    intros g. apply groupClosed_weaken. intros c Hc.
    rewrite <- Epf in Hc. rewrite Ecodes. unfold fundCodes. rewrite map_app.
    apply in_or_app. now left.
  - apply pruneHoldings_closed.
  - assert (HP : forall t, truthy t = true ->
                   has (setOf codes) (member t "fundCode") = true ->
                   In (member t "fundCode") codes)
      by (intros t _; apply has_setOf_In).
    eapply addTrades_values; [exact HP | | exact Em2].
    eapply addTrades_values; [exact HP | | exact Em1]. constructor.
Qed.

(** ** Merger: the map of pending trades *)

Lemma mem_In (k : string) (ks : list string) : mem k ks = true <-> In k ks.
Proof.
  unfold mem. rewrite existsb_exists. split.
  - intros (x & Hx & E). apply String.eqb_eq in E. now subst.
  - intros H. exists k. split; [exact H | apply String.eqb_refl].
Qed.

Lemma mem_app (k : string) (a b : list string) :
  mem k (a ++ b) = (mem k a || mem k b)%bool.
Proof. apply existsb_app. Qed.

Lemma addKeys_split (a b new : list string) :
  addKeys (a ++ b) new
  = a ++ addKeys b (filter (fun k => negb (mem k a)) new).
Proof.
  unfold addKeys. revert b.
  induction new as [ | k new IH]; intros b; cbn [fold_left filter]; [reflexivity | ].
  rewrite mem_app. destruct (mem k a) eqn:Ea; cbn [orb negb].
  - apply IH.
  - cbn [fold_left]. destruct (mem k b).
    + apply IH.
    + rewrite <- app_assoc. apply IH.
Qed.

Lemma addKeys_NoDup (ks new : list string) : NoDup ks -> NoDup (addKeys ks new).
Proof.
  unfold addKeys. revert ks.
  induction new as [ | k new IH]; intros ks H; cbn [fold_left]; [exact H | ].
  apply IH. destruct (mem k ks) eqn:E; [exact H | ].
  apply NoDup_app; [exact H | repeat constructor; intros [] | ].
  intros x Hx [<- | []]. apply mem_In in Hx. congruence.
Qed.

Lemma addTrades_keys (allCodes trades : list value) (pendingMap out : plist) :
  Part000.addTrades allCodes pendingMap trades = Some out ->
  map fst out = addKeys (map fst pendingMap) (tradeKeys allCodes trades).
Proof.
  revert pendingMap.
  induction trades as [ | t rest IH]; intros m H; cbn [Part000.addTrades] in H.
  - now injection H as <-.
  - obind_inv H. rewrite (IH _ H). clear IH H.
    unfold tradeKeys at 2. cbn [flat_map]. fold (tradeKeys allCodes rest).
    unfold Part000.addTrade in E. fold (retained allCodes t) in E.
    destruct (retained allCodes t).
    + obind_inv E. injection E as <-.
      rewrite keys_assocSet. reflexivity.
    + injection E as <-. reflexivity.
Qed.

Lemma addTrades_assoc (allCodes trades : list value) (pendingMap out : plist)
      (k : string) :
  Part000.addTrades allCodes pendingMap trades = Some out ->
  assoc k out
  = match lastWith allCodes k trades with
    | Some t => Some t
    | None => assoc k pendingMap
    end.
Proof.
  revert pendingMap.
  induction trades as [ | t rest IH]; intros m H; cbn [Part000.addTrades] in H.
  - now injection H as <-.
  - obind_inv H. rewrite (IH _ H). clear IH H. cbn [lastWith].
    destruct (lastWith allCodes k rest); [reflexivity | ].
    unfold Part000.addTrade in E. fold (retained allCodes t) in E.
    unfold keyIs. destruct (retained allCodes t); cbn [andb].
    + obind_inv E. injection E as <-. rewrite assoc_assocSet.
      now destruct (String.eqb s k).
    + now injection E as <-.
Qed.

Lemma NoDup_assoc (ps : plist) (k : string) (v : value) :
  NoDup (map fst ps) -> In (k, v) ps -> assoc k ps = Some v.
Proof.
  induction ps as [ | [k' v'] r IH]; cbn; [intros _ [] | ].
  intros Hnd [[= -> ->] | Hin].
  - now rewrite String.eqb_refl.
  - inversion Hnd as [ | x l Hx Hl]; subst.
    destruct (String.eqb k' k) eqn:E; [ | auto].
    apply String.eqb_eq in E. subst k'.
    exfalso. apply Hx. apply in_map_iff. now exists (k, v).
Qed.

Lemma lastWith_In (allCodes trades : list value) (k : string) (t : value) :
  lastWith allCodes k trades = Some t ->
  In t trades /\ retained allCodes t = true /\ Part000.keyOf t = Some k.
Proof.
  induction trades as [ | x rest IH]; cbn [lastWith]; [discriminate | ].
  destruct (lastWith allCodes k rest) as [y | ].
  - intros [= ->]. destruct (IH eq_refl) as (Hin & Hr). split; [now right | exact Hr].
  - destruct (retained allCodes x && keyIs k x)%bool eqn:E; [ | discriminate].
    intros [= ->]. apply andb_true_iff in E. destruct E as (Hr & Hk).
    split; [now left | split; [exact Hr | ]].
    unfold keyIs in Hk. destruct (Part000.keyOf t) as [k' | ]; [ | discriminate].
    apply String.eqb_eq in Hk. now subst.
Qed.

Lemma lastWith_some (allCodes trades : list value) (k : string) (t : value) :
  In t trades -> retained allCodes t = true -> Part000.keyOf t = Some k ->
  exists t', lastWith allCodes k trades = Some t'.
Proof.
  intros Hin Hr Hk. induction trades as [ | x rest IH]; [destruct Hin | ].
  cbn [lastWith]. destruct (lastWith allCodes k rest) as [y | ] eqn:E; [eauto | ].
  destruct Hin as [-> | Hin].
  - unfold keyIs. rewrite Hr, Hk, String.eqb_refl. cbn. eauto.
  - destruct (IH Hin) as (t' & Ht'). discriminate.
Qed.

Lemma assoc_In_key (k : string) (ps : plist) (x : value) :
  assoc k ps = Some x -> In (k, x) ps.
Proof.
  induction ps as [ | [k' v] r IH]; cbn; [discriminate | ].
  destruct (String.eqb k' k) eqn:E.
  - apply String.eqb_eq in E. subst. intros [= <-]. now left.
  - intros H. right. auto.
Qed.

Lemma keyOf_by_id (t1 t2 : value) :
  truthy (optGet t1 "id") = true ->
  optGet t2 "id" = optGet t1 "id" ->
  Part000.keyOf t2 = Part000.keyOf t1.
Proof.
  intros Ht E. unfold Part000.keyOf. now rewrite E, Ht.
Qed.

Lemma keyOf_by_tuple (t1 t2 : value) :
  truthy (optGet t1 "id") = false ->
  truthy (optGet t2 "id") = false ->
  tradeTuple t1 = tradeTuple t2 ->
  Part000.keyOf t1 = Part000.keyOf t2.
Proof.
  intros H1 H2 E. unfold tradeTuple in E.
  injection E as Ec Et Ed Es Ea Ep.
  unfold Part000.keyOf. now rewrite H1, H2, Ec, Et, Ed, Es, Ea, Ep.
Qed.

Lemma keyOf_spaces (t1 t2 : value) (k1 k2 : string) :
  truthy (optGet t1 "id") = true ->
  truthy (optGet t2 "id") = false ->
  Part000.keyOf t1 = Some k1 -> Part000.keyOf t2 = Some k2 ->
  k1 <> k2.
Proof.
  intros H1 H2. unfold Part000.keyOf. rewrite H1, H2. intros E1 E2.
  repeat obind_inv E1. repeat obind_inv E2.
  injection E1 as <-. injection E2 as <-. discriminate.
Qed.

Lemma pending_winner (allCodes portfolioTrades oldTrades : list value)
      (pending1 pending2 : plist) (k : string) :
  Part000.addTrades allCodes [] portfolioTrades = Some pending1 ->
  Part000.addTrades allCodes pending1 oldTrades = Some pending2 ->
  assoc k pending2 = winner allCodes k portfolioTrades oldTrades.
Proof.
  intros E1 E2. unfold winner.
  rewrite (addTrades_assoc _ _ _ _ k E2), (addTrades_assoc _ _ _ _ k E1).
  cbn [assoc]. now destruct (lastWith allCodes k portfolioTrades).
Qed.

Lemma pending_keys (allCodes portfolioTrades oldTrades : list value)
      (pending1 pending2 : plist) :
  Part000.addTrades allCodes [] portfolioTrades = Some pending1 ->
  Part000.addTrades allCodes pending1 oldTrades = Some pending2 ->
  map fst pending1 = firstOccurrences (tradeKeys allCodes portfolioTrades)
  /\ map fst pending2
     = map fst pending1
       ++ firstOccurrences
            (filter (fun k => negb (mem k (map fst pending1)))
               (tradeKeys allCodes oldTrades))
  /\ NoDup (map fst pending2).
Proof.
  intros E1 E2. apply addTrades_keys in E1, E2. cbn [map] in E1.
  split; [exact E1 | ]. split.
  - rewrite E2. unfold firstOccurrences.
    rewrite <- (app_nil_r (map fst pending1)) at 1. apply addKeys_split.
  - rewrite E2, E1. apply addKeys_NoDup, addKeys_NoDup. constructor.
Qed.

Lemma pending_run (portfolio oldData r : value) :
  truthy portfolio = true -> truthy oldData = true ->
  Part000.mergeOldDataToPortfolio portfolio oldData = Some r ->
  let allCodes := setOf (fundCodes (arrayItems (member r "funds"))) in
  let portfolioTrades := arrayItems (member portfolio "pendingTrades") in
  let oldTrades := arrayItems (member oldData "pendingTrades") in
  exists pending1 pending2,
    Part000.addTrades allCodes [] portfolioTrades = Some pending1
    /\ Part000.addTrades allCodes pending1 oldTrades = Some pending2
    /\ member r "pendingTrades" = VArr (map snd pending2)
    /\ NoDup (map fst pending2)
    /\ (forall k t,
          In (k, t) pending2 ->
          winner allCodes k portfolioTrades oldTrades = Some t)
    /\ (forall k t,
          In t (portfolioTrades ++ oldTrades) ->
          retained allCodes t = true -> Part000.keyOf t = Some k ->
          exists w, In (k, w) pending2
                    /\ forall w', In (k, w') pending2 -> w' = w)
    /\ (forall k p l,
          In p portfolioTrades -> Part000.keyOf p = Some k ->
          In l oldTrades -> retained allCodes l = true -> Part000.keyOf l = Some k ->
          exists l', In (k, l') pending2
                     /\ lastWith allCodes k oldTrades = Some l'
                     /\ In l' oldTrades)
    /\ map fst pending1 = firstOccurrences (tradeKeys allCodes portfolioTrades)
    /\ map fst pending2
       = map fst pending1
         ++ firstOccurrences
              (filter (fun k => negb (mem k (map fst pending1)))
                 (tradeKeys allCodes oldTrades))
    /\ (forall t1 t2,
          truthy (optGet t1 "id") = true -> optGet t2 "id" = optGet t1 "id" ->
          Part000.keyOf t2 = Part000.keyOf t1)
    /\ (forall t1 t2,
          truthy (optGet t1 "id") = false -> truthy (optGet t2 "id") = false ->
          tradeTuple t1 = tradeTuple t2 ->
          Part000.keyOf t1 = Part000.keyOf t2)
    /\ (forall t1 t2 k1 k2,
          truthy (optGet t1 "id") = true -> truthy (optGet t2 "id") = false ->
          Part000.keyOf t1 = Some k1 -> Part000.keyOf t2 = Some k2 ->
          k1 <> k2).
Proof.
  intros Hp Ho H.
  destruct (merge_inv _ _ _ Hp Ho H)
    as (pf & ex & olf & codes & pfav & ofav & pg & og & mg & pt & m1 & ot & m2
        & _ & _ & _ & Ecodes & _ & _ & _ & _ & _ & Ept & Em1 & Eot & Em2 & ->).
  apply asArray_orElse in Ept, Eot. apply codesOf_fundCodes in Ecodes.
  match goal with
  | |- context [overlay ?b [("funds", ?f); ("favorites", ?fa); ("groups", ?g);
                            ("holdings", ?h); ("pendingTrades", ?t)]] =>
      destruct (overlay_merged b f fa g h t) as (Hf & _ & _ & _ & Ht & _)
  end.
  cbn zeta in *. rewrite !member_obj, Hf, Ht. cbn [arrayItems].
  rewrite <- Ecodes, <- Ept, <- Eot. clear Hf Ht H.
  destruct (pending_keys _ _ _ _ _ Em1 Em2) as (Hk1 & Hk2 & Hnd).
  pose proof (fun k => pending_winner _ _ _ _ _ k Em1 Em2) as Hw.
  exists m1, m2.
  split; [exact Em1 | ]. split; [exact Em2 | ]. split; [reflexivity | ].
  split; [exact Hnd | ]. split.
  { intros k t Hin. rewrite <- Hw. now apply NoDup_assoc. }
  split.
  { intros k t Hin Hr Hk.
    assert (Hsome : exists w, winner (setOf codes) k pt ot = Some w).
    { unfold winner. apply in_app_or in Hin.
      destruct (lastWith (setOf codes) k ot) as [w | ] eqn:El; [eauto | ].
      destruct Hin as [Hin | Hin].
      - eauto using lastWith_some.
      - destruct (lastWith_some _ _ _ _ Hin Hr Hk) as (w & Ew). congruence. }
    destruct Hsome as (w & Ew). exists w. rewrite <- Hw in Ew. split.
    - now apply assoc_In_key.
    - intros w' Hin'. apply (NoDup_assoc _ _ _ Hnd) in Hin'. congruence. }
  split.
  { intros k p l _ _ Hl Hr Hk.
    destruct (lastWith_some _ _ _ _ Hl Hr Hk) as (l' & El).
    exists l'. split; [ | split; [exact El | ]].
    - apply assoc_In_key. rewrite Hw. unfold winner. now rewrite El.
    - now apply lastWith_In in El. }
  split; [exact Hk1 | ]. split; [exact Hk2 | ].
  split; [exact keyOf_by_id | ]. split; [exact keyOf_by_tuple | exact keyOf_spaces].
Qed.

(** ** Where the operations return *)

Lemma toStr_primitive (v : value) : isObject v = false -> exists s, toStr v = Some s.
Proof.
  destruct v as [ | | [ | ] | n | s | l | ps]; cbn; try discriminate; eauto.
Qed.

Lemma has_primitive (l : list value) (x : value) : has l x = true -> isObject x = false.
Proof.
  unfold has. rewrite existsb_exists. intros (y & _ & E).
  destruct x; try reflexivity; discriminate.
Qed.

Lemma orElse_primitive (a : value) :
  isObject a = false -> isObject (orElse a (VStr "")) = false.
Proof. unfold orElse. now destruct (truthy a). Qed.

Lemma keyOf_total (allCodes : list value) (trade : value) :
  plainKeyed trade -> retained allCodes trade = true ->
  exists k, Part000.keyOf trade = Some k.
Proof.
  unfold plainKeyed. intros Hplain Hr.
  rewrite !Forall_cons_iff in Hplain.
  destruct Hplain as (Hid & Hty & Hd & Hs & Ha & _).
  assert (Hc : isObject (optGet trade "fundCode") = false).
  { unfold retained in Hr. apply andb_true_iff in Hr. destruct Hr as (Ht & Hc).
    apply has_primitive in Hc. unfold optGet.
    now rewrite (truthy_not_nullish _ Ht). }
  unfold Part000.keyOf. destruct (truthy (optGet trade "id")).
  - destruct (toStr_primitive _ Hid) as (s & ->). cbn [obind]. eauto.
  - destruct (toStr_primitive _ (orElse_primitive _ Hc)) as (s1 & ->).
    destruct (toStr_primitive _ (orElse_primitive _ Hty)) as (s2 & ->).
    destruct (toStr_primitive _ (orElse_primitive _ Hd)) as (s3 & ->).
    destruct (toStr_primitive _ (orElse_primitive _ Hs)) as (s4 & ->).
    destruct (toStr_primitive _ (orElse_primitive _ Ha)) as (s5 & ->).
    cbn [obind]. eauto.
Qed.

Lemma addTrades_total (allCodes trades : list value) (pendingMap : plist) :
  Forall plainKeyed trades ->
  exists out, Part000.addTrades allCodes pendingMap trades = Some out.
Proof.
  intros H. revert pendingMap.
  induction H as [ | t rest Ht _ IH]; intros m; cbn [Part000.addTrades]; [eauto | ].
  unfold Part000.addTrade. fold (retained allCodes t).
  destruct (retained allCodes t) eqn:Hr.
  - destruct (keyOf_total _ _ Ht Hr) as (k & ->). cbn [obind]. apply IH.
  - cbn [obind]. apply IH.
Qed.

Lemma codesOf_total (funds : list value) :
  Forall (fun f => nullish f = false) funds ->
  exists codes, Part000.codesOf funds = Some codes.
Proof.
  unfold Part000.codesOf.
  induction 1 as [ | f funds Hf _ (codes & IH)]; cbn [mapOpt]; [eauto | ].
  rewrite (getProp_some _ _ Hf), IH. cbn [obind]. eauto.
Qed.

Lemma arrayOrFalsy_asArray (x : value) :
  arrayOrFalsy x = true -> asArray (orElse x (VArr [])) = Some (arrayItems x).
Proof.
  unfold arrayOrFalsy, orElse. intros H. apply orb_true_iff in H.
  destruct H as [H | H].
  - destruct x; try discriminate. reflexivity.
  - apply negb_true_iff in H. rewrite H. destruct x; try reflexivity; discriminate.
Qed.

Lemma arrayOrFalsy_iterate (x : value) :
  arrayOrFalsy x = true -> iterate (orElse x (VArr [])) = Some (arrayItems x).
Proof.
  unfold arrayOrFalsy, orElse. intros H. apply orb_true_iff in H.
  destruct H as [H | H].
  - destruct x; try discriminate. reflexivity.
  - apply negb_true_iff in H. rewrite H. destruct x; try reflexivity; discriminate.
Qed.

Lemma findIndex_total (p : value -> option bool) (l : list value) :
  Forall (fun x => exists b, p x = Some b) l ->
  exists r, findIndex p l = Some r.
Proof.
  induction 1 as [ | x l (b & Hx) _ (r & IH)]; cbn [findIndex]; [eauto | ].
  rewrite Hx. cbn [obind]. destruct b; [eauto | ].
  rewrite IH. cbn [obind]. eauto.
Qed.

Lemma findIndex_found (p : value -> option bool) (l : list value) (i : nat) :
  findIndex p l = Some (Some i) ->
  In (nth i l VUndefined) l /\ p (nth i l VUndefined) = Some true.
Proof.
  revert i. induction l as [ | x l IH]; intros i H; cbn [findIndex] in H.
  - discriminate.
  - obind_inv H. destruct b.
    + injection H as <-. cbn. auto.
    + obind_inv H. destruct o as [j | ]; [ | discriminate].
      injection H as <-. destruct (IH _ eq_refl) as (Hin & Hp). cbn. auto.
Qed.

Lemma groupReady_tail (g x : value) (rest : list value) :
  groupReady (g :: rest) x -> groupReady rest x.
Proof.
  intros (Hn & [Hc | Hu]); split; auto.
  right. now inversion Hu.
Qed.

Lemma sameId_value (incoming g : value) :
  nullish incoming = false -> nullish g = false ->
  Part000.sameId incoming g = Some (sameGroupId g incoming).
Proof.
  intros Hi Hg. unfold Part000.sameId.
  now rewrite (getProp_some _ _ Hg), (getProp_some _ _ Hi).
Qed.

Lemma mergeGroup_total (allCodes merged rest : list value) (g : value) :
  nullish g = false -> arrayOrFalsy (member g "codes") = true ->
  Forall (groupReady (g :: rest)) merged ->
  exists out,
    Part000.mergeGroup allCodes merged g = Some out
    /\ Forall (groupReady rest) out.
Proof.
  intros Hg Hcodes Hm.
  assert (Htail : Forall (groupReady rest) merged)
    by (eapply Forall_impl; [ | exact Hm]; intros x; apply groupReady_tail).
  assert (Hfind : exists r, findIndex (Part000.sameId g) merged = Some r).
  { apply findIndex_total. eapply Forall_impl; [ | exact Hm].
    intros x (Hx & _). rewrite (sameId_value _ _ Hg Hx). eauto. }
  destruct Hfind as ([i | ] & Hfind); unfold Part000.mergeGroup; rewrite Hfind;
    cbn [obind]; cbn zeta.
  - destruct (findIndex_found _ _ _ Hfind) as (Hin & Hsame).
    rewrite Forall_forall in Hm. destruct (Hm _ Hin) as (Hx & Hready).
    rewrite (sameId_value _ _ Hg Hx) in Hsame. injection Hsame as Hsame.
    assert (Harr : isArray (member (nth i merged VUndefined) "codes") = true).
    { destruct Hready as [Hc | Hu]; [exact Hc | ].
      inversion Hu as [ | y l Hy Hl]; subst. congruence. }
    rewrite (getProp_some _ _ Hx). cbn [obind].
    destruct (member (nth i merged VUndefined) "codes") as [ | | | | | cs | ] eqn:Ecs;
      try discriminate Harr.
    cbn [iterate obind].
    rewrite (getProp_some _ _ Hg). cbn [obind].
    rewrite (arrayOrFalsy_iterate _ Hcodes). cbn [obind].
    eexists. split; [reflexivity | ].
    apply Forall_update; [ | exact Htail].
    split; [reflexivity | left].
    cbn [overlay fold_left fst snd]. now rewrite assocSet_codes.
  - rewrite (getProp_some _ _ Hg). cbn [obind].
    rewrite (arrayOrFalsy_asArray _ Hcodes). cbn [obind].
    eexists. split; [reflexivity | ].
    apply Forall_app. split; [exact Htail | ].
    constructor; [ | constructor].
    split; [reflexivity | left].
    cbn [overlay fold_left fst snd]. now rewrite assocSet_codes.
Qed.

Lemma mergeGroups_total (allCodes incoming merged : list value) :
  Forall (fun g => nullish g = false /\ arrayOrFalsy (member g "codes") = true)
    incoming ->
  Forall (groupReady incoming) merged ->
  exists out, Part000.mergeGroups allCodes merged incoming = Some out.
Proof.
  intros Hi. revert merged.
  induction Hi as [ | g rest (Hg & Hc) _ IH]; intros merged Hm;
    cbn [Part000.mergeGroups]; [eauto | ].
  destruct (mergeGroup_total allCodes _ _ _ Hg Hc Hm) as (out & -> & Hout).
  cbn [obind]. now apply IH.
Qed.

Lemma newFunds_not_nullish (existingCodes funds : list value) :
  Forall (fun f => nullish f = false)
    (filter (Part000.isNewFund existingCodes) funds).
Proof.
  apply Forall_forall. intros f Hf. apply filter_In in Hf. destruct Hf as (_ & Hf).
  unfold Part000.isNewFund in Hf.
  apply andb_true_iff in Hf. destruct Hf as (Hf & _).
  apply andb_true_iff in Hf. destruct Hf as (Hf & _).
  now apply truthy_not_nullish.
Qed.

Lemma merge_total (portfolio oldData : value) :
  truthy portfolio = true -> truthy oldData = true ->
  mergeable portfolio oldData ->
  exists r, Part000.mergeOldDataToPortfolio portfolio oldData = Some r.
Proof.
  intros Hp Ho (Hfields & Hfunds & Hpg & Hog & Hpt & Hot).
  rewrite !Forall_cons_iff in Hfields.
  destruct Hfields as ((Hpf & Hof) & (Hpfav & Hofav) & (Hpgr & Hogr) & (Hptr & Hotr) & _).
  destruct (codesOf_total _ Hfunds) as (ex & Eex).
  assert (Hmerged : Forall (fun f => nullish f = false)
                      (arrayItems (member portfolio "funds")
                       ++ filter (Part000.isNewFund (setOf ex))
                            (arrayItems (member oldData "funds"))))
    by (apply Forall_app; split; [exact Hfunds | apply newFunds_not_nullish]).
  destruct (codesOf_total _ Hmerged) as (codes & Ecodes).
  destruct (mergeGroups_total (setOf codes) _ _ Hog Hpg) as (mg & Emg).
  destruct (addTrades_total (setOf codes) _ [] Hpt) as (m1 & Em1).
  destruct (addTrades_total (setOf codes) _ m1 Hot) as (m2 & Em2).
  unfold Part000.mergeOldDataToPortfolio. rewrite Hp, Ho. cbn [negb orb].
  rewrite (arrayOrFalsy_asArray _ Hpf). cbn [obind]. rewrite Eex. cbn [obind].
  rewrite (arrayOrFalsy_asArray _ Hof). cbn [obind]. rewrite Ecodes. cbn [obind].
  rewrite (arrayOrFalsy_iterate _ Hpfav). cbn [obind].
  rewrite (arrayOrFalsy_iterate _ Hofav). cbn [obind].
  rewrite (arrayOrFalsy_iterate _ Hpgr). cbn [obind].
  rewrite (arrayOrFalsy_asArray _ Hogr). cbn [obind]. rewrite Emg. cbn [obind].
  rewrite (arrayOrFalsy_asArray _ Hptr). cbn [obind]. rewrite Em1. cbn [obind].
  rewrite (arrayOrFalsy_asArray _ Hotr). cbn [obind]. rewrite Em2. cbn [obind].
  eauto.
Qed.

Lemma validated_keys (x d : value) (w w' : world) :
  Part000.validateV2Data x w = Some (d, w') ->
  AppLib.validateV2Data x w = Some (d, w')
  /\ keys d = documentKeys
  /\ (exists ps,
        member d "portfolios" = VArr ps
        /\ ps <> []
        /\ Forall (fun p => keys p = portfolioKeys) ps)
  /\ (forall portfolio oldData r k,
        truthy portfolio = true -> truthy oldData = true ->
        Part000.mergeOldDataToPortfolio portfolio oldData = Some r ->
        ~ In k mergedKeys ->
        assoc k (ownProps r) = assoc k (ownProps portfolio)).
Proof.
  intros E. split; [now rewrite validateV2Data_same | ].
  destruct (validateV2Data_sound _ _ _ _ E) as (r & p & ps & -> & _ & Hps).
  split; [reflexivity | ]. split.
  - exists (p :: ps). split; [reflexivity | split; [discriminate | ]].
    eapply Forall_impl; [ | exact Hps]. exact soundPortfolio_keys.
  - intros portfolio oldData r' k Hp Ho Hm Hk.
    now apply (merge_frame _ _ _ Hp Ho Hm).
Qed.

Lemma toNumber_primitive (StringToNumber : string -> number) (v : value) :
  isObject v = false -> exists n, Part000.toNumber StringToNumber v = Some n.
Proof. destruct v; cbn; try discriminate; eauto. Qed.

Lemma isLegacyData_total (StringToNumber : string -> number) (v : value) :
  isObject (member v "version") = false ->
  exists b, Part000.isLegacyData StringToNumber v = Some b.
Proof.
  intros Hv. unfold Part000.isLegacyData, Part000.isCurrentVersion, Part000.geNumber.
  destruct (negb (truthy v) || negb (String.eqb (typeof v) "object"))%bool; [eauto | ].
  destruct (truthy (member v "version")).
  - destruct (toNumber_primitive StringToNumber _ Hv) as (n & ->). cbn [obind].
    destruct (number_geb n (Fin 2)); eauto.
  - cbn [obind]. eauto.
Qed.

Lemma repairPortfolio_total (p : value) (w : world) :
  nullish p = false -> exists p' w', Part000.repairPortfolio p w = Some (p', w').
Proof.
  intros Hp. unfold Part000.repairPortfolio, bind, lift.
  rewrite !(getProp_some _ _ Hp).
  destruct (generateId_total w) as (id & w1 & Eid).
  destruct (truthy (member p "id")).
  - unfold ret at 1.
    destruct (truthy (member p "createdAt")); unfold ret; [eauto | ].
    destruct (now_total w) as (t & w2 & ->). eauto.
  - rewrite Eid. unfold ret at 1.
    destruct (truthy (member p "createdAt")); unfold ret; [eauto | ].
    destruct (now_total w1) as (t & w2 & ->). eauto.
Qed.

Lemma mapM_repair_total (ps : list value) (w : world) :
  Forall (fun p => nullish p = false) ps ->
  exists ps' w', mapM Part000.repairPortfolio ps w = Some (ps', w').
Proof.
  intros H. revert w. induction H as [ | p ps Hp _ IH]; intros w; cbn [mapM].
  - unfold ret. eauto.
  - unfold bind. destruct (repairPortfolio_total p w Hp) as (p' & w1 & ->).
    destruct (IH w1) as (ps' & w2 & ->). unfold ret. eauto.
Qed.

Lemma validateV2Data_total (x : value) (w : world) :
  Forall (fun p => nullish p = false) (arrayItems (member x "portfolios")) ->
  exists d w', Part000.validateV2Data x w = Some (d, w').
Proof.
  intros Hps. destruct (isObject x) eqn:Hobj.
  - destruct (member x "portfolios") as [ | | b | n | s | [ | p ps] | props] eqn:Hp.
    7: { unfold Part000.validateV2Data. rewrite isObject_guard, Hobj, Hp.
         cbn [negb]. unfold bind. cbn [arrayItems] in Hps.
         destruct (mapM_repair_total _ w Hps) as (ps' & w' & ->).
         unfold ret. eauto. }
    all: destruct (validateV2Data_default x w Hobj) as (id & t & w1 & E & _);
      [rewrite Hp; (now left) || (now right) | eauto].
  - unfold Part000.validateV2Data. rewrite isObject_guard, Hobj. cbn [negb].
    destruct (createEmptyV2Data_result w) as (id & t & w1 & E & _). eauto.
Qed.

Lemma migrateToV2_total (d name : value) (w : world) :
  nullish d = false -> exists doc w', Part000.migrateToV2 d name w = Some (doc, w').
Proof.
  intros Hn. unfold Part000.migrateToV2, bind, lift.
  destruct (generateId_total w) as (id & w1 & ->).
  destruct (now_total w1) as (t & w2 & ->).
  rewrite !(getProp_some _ _ Hn). unfold ret. eauto.
Qed.

(** C2, as the code has it.  [generateId], [createPortfolio] and
    [createEmptyV2Data] always return.  [isLegacyData] returns for every
    value whose [version] is not an object or array; [migrateToV2] for every
    first argument other than null and undefined; [validateV2Data] returns a
    sound document for every input whose [portfolios] array holds no null or
    undefined entry.  [mergeOldDataToPortfolio] returns when an argument is
    falsy and for every mergeable pair: collections absent or arrays, no
    null or undefined among the portfolio's funds and either side's groups,
    [codes] of a legacy group absent or an array, a portfolio group without a
    [codes] array sharing its id with no legacy group, and primitive key
    fields in the trades.  Null entries of the legacy funds and of either
    side's pending trades are within that domain. *)
Theorem operations_return :
  (forall StringToNumber v,
     isObject (member v "version") = false ->
     exists b, Part000.isLegacyData StringToNumber v = Some b)
  /\ (forall w, exists id w', Part000.generateId w = Some (id, w'))
  /\ (forall name w, exists p w', Part000.createPortfolio name w = Some (p, w'))
  /\ (forall w, exists d w', Part000.createEmptyV2Data w = Some (d, w'))
  /\ (forall d name w,
        nullish d = false ->
        exists doc w', Part000.migrateToV2 d name w = Some (doc, w'))
  /\ (forall x w,
        Forall (fun p => nullish p = false) (arrayItems (member x "portfolios")) ->
        exists d w', Part000.validateV2Data x w = Some (d, w') /\ soundDocument d)
  /\ (forall portfolio oldData,
        truthy portfolio = false \/ truthy oldData = false
        \/ mergeable portfolio oldData ->
        exists r, Part000.mergeOldDataToPortfolio portfolio oldData = Some r).
Proof.
  split; [exact isLegacyData_total | ].
  split; [exact generateId_total | ].
  split.
  { intros name w. destruct (createPortfolio_result name w) as (id & t & w' & E & _).
    eauto. }
  split.
  { intros w. destruct (createEmptyV2Data_result w) as (id & t & w' & E & _). eauto. }
  split; [exact migrateToV2_total | ].
  split.
  { intros x w H. destruct (validateV2Data_total x w H) as (d & w' & E).
    exists d, w'. split; [exact E | eauto using validateV2Data_sound]. }
  intros portfolio oldData H.
  destruct (truthy portfolio) eqn:Hp; [ | rewrite merge_falsy; eauto].
  destruct (truthy oldData) eqn:Ho; [ | rewrite merge_falsy; eauto].
  destruct H as [H | [H | H]]; try discriminate.
  now apply merge_total.
Qed.


(** ** Merger: the results *)

(** C1, as the code has it.  Of the portfolio that
    [mergeOldDataToPortfolio] returns, every favorite, every holdings key and
    every pending trade's fundCode is the code of one of its funds.  Its
    fund codes are pairwise distinct when those of the portfolio's own funds
    are and those of the legacy funds that carry a code are; every code of
    every one of its groups is the code of one of its funds when the
    portfolio's own groups list only codes of the portfolio's funds.  On a
    mergeable pair of arguments there is such a result. *)
Theorem mergeOldDataToPortfolio_closed (portfolio oldData : value) :
  truthy portfolio = true -> truthy oldData = true ->
  (mergeable portfolio oldData ->
   exists r, Part000.mergeOldDataToPortfolio portfolio oldData = Some r)
  /\ forall r,
       Part000.mergeOldDataToPortfolio portfolio oldData = Some r ->
       (distinctFunds portfolio ->
        distinctCodes
          (fundCodes (filter hasCode (arrayItems (member oldData "funds")))) ->
        distinctFunds r)
       /\ closedFavorites r
       /\ (closedGroups portfolio -> closedGroups r)
       /\ closedHoldings r
       /\ closedTrades r
       /\ (distinctFunds portfolio ->
           closedGroups portfolio ->
           distinctCodes
             (fundCodes (filter hasCode (arrayItems (member oldData "funds")))) ->
           closedPortfolio r).
Proof.
  intros Hp Ho. split; [now apply merge_total | ].
  intros r H.
  destruct (merged_closed _ _ _ Hp Ho H) as (H1 & H2 & H3 & H4 & H5).
  repeat split; auto.
Qed.

(** ** Merger: keys and order of the pending trades, exactly *)

Lemma colon_split (a a' r r' : string) :
  colonFree a = true -> colonFree a' = true ->
  (a ++ String ":" r)%string = (a' ++ String ":" r')%string ->
  a = a' /\ r = r'.
Proof.
  revert a'. induction a as [ | c a IH]; intros [ | c' a'] Ha Ha' H;
    cbn [append colonFree] in *.
  - injection H as ->. now split.
  - injection H as <- _. rewrite Ascii.eqb_refl in Ha'. discriminate Ha'.
  - injection H as -> _. rewrite Ascii.eqb_refl in Ha. discriminate Ha.
  - injection H as -> H.
    apply andb_true_iff in Ha, Ha'.
    destruct (IH a' (proj2 Ha) (proj2 Ha') H) as (-> & ->). now split.
Qed.

Lemma keyOf_keyless (trade : value) :
  truthy (optGet trade "id") = false ->
  Part000.keyOf trade
  = let? fields := printedTuple trade in
    match fields with
    | [fundCode; type; date; share; amount; isAfter3pm] =>
        Some ("k:" ++ fundCode ++ ":" ++ type ++ ":" ++ date ++ ":" ++ share
              ++ ":" ++ amount ++ ":" ++ isAfter3pm)%string
    | _ => None
    end.
Proof.
  intros H. unfold Part000.keyOf, printedTuple. rewrite H.
  destruct (toStr (orElse (optGet trade "fundCode") (VStr ""))); [ | reflexivity].
  destruct (toStr (orElse (optGet trade "type") (VStr ""))); [ | reflexivity].
  destruct (toStr (orElse (optGet trade "date") (VStr ""))); [ | reflexivity].
  destruct (toStr (orElse (optGet trade "share") (VStr ""))); [ | reflexivity].
  destruct (toStr (orElse (optGet trade "amount") (VStr ""))); reflexivity.
Qed.

Lemma keyOf_by_printedTuple (t1 t2 : value) :
  truthy (optGet t1 "id") = false -> truthy (optGet t2 "id") = false ->
  printedTuple t1 = printedTuple t2 ->
  Part000.keyOf t1 = Part000.keyOf t2.
Proof.
  intros H1 H2 E. now rewrite (keyOf_keyless _ H1), (keyOf_keyless _ H2), E.
Qed.

Lemma printedTuple_six (trade : value) (fields : list string) :
  printedTuple trade = Some fields ->
  exists fundCode type date share amount isAfter3pm,
    fields = [fundCode; type; date; share; amount; isAfter3pm].
Proof.
  unfold printedTuple. intros H. repeat obind_inv H. injection H as <-.
  do 6 eexists. reflexivity.
Qed.

Lemma keyOf_tuple_injective (t1 t2 : value) (fs gs : list string) :
  truthy (optGet t1 "id") = false -> truthy (optGet t2 "id") = false ->
  printedTuple t1 = Some fs -> printedTuple t2 = Some gs ->
  Forall (fun s => colonFree s = true) fs ->
  Forall (fun s => colonFree s = true) gs ->
  Part000.keyOf t1 = Part000.keyOf t2 ->
  fs = gs.
Proof.
  intros H1 H2 Efs Egs Hfs Hgs.
  rewrite (keyOf_keyless _ H1), (keyOf_keyless _ H2), Efs, Egs. cbn [obind].
  destruct (printedTuple_six _ _ Efs) as (c & ty & d & s & a & f & ->).
  destruct (printedTuple_six _ _ Egs) as (c' & ty' & d' & s' & a' & f' & ->).
  rewrite !Forall_cons_iff in Hfs, Hgs.
  destruct Hfs as (Hc & Hty & Hd & Hs & Ha & _).
  destruct Hgs as (Hc' & Hty' & Hd' & Hs' & Ha' & _).
  intros H. injection H as H.
  change (":" ++ ?x)%string with (String ":" x) in H.
  destruct (colon_split _ _ _ _ Hc Hc' H) as (-> & H0).
  destruct (colon_split _ _ _ _ Hty Hty' H0) as (-> & H3).
  destruct (colon_split _ _ _ _ Hd Hd' H3) as (-> & H4).
  destruct (colon_split _ _ _ _ Hs Hs' H4) as (-> & H5).
  destruct (colon_split _ _ _ _ Ha Ha' H5) as (-> & ->).
  reflexivity.
Qed.

Lemma keyOf_id_iff (t1 t2 : value) :
  truthy (optGet t1 "id") = true -> truthy (optGet t2 "id") = true ->
  (Part000.keyOf t1 = Part000.keyOf t2
   <-> toStr (optGet t1 "id") = toStr (optGet t2 "id")).
Proof.
  intros H1 H2. unfold Part000.keyOf. rewrite H1, H2.
  destruct (toStr (optGet t1 "id")) as [s1 | ], (toStr (optGet t2 "id")) as [s2 | ];
    cbn [obind]; split; intros H; try discriminate H; try reflexivity.
  - injection H as ->. reflexivity.
  - injection H as ->. reflexivity.
Qed.

Lemma addTrades_distinct (allCodes trades : list value) (pendingMap out : plist) :
  Part000.addTrades allCodes pendingMap trades = Some out ->
  NoDup (map fst pendingMap ++ tradeKeys allCodes trades) ->
  map fst out = map fst pendingMap ++ tradeKeys allCodes trades
  /\ map snd out = map snd pendingMap ++ filter (retained allCodes) trades.
Proof.
  revert pendingMap.
  induction trades as [ | t rest IH]; intros m H Hnd; cbn [Part000.addTrades] in H.
  - injection H as <-. cbn. now rewrite !app_nil_r.
  - obind_inv H. unfold Part000.addTrade in E. fold (retained allCodes t) in E.
    unfold tradeKeys in *. cbn [flat_map filter] in *.
    destruct (retained allCodes t).
    + obind_inv E. injection E as <-. cbn [app] in Hnd.
      assert (Hfresh : ~ In s (map fst m)).
      { apply NoDup_remove_2 in Hnd. intros Hin. apply Hnd.
        apply in_or_app. now left. }
      rewrite (assocSet_fresh _ _ t Hfresh) in H.
      destruct (IH _ H) as (Hk & Hv).
      * rewrite map_app. cbn [map fst]. now rewrite <- app_assoc.
      * rewrite Hk, Hv, !map_app. cbn [map fst snd app].
        now rewrite <- !app_assoc.
    + injection E as <-. cbn [app] in Hnd. now apply IH.
Qed.

Lemma pending_distinct (allCodes portfolioTrades oldTrades : list value)
      (pending1 pending2 : plist) :
  Part000.addTrades allCodes [] portfolioTrades = Some pending1 ->
  Part000.addTrades allCodes pending1 oldTrades = Some pending2 ->
  NoDup (tradeKeys allCodes portfolioTrades ++ tradeKeys allCodes oldTrades) ->
  map snd pending2
  = filter (retained allCodes) portfolioTrades
    ++ filter (retained allCodes) oldTrades.
Proof.
  intros E1 E2 Hnd.
  destruct (addTrades_distinct _ _ _ _ E1) as (Hk1 & Hv1).
  { cbn [map app]. now apply NoDup_app_remove_r in Hnd. }
  cbn [map app] in Hk1, Hv1.
  destruct (addTrades_distinct _ _ _ _ E2) as (_ & Hv2).
  { now rewrite Hk1. }
  now rewrite Hv2, Hv1.
Qed.

(** C5, as the code has it.  The merged pending trades are the values, in
    insertion order, of a map keyed by [keyOf] and filled with the retained
    trades of the portfolio, then those of the legacy data.  The key is made
    of the printed id when the id is truthy: two such trades share a key
    exactly when their ids print alike.  Otherwise it is made of the printed
    tuple (fundCode, type, date, share, amount, isAfter3pm), a falsy or
    missing field printed as the empty string: trades of one printed tuple
    share a key, and trades of one key have one printed tuple when no
    printed field holds a colon.  The two kinds of key never meet.  The map
    has one entry for each key, which holds the last legacy trade of that
    key when there is one (a legacy trade replaces the portfolio trade it
    collides with, in the place that key has) and the last portfolio trade
    of that key otherwise.  The keys of the portfolio's trades come first,
    in the order of their first occurrence, then the keys that the legacy
    trades add, in theirs; when no two retained trades share a key, the
    result is the retained trades of the portfolio in their original order
    followed by those of the legacy data. *)
Theorem pendingTrades_merged (portfolio oldData : value) :
  truthy portfolio = true -> truthy oldData = true ->
  (mergeable portfolio oldData ->
   exists r, Part000.mergeOldDataToPortfolio portfolio oldData = Some r)
  /\ (forall r,
        Part000.mergeOldDataToPortfolio portfolio oldData = Some r ->
        let allCodes := setOf (fundCodes (arrayItems (member r "funds"))) in
        let portfolioTrades := arrayItems (member portfolio "pendingTrades") in
        let oldTrades := arrayItems (member oldData "pendingTrades") in
        exists pending1 pending2,
          Part000.addTrades allCodes [] portfolioTrades = Some pending1
          /\ Part000.addTrades allCodes pending1 oldTrades = Some pending2
          /\ member r "pendingTrades" = VArr (map snd pending2)
          /\ NoDup (map fst pending2)
          /\ (forall k t,
                In (k, t) pending2 ->
                winner allCodes k portfolioTrades oldTrades = Some t)
          /\ (forall k t,
                In t (portfolioTrades ++ oldTrades) ->
                retained allCodes t = true -> Part000.keyOf t = Some k ->
                exists w, In (k, w) pending2
                          /\ forall w', In (k, w') pending2 -> w' = w)
          /\ (forall k p l,
                In p portfolioTrades -> Part000.keyOf p = Some k ->
                In l oldTrades -> retained allCodes l = true ->
                Part000.keyOf l = Some k ->
                exists l', In (k, l') pending2
                           /\ lastWith allCodes k oldTrades = Some l'
                           /\ In l' oldTrades)
          /\ map fst pending1 = firstOccurrences (tradeKeys allCodes portfolioTrades)
          /\ map fst pending2
             = map fst pending1
               ++ firstOccurrences
                    (filter (fun k => negb (mem k (map fst pending1)))
                       (tradeKeys allCodes oldTrades))
          /\ (NoDup (tradeKeys allCodes portfolioTrades
                     ++ tradeKeys allCodes oldTrades) ->
              member r "pendingTrades"
              = VArr (filter (retained allCodes) portfolioTrades
                      ++ filter (retained allCodes) oldTrades)))
  /\ (forall t1 t2,
        truthy (optGet t1 "id") = true -> truthy (optGet t2 "id") = true ->
        (Part000.keyOf t1 = Part000.keyOf t2
         <-> toStr (optGet t1 "id") = toStr (optGet t2 "id")))
  /\ (forall t1 t2,
        truthy (optGet t1 "id") = false -> truthy (optGet t2 "id") = false ->
        printedTuple t1 = printedTuple t2 ->
        Part000.keyOf t1 = Part000.keyOf t2)
  /\ (forall t1 t2 fields1 fields2,
        truthy (optGet t1 "id") = false -> truthy (optGet t2 "id") = false ->
        printedTuple t1 = Some fields1 -> printedTuple t2 = Some fields2 ->
        Forall (fun s => colonFree s = true) fields1 ->
        Forall (fun s => colonFree s = true) fields2 ->
        Part000.keyOf t1 = Part000.keyOf t2 ->
        fields1 = fields2)
  /\ (forall t1 t2 k1 k2,
        truthy (optGet t1 "id") = true -> truthy (optGet t2 "id") = false ->
        Part000.keyOf t1 = Some k1 -> Part000.keyOf t2 = Some k2 ->
        k1 <> k2).
Proof.
  intros Hp Ho. split; [now apply merge_total | ].
  split.
  - intros r H.
    destruct (pending_run _ _ _ Hp Ho H)
      as (m1 & m2 & E1 & E2 & Hr & Hnd & Hw & Hone & Hcol & Hk1 & Hk2 & _).
    exists m1, m2.
    split; [exact E1 | ]. split; [exact E2 | ]. split; [exact Hr | ].
    split; [exact Hnd | ]. split; [exact Hw | ]. split; [exact Hone | ].
    split; [exact Hcol | ]. split; [exact Hk1 | ]. split; [exact Hk2 | ].
    intros Hdistinct. rewrite Hr. f_equal.
    exact (pending_distinct _ _ _ _ _ E1 E2 Hdistinct).
  - split; [exact keyOf_id_iff | ].
    split; [exact keyOf_by_printedTuple | ].
    split; [exact keyOf_tuple_injective | exact keyOf_spaces].
Qed.

(** C8. [mergeOldDataToPortfolio] returns its first argument as it is when
    either argument is falsy.  Otherwise the result, which exists on every
    mergeable pair, is a new object in which every property of the portfolio
    other than the five merged collections ([id], [name], [createdAt] and
    any further one) is as the portfolio has it, and the five collections
    are the merged ones. *)
Theorem mergeOldDataToPortfolio_frame (portfolio oldData : value) :
  (truthy portfolio = false \/ truthy oldData = false ->
   Part000.mergeOldDataToPortfolio portfolio oldData = Some portfolio)
  /\ (truthy portfolio = true -> truthy oldData = true ->
      mergeable portfolio oldData ->
      exists r, Part000.mergeOldDataToPortfolio portfolio oldData = Some r)
  /\ (forall r,
        truthy portfolio = true -> truthy oldData = true ->
        Part000.mergeOldDataToPortfolio portfolio oldData = Some r ->
        isPlainObject r = true
        /\ (forall k, ~ In k mergedKeys ->
              assoc k (ownProps r) = assoc k (ownProps portfolio))
        /\ (isPlainObject portfolio = true ->
            forall k, ~ In k mergedKeys -> member r k = member portfolio k)
        /\ isArray (member r "funds") = true
        /\ isArray (member r "favorites") = true
        /\ isArray (member r "groups") = true
        /\ isPlainObject (member r "holdings") = true
        /\ isArray (member r "pendingTrades") = true).
Proof.
  split; [apply merge_falsy | ]. split; [apply merge_total | apply merge_frame].
Qed.

(** C10. Every document that [validateV2Data] returns (and it returns one
    whenever no entry of [portfolios] is null or undefined), in either
    module, has exactly the properties [version], [refreshMs] and
    [portfolios], and each of its portfolios has exactly the eight portfolio
    fields: whatever else the input document or an input portfolio carries
    is dropped.  [mergeOldDataToPortfolio], in contrast, hands every
    property of the portfolio outside the five merged collections on to its
    result. *)
Theorem validateV2Data_keys (x : value) (w : world) :
  (Forall (fun p => nullish p = false) (arrayItems (member x "portfolios")) ->
   exists d w', Part000.validateV2Data x w = Some (d, w'))
  /\ (forall d w',
        Part000.validateV2Data x w = Some (d, w') ->
        AppLib.validateV2Data x w = Some (d, w')
        /\ keys d = documentKeys
        /\ exists ps,
             member d "portfolios" = VArr ps
             /\ ps <> []
             /\ Forall (fun p => keys p = portfolioKeys) ps)
  /\ (forall portfolio oldData r k,
        truthy portfolio = true -> truthy oldData = true ->
        Part000.mergeOldDataToPortfolio portfolio oldData = Some r ->
        ~ In k mergedKeys ->
        assoc k (ownProps r) = assoc k (ownProps portfolio)).
Proof.
  split; [apply validateV2Data_total | ]. split.
  - intros d w' E. destruct (validated_keys _ _ _ _ E) as (H1 & H2 & H3 & _). auto.
  - intros portfolio oldData r k Hp Ho Hm Hk.
    now apply (merge_frame _ _ _ Hp Ho Hm).
Qed.

(** ** The operations on the sample documents *)

(** C1 as stated fails.  Two legacy funds of one code are both appended;
    and a group of the portfolio that no legacy group meets keeps a code of
    no fund. *)
Lemma mergeOldDataToPortfolio_not_closed :
  (Part000.mergeOldDataToPortfolio
     (VObj [("funds", VArr [])])
     (VObj [("funds", VArr [fund "A"; fund "A"])])
   = Some (VObj [("funds", VArr [fund "A"; fund "A"]);
                 ("favorites", VArr []);
                 ("groups", VArr []);
                 ("holdings", VObj []);
                 ("pendingTrades", VArr [])])
   /\ ~ closedPortfolio
        (VObj [("funds", VArr [fund "A"; fund "A"]);
               ("favorites", VArr []);
               ("groups", VArr []);
               ("holdings", VObj []);
               ("pendingTrades", VArr [])]))
  /\ (Part000.mergeOldDataToPortfolio
        (VObj [("funds", VArr [fund "A"]);
               ("groups", VArr [VObj [("id", VStr "g"); ("codes", VArr [VStr "X"])]])])
        (VObj [("funds", VArr [fund "B"])])
      = Some (VObj [("funds", VArr [fund "A"; fund "B"]);
                    ("groups",
                     VArr [VObj [("id", VStr "g"); ("codes", VArr [VStr "X"])]]);
                    ("favorites", VArr []);
                    ("holdings", VObj []);
                    ("pendingTrades", VArr [])])
      /\ ~ closedPortfolio
           (VObj [("funds", VArr [fund "A"; fund "B"]);
                  ("groups",
                   VArr [VObj [("id", VStr "g"); ("codes", VArr [VStr "X"])]]);
                  ("favorites", VArr []);
                  ("holdings", VObj []);
                  ("pendingTrades", VArr [])])).
Proof.
  split; (split; [vm_compute; reflexivity | ]).
  - intros (Hd & _). vm_compute in Hd. destruct Hd as (Hd & _). discriminate Hd.
  - intros (_ & _ & Hg & _). unfold closedGroups, groupClosed in Hg.
    vm_compute in Hg. inversion Hg as [ | g gs Hx _]; subst.
    inversion Hx as [ | c cs Hc _]; subst.
    destruct Hc as [Hc | [Hc | []]]; discriminate Hc.
Qed.

(** The sample portfolio and legacy document meet the three conditions, and
    their merge is closed. *)
Lemma mergeOldDataToPortfolio_closed_witness : closedPortfolio sampleMerged.
Proof.
  destruct (mergeOldDataToPortfolio_closed samplePortfolio sampleLegacy)
    as (_ & Hclosed).
  - reflexivity.
  - reflexivity.
  - destruct (Hclosed sampleMerged) as (_ & _ & _ & _ & _ & Hall).
    + vm_compute. reflexivity.
    + apply Hall.
      * vm_compute. repeat split.
      * unfold closedGroups, groupClosed. cbn. repeat constructor.
      * vm_compute. repeat split.
Defined.

(** C2 as stated fails: a null among the [portfolios] makes
    [validateV2Data] throw; a null among the portfolio's funds, or a group of
    the portfolio that lacks [codes] and meets a legacy group of its id,
    makes [mergeOldDataToPortfolio] throw; [migrateToV2] throws on null. *)
Lemma operations_throw :
  Part000.validateV2Data (VObj [("portfolios", VArr [VNull])]) sampleWorld = None
  /\ Part000.mergeOldDataToPortfolio
       (VObj [("funds", VArr [VNull])]) (VObj [("funds", VArr [])]) = None
  /\ Part000.mergeOldDataToPortfolio
       (VObj [("groups", VArr [VObj [("id", VStr "g")]])])
       (VObj [("groups", VArr [VObj [("id", VStr "g"); ("codes", VArr [])]])])
     = None
  /\ Part000.migrateToV2 VNull VUndefined sampleWorld = None.
Proof. repeat split; vm_compute; reflexivity. Qed.

(** The samples, with their null entries and their groups without [codes],
    are inside the domain. *)
Lemma operations_return_witness :
  (exists r,
     Part000.mergeOldDataToPortfolio samplePortfolio sampleLegacy = Some r)
  /\ (exists d w',
        Part000.validateV2Data sampleStored sampleWorld = Some (d, w')
        /\ soundDocument d).
Proof.
  destruct operations_return as (_ & _ & _ & _ & _ & Hvalidate & Hmerge).
  split.
  - apply Hmerge. right. right. unfold mergeable. cbn.
    repeat match goal with
           | |- _ /\ _ => split
           | |- Forall _ _ => constructor
           | |- groupReady _ _ => split; [reflexivity | ]
           | |- plainKeyed _ => unfold plainKeyed; cbn
           | |- _ = _ => reflexivity
           | |- _ \/ _ => first [left; reflexivity | right; repeat constructor]
           end.
  - apply Hvalidate. cbn. repeat constructor.
Defined.

Lemma validateV2Data_idempotent_witness :
  soundDocument (fst sampleValidated)
  /\ Part000.validateV2Data (fst sampleValidated) sampleWorld
     = Some (fst sampleValidated, sampleWorld).
Proof.
  destruct (validateV2Data_idempotent sampleStored sampleWorld) as (_ & Hsound).
  destruct (Hsound (fst sampleValidated) (snd sampleValidated)) as (Hd & Hfix).
  - vm_compute. reflexivity.
  - split; [exact Hd | apply Hfix].
Defined.

Lemma isLegacyData_characterised_witness :
  Part000.isLegacyData (fun _ => NaN) sampleLegacy = Some true
  /\ Part000.isLegacyData (fun _ => NaN) sampleStored = Some false.
Proof.
  split.
  - apply (isLegacyData_characterised (fun _ => NaN) sampleLegacy).
    split; [reflexivity | split; [left; reflexivity | left; reflexivity]].
  - apply (isLegacyData_characterised (fun _ => NaN) sampleStored) with (n := Fin 2);
      reflexivity.
Defined.

(** C5 as stated fails.  Of two portfolio trades of one key the later one
    stands where the earlier one stood, before a trade that came between
    them: the result is not a selection of the portfolio's trades in their
    original order.  Ids that print alike, fields that differ only in where
    a colon falls, and a zero against a missing field give one key, and the
    legacy trade replaces the portfolio trade. *)
Lemma pendingTrades_not_as_claimed :
  (mergedTrades (holding [tradeA1; tradeB; tradeA3]) (VObj [])
   = Some (VArr [tradeA3; tradeB])
   /\ ~ claimedOrder [tradeA1; tradeB; tradeA3] [] [tradeA3; tradeB])
  /\ (Part000.keyOf trade7 = Part000.keyOf trade7s
      /\ claimedKey trade7 <> claimedKey trade7s
      /\ mergedTrades (holding [trade7])
           (VObj [("pendingTrades", VArr [trade7s])])
         = Some (VArr [trade7s]))
  /\ (Part000.keyOf tradeColon1 = Part000.keyOf tradeColon2
      /\ claimedKey tradeColon1 <> claimedKey tradeColon2
      /\ mergedTrades (holding [tradeColon1])
           (VObj [("pendingTrades", VArr [tradeColon2])])
         = Some (VArr [tradeColon2]))
  /\ (Part000.keyOf tradeZero = Part000.keyOf tradeBare
      /\ claimedKey tradeZero <> claimedKey tradeBare
      /\ mergedTrades (holding [tradeZero])
           (VObj [("pendingTrades", VArr [tradeBare])])
         = Some (VArr [tradeBare])).
Proof.
  split; [ | split; [ | split]].
  - split; [vm_compute; reflexivity | ].
    intros (kept & added & Heq & Hk & Ha).
    inversion Ha; subst. rewrite app_nil_r in Heq. subst kept.
    repeat match goal with
           | H : subsequence _ _ |- _ => inversion H; clear H; subst
           end.
  - split; [reflexivity | ]. split; [discriminate | vm_compute; reflexivity].
  - split; [reflexivity | ]. split; [discriminate | vm_compute; reflexivity].
  - split; [reflexivity | ]. split; [discriminate | vm_compute; reflexivity].
Qed.

Lemma pendingTrades_merged_witness :
  (exists pending,
     member sampleMerged "pendingTrades" = VArr (map snd pending)
     /\ NoDup (map fst pending)
     /\ map fst pending
        = ["id:t1"; "k:161725:sell:2024-05-02:10::1"; "k:000001:buy:2024-05-03::100:0"])
  /\ mergedTrades (holding [tradeA1; VNull; tradeB])
       (VObj [("pendingTrades", VArr [tradeC; tradeBare])])
     = Some (VArr [tradeA1; tradeB; tradeC; tradeBare]).
Proof.
  split.
  - destruct (pendingTrades_merged samplePortfolio sampleLegacy) as (_ & Hrun & _).
    + reflexivity.
    + reflexivity.
    + destruct (Hrun sampleMerged)
        as (pending1 & pending2 & E1 & E2 & Hr & Hnd & _).
      * vm_compute. reflexivity.
      * exists pending2. split; [exact Hr | split; [exact Hnd | ]].
        vm_compute in E1. injection E1 as <-.
        vm_compute in E2. injection E2 as <-.
        vm_compute. reflexivity.
  - destruct (pendingTrades_merged (holding [tradeA1; VNull; tradeB])
                (VObj [("pendingTrades", VArr [tradeC; tradeBare])]))
      as (_ & Hrun & _).
    + reflexivity.
    + reflexivity.
    + unfold mergedTrades.
      destruct (Part000.mergeOldDataToPortfolio _ _) as [r | ] eqn:Hr;
        [ | vm_compute in Hr; discriminate].
      cbn [option_map]. f_equal.
      destruct (Hrun r eq_refl)
        as (pending1 & pending2 & _ & _ & _ & _ & _ & _ & _ & _ & _ & Hord).
      rewrite Hord.
      * vm_compute in Hr. injection Hr as <-. vm_compute. reflexivity.
      * vm_compute in Hr. injection Hr as <-. vm_compute.
        repeat constructor; cbn; intuition discriminate.
Defined.

Lemma migrateToV2_shape_witness :
  exists doc w',
    Part000.migrateToV2 sampleLegacy VUndefined sampleWorld = Some (doc, w')
    /\ member doc "refreshMs" = VNum (Fin 10000)
    /\ keys doc = documentKeys.
Proof.
  destruct (migrateToV2_shape sampleLegacy VUndefined sampleWorld)
    as (id & t & w' & refreshMs & name & funds & favorites & groups & holdings
        & trades & E & _ & (Hr & _) & _).
  - reflexivity.
  - rewrite E. eexists. eexists. split; [reflexivity | split; [ | reflexivity]].
    rewrite member_obj. cbn [assoc String.eqb Ascii.eqb Bool.eqb].
    apply Hr. reflexivity.
Defined.

Lemma validateV2Data_defaults_witness :
  Part000.validateV2Data VNull sampleWorld = Part000.createEmptyV2Data sampleWorld
  /\ exists refreshMs id t w',
       Part000.validateV2Data (VObj [("portfolios", VArr [])]) sampleWorld
       = Some (VObj [("version", VNum (Fin 2));
                     ("refreshMs", refreshMs);
                     ("portfolios",
                      VArr [emptyPortfolio id "默认账本" (toISOString t)])], w').
Proof.
  destruct (validateV2Data_defaults VNull sampleWorld) as (Hnull & _).
  destruct (validateV2Data_defaults (VObj [("portfolios", VArr [])]) sampleWorld)
    as (_ & _ & Hempty).
  split.
  - apply Hnull. reflexivity.
  - destruct Hempty as (refreshMs & id & t & w' & E & _).
    + reflexivity.
    + right. reflexivity.
    + eauto.
Defined.

Lemma mergeOldDataToPortfolio_frame_witness :
  Part000.mergeOldDataToPortfolio VNull sampleLegacy = Some VNull
  /\ member sampleMerged "note" = member samplePortfolio "note"
  /\ member sampleMerged "id" = member samplePortfolio "id".
Proof.
  split.
  - apply (mergeOldDataToPortfolio_frame VNull sampleLegacy). left. reflexivity.
  - destruct (mergeOldDataToPortfolio_frame samplePortfolio sampleLegacy)
      as (_ & _ & Hframe).
    destruct (Hframe sampleMerged) as (_ & _ & Hkeep & _).
    + reflexivity.
    + reflexivity.
    + vm_compute. reflexivity.
    + split; apply Hkeep; try reflexivity; cbn;
        intros [H | [H | [H | [H | [H | []]]]]]; discriminate H.
Defined.

Lemma validateV2Data_keys_witness :
  keys (fst sampleValidated) = documentKeys
  /\ exists ps,
       member (fst sampleValidated) "portfolios" = VArr ps
       /\ Forall (fun p => keys p = portfolioKeys) ps.
Proof.
  destruct (validateV2Data_keys sampleStored sampleWorld) as (_ & Hkeys & _).
  destruct (Hkeys (fst sampleValidated) (snd sampleValidated))
    as (_ & Hk & (ps & Hm & _ & Hps)).
  - vm_compute. reflexivity.
  - split; [exact Hk | ]. exists ps. split; assumption.
Defined.

(** The detector on the shapes it tells apart. *)
Example isLegacyData_samples :
  let StringToNumber := fun _ : string => NaN in
  Part000.isLegacyData StringToNumber sampleLegacy = Some true
  /\ Part000.isLegacyData StringToNumber sampleStored = Some false
  /\ Part000.isLegacyData StringToNumber (VObj [("holdings", VNull)]) = Some true
  /\ Part000.isLegacyData StringToNumber (VObj [("funds", VObj [])]) = Some false
  /\ Part000.isLegacyData StringToNumber (VArr []) = Some false
  /\ Part000.isLegacyData StringToNumber VNull = Some false.
Proof. repeat split. Qed.

(** A refresh interval below the floor is replaced, the funds are carried
    over as they are. *)
Example migrateToV2_below_floor :
  match Part000.migrateToV2
          (VObj [("funds", VArr [fund "A"]); ("refreshMs", VNum (Fin 1000))])
          VUndefined sampleWorld with
  | Some (doc, _) =>
      member doc "refreshMs" = VNum (Fin 30000)
      /\ exists p, member doc "portfolios" = VArr [p]
                   /\ member p "funds" = VArr [fund "A"]
                   /\ member p "name" = VStr "默认账本"
  | None => False
  end.
Proof. vm_compute. split; [reflexivity | eexists; repeat split]. Qed.

(** The fallback identifier has the version-4 layout. *)
Example generateId_sample :
  option_map fst (Part000.generateId sampleWorld)
  = Some "3a18f6d4-b290-47e5-83a1-8f6d4b2907e5".
Proof. reflexivity. Qed.

(** The merged pending trades of the samples: the legacy trade [t1] has
    taken the place of the portfolio's, and the two legacy trades without
    id that agree on the tuple are one. *)
Example sampleMerged_pendingTrades :
  Part000.mergeOldDataToPortfolio samplePortfolio sampleLegacy = Some sampleMerged
  /\ member sampleMerged "pendingTrades"
     = VArr [VObj [("id", VStr "t1"); ("fundCode", VStr "110022");
                   ("type", VStr "buy"); ("amount", VNum (Fin 800))];
             VObj [("fundCode", VStr "161725"); ("type", VStr "sell");
                   ("date", VStr "2024-05-02"); ("share", VNum (Fin 10));
                   ("isAfter3pm", VBool true)];
             VObj [("fundCode", VStr "000001"); ("type", VStr "buy");
                   ("date", VStr "2024-05-03"); ("amount", VNum (Fin 100))]]
  /\ member sampleMerged "note" = VStr "kept".
Proof. repeat split; vm_compute; reflexivity. Qed.

(** * Further properties *)

(** ** Identifier generator *)

Lemma hexDigit_hex (v : N) : isHexDigit (hexDigit v) = true.
Proof.
  destruct v as [ | p]; [reflexivity | ].
  do 4 (destruct p as [p | p | ]; try reflexivity).
Qed.

Lemma variant_digit (r : N) :
  (r < 16)%N ->
  existsb (Ascii.eqb (hexDigit (N.lor (N.land r 3) 8)))
    (list_ascii_of_string "89ab") = true.
Proof.
  intros Hr.
  assert (H : In r (map N.of_nat (seq 0 16))).
  { apply in_map_iff. exists (N.to_nat r). split; [lia | ].
    apply in_seq. lia. }
  cbn in H.
  repeat (destruct H as [<- | H]; [reflexivity | ]). destruct H.
Qed.

Lemma fillPattern_mathRandom (pattern s : string) (w w' : world) :
  fillPattern nextMathRandom pattern w = Some (s, w') ->
  matchesPattern pattern s = true
  /\ mathReads w' = mathReads w + placeholders pattern
  /\ secureReads w' = secureReads w
  /\ clockReads w' = clockReads w
  /\ hasRandomUUID w' = hasRandomUUID w.
Proof.
  revert s w w'. induction pattern as [ | c rest IH]; intros s w w' H;
    cbn [fillPattern] in H.
  - unfold ret in H. injection H as <- <-. cbn. repeat split; lia.
  - destruct (Ascii.eqb c "x" || Ascii.eqb c "y")%bool eqn:Exy; unfold bind in H.
    + unfold nextMathRandom at 1 in H.
      destruct (fillPattern nextMathRandom rest _) as [[s1 w1] | ] eqn:E;
        [ | discriminate H].
      unfold ret in H. injection H as <- <-.
      destruct (IH _ _ _ E) as (Hm & Hr & Hs & Hc & Hu). cbn in Hr, Hs, Hc, Hu.
      cbn [matchesPattern placeholders]. rewrite Exy, Hm.
      split; [ | repeat split; lia || assumption].
      rewrite andb_true_r.
      destruct (Ascii.eqb c "x") eqn:Ex; [apply hexDigit_hex | ].
      cbn in Exy. rewrite Exy. apply variant_digit.
      apply N.mod_lt. discriminate.
    + destruct (fillPattern nextMathRandom rest w) as [[s1 w1] | ] eqn:E;
        [ | discriminate H].
      unfold ret in H. injection H as <- <-.
      destruct (IH _ _ _ E) as (Hm & Hr & Hs & Hc & Hu).
      cbn [matchesPattern placeholders]. rewrite Exy, Hm.
      apply orb_false_iff in Exy. destruct Exy as (-> & ->).
      rewrite Ascii.eqb_refl. repeat split; lia || assumption.
Qed.

(** X1. Without [crypto.randomUUID], [generateId] returns a string of the
    version-4 layout: 36 characters, hyphens after the 8th, 13th, 18th and
    23rd, [4] as the 15th, one of [8], [9], [a], [b] as the 20th and
    lower-case hexadecimal digits elsewhere.  It calls [Math.random] 31
    times and reads nothing else of the host. *)
Theorem generateId_fallback_format (w : world) :
  hasRandomUUID w = false ->
  exists id w',
    Part000.generateId w = Some (id, w')
    /\ AppLib.generateId w = Some (id, w')
    /\ matchesPattern "xxxxxxxx-xxxx-4xxx-yxxx-xxxxxxxxxxxx" id = true
    /\ String.length id = 36
    /\ mathReads w' = mathReads w + 31
    /\ secureReads w' = secureReads w
    /\ clockReads w' = clockReads w.
Proof.
  intros Hw. destruct (generateId_total w) as (id & w' & E).
  exists id, w'. split; [exact E | ]. split; [exact E | ].
  pose proof (generateId_length _ _ _ E) as Hlen.
  unfold Part000.generateId in E. rewrite Hw in E.
  destruct (fillPattern_mathRandom _ _ _ _ E) as (Hm & Hr & Hs & Hc & _).
  repeat split; assumption.
Qed.

Lemma generateId_fallback_format_witness :
  exists id w',
    Part000.generateId sampleWorld = Some (id, w')
    /\ matchesPattern uuidPattern id = true
    /\ mathReads w' = 31.
Proof.
  destruct (generateId_fallback_format sampleWorld)
    as (id & w' & E & _ & Hm & _ & Hr & _).
  - reflexivity.
  - exists id, w'. split; [exact E | split; [exact Hm | exact Hr]].
Defined.

(** ** Migrator, detector and validator together *)

Lemma migrateToV2_result (d name : value) (w : world) :
  nullish d = false ->
  exists id t w',
    Part000.migrateToV2 d name w
    = Some (VObj [("version", VNum (Fin 2));
                  ("refreshMs", refreshMsOf (member d "refreshMs"));
                  ("portfolios",
                   VArr [VObj [("id", VStr id);
                               ("name",
                                if notUndefined name then name else VStr "默认账本");
                               ("createdAt", VStr (toISOString t));
                               ("funds", arrayOrEmpty (member d "funds"));
                               ("favorites", arrayOrEmpty (member d "favorites"));
                               ("groups", arrayOrEmpty (member d "groups"));
                               ("holdings", objectOrEmpty (member d "holdings"));
                               ("pendingTrades",
                                arrayOrEmpty (member d "pendingTrades"))]])], w')
    /\ String.length id = 36.
Proof.
  intros Hn.
  destruct (generateId_total w) as (id & w1 & E).
  destruct (now_total w1) as (t & w2 & E').
  exists id, t, w2. split; [ | eauto using generateId_length].
  unfold Part000.migrateToV2, bind, lift. rewrite E, E'.
  rewrite !(getProp_some _ _ Hn). reflexivity.
Qed.

Lemma legacy_is_object (StringToNumber : string -> number) (d : value) :
  Part000.isLegacyData StringToNumber d = Some true -> isObject d = true.
Proof.
  unfold Part000.isLegacyData. rewrite isObject_guard.
  destruct (isObject d); [reflexivity | discriminate].
Qed.

Lemma version2_not_legacy (StringToNumber : string -> number) (d : value) :
  isObject d = true -> member d "version" = VNum (Fin 2) ->
  Part000.isLegacyData StringToNumber d = Some false.
Proof.
  intros Hobj Hv.
  unfold Part000.isLegacyData, Part000.isCurrentVersion.
  rewrite isObject_guard, Hobj, Hv. reflexivity.
Qed.

(** X2. The document that [migrateToV2] builds from an object, under a
    name that is left out or truthy, passes every check of
    [validateV2Data]: validation returns it as it is and reads nothing of
    the host. *)
Theorem migrateToV2_validated (d name : value) (w : world) :
  isObject d = true ->
  name = VUndefined \/ truthy name = true ->
  exists doc w',
    Part000.migrateToV2 d name w = Some (doc, w')
    /\ soundDocument doc
    /\ forall w'', Part000.validateV2Data doc w'' = Some (doc, w'').
Proof.
  intros Hobj Hname.
  assert (Hn : nullish d = false) by (destruct d; discriminate || reflexivity).
  destruct (migrateToV2_result d name w Hn) as (id & t & w' & E & Hid).
  eexists. exists w'. split; [exact E | ].
  assert (Hsound : soundDocument
    (VObj [("version", VNum (Fin 2));
           ("refreshMs", refreshMsOf (member d "refreshMs"));
           ("portfolios",
            VArr [VObj [("id", VStr id);
                        ("name", if notUndefined name then name else VStr "默认账本");
                        ("createdAt", VStr (toISOString t));
                        ("funds", arrayOrEmpty (member d "funds"));
                        ("favorites", arrayOrEmpty (member d "favorites"));
                        ("groups", arrayOrEmpty (member d "groups"));
                        ("holdings", objectOrEmpty (member d "holdings"));
                        ("pendingTrades",
                         arrayOrEmpty (member d "pendingTrades"))]])])).
  { eexists. eexists. exists []. split; [reflexivity | ].
    split; [apply refreshMsOf_sound | ].
    constructor; [ | constructor].
    destruct (arrayOrEmpty_array (member d "funds")) as (funds & ->).
    destruct (arrayOrEmpty_array (member d "favorites")) as (favorites & ->).
    destruct (arrayOrEmpty_array (member d "groups")) as (groups & ->).
    destruct (arrayOrEmpty_array (member d "pendingTrades")) as (trades & ->).
    destruct (objectOrEmpty_object (member d "holdings")) as (holdings & ->).
    do 8 eexists. split; [reflexivity | ].
    split; [destruct id; [discriminate Hid | reflexivity] | ].
    split; [ | apply toISOString_truthy].
    destruct Hname as [-> | Ht]; [reflexivity | ].
    destruct (notUndefined name); [exact Ht | reflexivity]. }
  split; [exact Hsound | ].
  intros w''. now apply validateV2Data_fixed.
Qed.

Lemma migrateToV2_validated_witness :
  exists doc w',
    Part000.migrateToV2 sampleLegacy (VStr "旧数据") sampleWorld = Some (doc, w')
    /\ Part000.validateV2Data doc sampleWorld = Some (doc, sampleWorld).
Proof.
  destruct (migrateToV2_validated sampleLegacy (VStr "旧数据") sampleWorld)
    as (doc & w' & E & _ & Hfix).
  - reflexivity.
  - right. reflexivity.
  - exists doc, w'. split; [exact E | apply Hfix].
Defined.

(** X3. What [isLegacyData] accepts, [migrateToV2] migrates without
    throwing, and the result is no longer legacy; nor is any document
    that [validateV2Data] or [createEmptyV2Data] returns. *)
Theorem legacy_only_once (StringToNumber : string -> number) (w : world) :
  (forall d name,
     Part000.isLegacyData StringToNumber d = Some true ->
     exists doc w',
       Part000.migrateToV2 d name w = Some (doc, w')
       /\ Part000.isLegacyData StringToNumber doc = Some false)
  /\ (forall x d w',
        Part000.validateV2Data x w = Some (d, w') ->
        Part000.isLegacyData StringToNumber d = Some false)
  /\ (forall d w',
        Part000.createEmptyV2Data w = Some (d, w') ->
        Part000.isLegacyData StringToNumber d = Some false).
Proof.
  split; [ | split].
  - intros d name Hl. apply legacy_is_object in Hl.
    assert (Hn : nullish d = false) by (destruct d; discriminate || reflexivity).
    destruct (migrateToV2_result d name w Hn) as (id & t & w' & E & _).
    eexists. exists w'. split; [exact E | ].
    now apply version2_not_legacy.
  - intros x d w' E.
    destruct (validateV2Data_sound _ _ _ _ E) as (r & p & ps & -> & _).
    now apply version2_not_legacy.
  - intros d w' E.
    destruct (createEmptyV2Data_result w) as (id & t & w1 & E1 & _).
    rewrite E1 in E. injection E as <- _.
    now apply version2_not_legacy.
Qed.

Lemma legacy_only_once_witness :
  exists doc w',
    Part000.migrateToV2 sampleLegacy VUndefined sampleWorld = Some (doc, w')
    /\ Part000.isLegacyData (fun _ => NaN) doc = Some false.
Proof.
  destruct (legacy_only_once (fun _ => NaN) sampleWorld) as (Hmigrate & _).
  apply Hmigrate. reflexivity.
Defined.

(** ** Validator: what is kept *)

Lemma repairPortfolio_keeps (p p' : value) (w w' : world) :
  Part000.repairPortfolio p w = Some (p', w') ->
  keptBy p p' /\ (identified p -> w' = w).
Proof.
  unfold Part000.repairPortfolio, bind, lift, getProp.
  destruct (nullish p); [discriminate | ].
  intros H.
  assert (Hid : exists id w1,
     (truthy (member p "id") = true -> id = member p "id" /\ w1 = w) /\
     (if truthy (member p "id") then ret (member p "id")
      else fun w0 => match Part000.generateId w0 with
                     | Some (s, w2) => ret (VStr s) w2
                     | None => None
                     end) w = Some (id, w1)).
  { destruct (truthy (member p "id")) eqn:Ht.
    - unfold ret. eauto.
    - destruct (generateId_total w) as (s & w1 & E). rewrite E.
      unfold ret. do 2 eexists. split; [discriminate | reflexivity]. }
  destruct Hid as (id & w1 & Hid & E). rewrite E in H. clear E.
  assert (Hc : exists c w2,
     (truthy (member p "createdAt") = true -> c = member p "createdAt" /\ w2 = w1) /\
     (if truthy (member p "createdAt") then ret (member p "createdAt")
      else fun w0 => match now w0 with
                     | Some (s, w3) => ret (VStr s) w3
                     | None => None
                     end) w1 = Some (c, w2)).
  { destruct (truthy (member p "createdAt")) eqn:Ht.
    - unfold ret. eauto.
    - destruct (now_total w1) as (t & w2 & E). rewrite E.
      unfold ret. do 2 eexists. split; [discriminate | reflexivity]. }
  destruct Hc as (c & w2 & Hc & E). rewrite E in H. clear E.
  unfold ret in H. injection H as <- <-.
  split.
  - unfold keptBy. rewrite !member_obj.
    cbn [assoc String.eqb Ascii.eqb Bool.eqb].
    split; [intros Ht; now destruct (Hid Ht) | ].
    split.
    { unfold carriedOver, orElse.
      destruct (truthy (member p "name")); split; congruence. }
    split; [intros Ht; now destruct (Hc Ht) | ].
    repeat split; try apply arrayOrEmpty_carried; apply objectOrEmpty_carried.
  - intros (Hi & Ht). destruct (Hid Hi) as (_ & ->). now destruct (Hc Ht).
Qed.

Lemma mapM_repair_keeps (ps ps' : list value) (w w' : world) :
  mapM Part000.repairPortfolio ps w = Some (ps', w') ->
  Forall2 keptBy ps ps' /\ (Forall identified ps -> w' = w).
Proof.
  revert ps' w w'. induction ps as [ | p ps IH]; intros ps' w w'; cbn [mapM].
  - unfold ret. intros [= <- <-]. split; [constructor | reflexivity].
  - unfold bind.
    destruct (Part000.repairPortfolio p w) as [[p1 w1] | ] eqn:E; [ | discriminate].
    destruct (mapM Part000.repairPortfolio ps w1) as [[ps1 w2] | ] eqn:E';
      [ | discriminate].
    unfold ret. intros [= <- <-].
    destruct (repairPortfolio_keeps _ _ _ _ E) as (Hk & Hw).
    destruct (IH _ _ _ E') as (Hks & Hws).
    split; [now constructor | ].
    intros Hall. inversion Hall as [ | q qs Hq Hqs]; subst.
    rewrite (Hws Hqs). now apply Hw.
Qed.

Lemma portfolios_of_object (x : value) (p : value) (ps : list value) :
  member x "portfolios" = VArr (p :: ps) -> isObject x = true.
Proof.
  intros H. destruct x; try reflexivity; try discriminate H.
  pose proof (member_string_items s "portfolios") as Hs.
  rewrite H in Hs. discriminate Hs.
Qed.

(** X4. Validation loses no portfolio and no well-formed field.  When the
    input has a non-empty [portfolios] array, the result has as many
    portfolios in the same order; each keeps its [id], [name] and
    [createdAt] where truthy and each collection of the right kind, and a
    [refreshMs] that is a number [>= 5000] is kept.  When every portfolio
    has an [id] and a [createdAt], validation reads nothing of the
    host. *)
Theorem validateV2Data_keeps (x d p : value) (ps : list value) (w w' : world) :
  member x "portfolios" = VArr (p :: ps) ->
  Part000.validateV2Data x w = Some (d, w') ->
  AppLib.validateV2Data x w = Some (d, w')
  /\ carriedOver isRefreshMs (member x "refreshMs") (VNum (Fin 30000))
       (member d "refreshMs")
  /\ (exists ps',
        member d "portfolios" = VArr ps'
        /\ List.length ps' = S (List.length ps)
        /\ Forall2 keptBy (p :: ps) ps')
  /\ (Forall identified (p :: ps) -> w' = w).
Proof.
  intros Hp E. split; [now rewrite validateV2Data_same | ].
  pose proof (portfolios_of_object _ _ _ Hp) as Hobj.
  unfold Part000.validateV2Data in E.
  rewrite isObject_guard, Hobj, Hp in E. cbn [negb] in E. unfold bind in E.
  destruct (mapM Part000.repairPortfolio (p :: ps) w) as [[ps' w1] | ] eqn:Em;
    [ | discriminate E].
  unfold ret in E. injection E as <- <-.
  destruct (mapM_repair_keeps _ _ _ _ Em) as (Hk & Hw).
  rewrite !member_obj. cbn [assoc String.eqb Ascii.eqb Bool.eqb].
  split; [apply refreshMsOf_carried | ].
  split; [ | exact Hw].
  exists ps'. split; [reflexivity | ].
  split; [ | exact Hk].
  apply Forall2_length in Hk. cbn in Hk. now rewrite <- Hk.
Qed.

Lemma validateV2Data_keeps_witness :
  exists ps',
    member (fst sampleValidated) "portfolios" = VArr ps'
    /\ List.length ps' = 2
    /\ snd sampleValidated <> sampleWorld.
Proof.
  destruct (validateV2Data_keeps sampleStored (fst sampleValidated) samplePortfolio
              [VObj [("name", VStr ""); ("funds", VStr "none");
                     ("holdings", VArr [])]]
              sampleWorld (snd sampleValidated))
    as (_ & _ & (ps' & Hm & Hl & _) & _).
  - reflexivity.
  - vm_compute. reflexivity.
  - exists ps'. split; [exact Hm | split; [exact Hl | ]].
    intros H. apply (f_equal mathReads) in H. vm_compute in H. discriminate H.
Defined.

(** ** Merger: which funds the result has *)

Lemma sameValueZero_refl (x : value) : isObject x = false -> sameValueZero x x = true.
Proof.
  destruct x as [ | | b | n | s | l | ps]; cbn; try discriminate; intros _.
  - reflexivity.
  - reflexivity.
  - apply Bool.eqb_reflx.
  - destruct n; cbn; [reflexivity | apply Bool.eqb_reflx | apply Z.eqb_refl].
  - apply String.eqb_refl.
Qed.

Lemma In_has (l : list value) (x : value) :
  In x l -> isObject x = false -> has l x = true.
Proof.
  intros Hin Hx. unfold has. apply existsb_exists.
  exists x. split; [exact Hin | now apply sameValueZero_refl].
Qed.

Lemma filter_none {A : Type} (f : A -> bool) (l : list A) :
  (forall x, In x l -> f x = false) -> filter f l = [].
Proof.
  induction l as [ | x l IH]; intros H; cbn; [reflexivity | ].
  rewrite (H x (or_introl eq_refl)). apply IH. intros y Hy. apply H. now right.
Qed.

Lemma mergedFunds_shape (portfolio oldData r : value) :
  truthy portfolio = true -> truthy oldData = true ->
  Part000.mergeOldDataToPortfolio portfolio oldData = Some r ->
  let portfolioFunds := arrayItems (member portfolio "funds") in
  let oldFunds := arrayItems (member oldData "funds") in
  let added :=
    filter (fun f => (hasCode f
                      && negb (has (fundCodes portfolioFunds) (member f "code")))%bool)
      oldFunds in
  member r "funds" = VArr (portfolioFunds ++ added)
  /\ (forall f, In f oldFunds -> hasCode f = true ->
        In (member f "code") (fundCodes (portfolioFunds ++ added)))
  /\ (forall c, In c (fundCodes (portfolioFunds ++ added)) ->
        In c (fundCodes portfolioFunds)
        \/ exists f, In f oldFunds /\ hasCode f = true /\ member f "code" = c).
Proof.
  intros Hp Ho H.
  destruct (merge_inv _ _ _ Hp Ho H)
    as (pf & ex & olf & codes & pfav & ofav & pg & og & mg & pt & m1 & ot & m2
        & Epf & Eex & Eolf & _ & _ & _ & _ & _ & _ & _ & _ & _ & _ & ->).
  apply asArray_orElse in Epf, Eolf. apply codesOf_fundCodes in Eex.
  match goal with
  | |- context [overlay ?b [("funds", ?f); ("favorites", ?fa); ("groups", ?g);
                            ("holdings", ?h); ("pendingTrades", ?t)]] =>
      destruct (overlay_merged b f fa g h t) as (Hf & _)
  end.
  cbn zeta in *. rewrite member_obj, Hf. clear Hf H. subst pf olf ex.
  assert (Hfilter :
    filter (Part000.isNewFund (setOf (fundCodes (arrayItems (member portfolio "funds")))))
      (arrayItems (member oldData "funds"))
    = filter (fun f => (hasCode f
                        && negb (has (fundCodes (arrayItems (member portfolio "funds")))
                                   (member f "code")))%bool)
        (arrayItems (member oldData "funds"))).
  { apply filter_ext. intros f. unfold Part000.isNewFund, hasCode.
    now rewrite has_setOf. }
  rewrite Hfilter. split; [reflexivity | ]. split.
  - intros f Hin Hcode.
    destruct (has (fundCodes (arrayItems (member portfolio "funds")))
                (member f "code")) eqn:Eh;
      unfold fundCodes in *; rewrite map_app; apply in_or_app.
    + left. now apply has_In.
    + right. apply (in_map (fun g => member g "code")).
      apply filter_In. split; [exact Hin | ].
      cbn beta. now rewrite Hcode, Eh.
  - intros c Hc. unfold fundCodes in Hc. rewrite map_app in Hc.
    apply in_app_or in Hc. destruct Hc as [Hc | Hc]; [now left | right].
    apply in_map_iff in Hc. destruct Hc as (f & <- & Hf).
    apply filter_In in Hf. destruct Hf as (Hin & Hb).
    apply andb_true_iff in Hb. destruct Hb as (Hcode & _). eauto.
Qed.

(** X5. The funds of the merged portfolio are the portfolio's own funds,
    untouched and in their order (a legacy fund of a code the portfolio has
    replaces nothing), followed by the legacy funds that carry a code the
    portfolio does not list, in legacy order.  Every coded legacy fund has its
    code among the result's, and no code comes from anywhere else. *)
Theorem mergedFunds_prefix (portfolio oldData r : value) :
  truthy portfolio = true -> truthy oldData = true ->
  Part000.mergeOldDataToPortfolio portfolio oldData = Some r ->
  let portfolioFunds := arrayItems (member portfolio "funds") in
  let oldFunds := arrayItems (member oldData "funds") in
  exists added,
    member r "funds" = VArr (portfolioFunds ++ added)
    /\ added
       = filter (fun f => (hasCode f
                           && negb (has (fundCodes portfolioFunds)
                                      (member f "code")))%bool)
           oldFunds
    /\ (forall f, In f oldFunds -> hasCode f = true ->
          In (member f "code") (fundCodes (arrayItems (member r "funds"))))
    /\ (forall c, In c (fundCodes (arrayItems (member r "funds"))) ->
          In c (fundCodes portfolioFunds)
          \/ exists f, In f oldFunds /\ hasCode f = true /\ member f "code" = c).
Proof.
  intros Hp Ho H. cbn zeta.
  destruct (mergedFunds_shape _ _ _ Hp Ho H) as (Hf & Hcover & Honly).
  eexists. split; [exact Hf | ]. split; [reflexivity | ].
  rewrite Hf. cbn [arrayItems]. split; assumption.
Qed.

Lemma mergedFunds_prefix_witness :
  member sampleMerged "funds" = VArr [fund "110022"; fund "161725"; fund "000001"].
Proof.
  destruct (mergedFunds_prefix samplePortfolio sampleLegacy sampleMerged)
    as (added & Hf & Ha & _).
  - reflexivity.
  - reflexivity.
  - vm_compute. reflexivity.
  - rewrite Hf, Ha. vm_compute. reflexivity.
Defined.

(** X6. Merging the same legacy data a second time adds no fund, as long as
    the codes of the legacy funds are primitives (strings, numbers). *)
Theorem remerge_adds_no_fund (portfolio oldData r r' : value) :
  truthy portfolio = true -> truthy oldData = true ->
  Forall (fun f => isObject (member f "code") = false)
    (arrayItems (member oldData "funds")) ->
  Part000.mergeOldDataToPortfolio portfolio oldData = Some r ->
  Part000.mergeOldDataToPortfolio r oldData = Some r' ->
  member r' "funds" = member r "funds".
Proof.
  intros Hp Ho Hprim H H'.
  destruct (mergedFunds_shape _ _ _ Hp Ho H) as (Hf & Hcover & _).
  assert (Hr : truthy r = true).
  { destruct (merge_frame _ _ _ Hp Ho H) as (Hobj & _).
    destruct r; try discriminate Hobj. reflexivity. }
  destruct (mergedFunds_shape _ _ _ Hr Ho H') as (Hf' & _).
  rewrite Hf', Hf. cbn [arrayItems].
  match goal with
  | |- VArr (?a ++ ?b) = VArr ?a =>
      assert (Hb : b = []); [ | now rewrite Hb, app_nil_r]
  end.
  apply filter_none.
  intros f Hin. destruct (hasCode f) eqn:Hcode; [cbn [andb] | reflexivity].
  apply negb_false_iff.
  apply In_has; [now apply Hcover | ].
  rewrite Forall_forall in Hprim. now apply Hprim.
Qed.

Lemma remerge_adds_no_fund_witness :
  exists r',
    Part000.mergeOldDataToPortfolio sampleMerged sampleLegacy = Some r'
    /\ member r' "funds" = member sampleMerged "funds".
Proof.
  destruct (Part000.mergeOldDataToPortfolio sampleMerged sampleLegacy)
    as [r' | ] eqn:E; [ | vm_compute in E; discriminate E].
  exists r'. split; [reflexivity | ].
  apply (remerge_adds_no_fund samplePortfolio sampleLegacy sampleMerged r').
  - reflexivity.
  - reflexivity.
  - cbn. repeat constructor.
  - vm_compute. reflexivity.
  - exact E.
Defined.

(** ** Merger: lookups in the merged holdings *)

Lemma assoc_assocRemove (h : plist) (c k : string) :
  assoc k (assocRemove h c) = if String.eqb c k then None else assoc k h.
Proof.
  unfold assocRemove. induction h as [ | [k' v] h IH]; cbn [filter assoc fst].
  - now destruct (String.eqb c k).
  - destruct (String.eqb k' c) eqn:Ekc; cbn [negb assoc].
    + apply String.eqb_eq in Ekc. subst k'. rewrite IH.
      now destruct (String.eqb c k).
    + rewrite IH. destruct (String.eqb k' k) eqn:Ek; [ | reflexivity].
      apply String.eqb_eq in Ek. subst k'.
      rewrite String.eqb_sym in Ekc. now rewrite Ekc.
Qed.

Lemma assoc_none (h : plist) (k : string) :
  ~ In k (map fst h) -> assoc k h = None.
Proof.
  induction h as [ | [k' v] h IH]; cbn; [reflexivity | ].
  intros H. destruct (String.eqb k' k) eqn:E.
  - apply String.eqb_eq in E. subst. exfalso. apply H. now left.
  - apply IH. intros Hin. apply H. now right.
Qed.

Lemma prune_assoc (allCodes : list value) (ks : list string) (h : plist) (k : string) :
  assoc k
    (fold_left
       (fun holdings code =>
          if has allCodes (VStr code) then holdings
          else assocRemove holdings code) ks h)
  = if (mem k ks && negb (has allCodes (VStr k)))%bool then None else assoc k h.
Proof.
  revert h. induction ks as [ | c ks IH]; intros h; cbn [fold_left].
  - reflexivity.
  - rewrite IH. unfold mem. cbn [existsb]. fold (mem k ks).
    destruct (String.eqb k c) eqn:Ekc.
    + apply String.eqb_eq in Ekc. subst c. cbn [orb].
      destruct (has allCodes (VStr k)) eqn:Eh; cbn [negb].
      * now rewrite !andb_false_r.
      * rewrite assoc_assocRemove, String.eqb_refl.
        now destruct (mem k ks && true)%bool.
    + cbn [orb]. destruct (mem k ks && negb (has allCodes (VStr k)))%bool;
        [reflexivity | ].
      destruct (has allCodes (VStr c)); [reflexivity | ].
      rewrite assoc_assocRemove, String.eqb_sym. now rewrite Ekc.
Qed.

Lemma pruneHoldings_assoc (allCodes : list value) (h : plist) (k : string) :
  assoc k (Part000.pruneHoldings allCodes h)
  = if has allCodes (VStr k) then assoc k h else None.
Proof.
  unfold Part000.pruneHoldings. rewrite prune_assoc.
  destruct (has allCodes (VStr k)); cbn [negb].
  - now rewrite andb_false_r.
  - rewrite andb_true_r. destruct (mem k (map fst h)) eqn:Em; [reflexivity | ].
    apply assoc_none. intros Hin. apply mem_In in Hin. congruence.
Qed.

Lemma assoc_overlay (a b : plist) (k : string) :
  NoDup (map fst b) ->
  assoc k (overlay a b)
  = match assoc k b with Some v => Some v | None => assoc k a end.
Proof.
  unfold overlay. revert a.
  induction b as [ | [k0 v0] b IH]; intros a Hnd; cbn [fold_left assoc fst snd].
  - reflexivity.
  - inversion Hnd as [ | x l Hx Hl]; subst.
    rewrite (IH _ Hl), assoc_assocSet.
    destruct (String.eqb k0 k) eqn:E; [ | reflexivity].
    apply String.eqb_eq in E. subst k0. now rewrite (assoc_none _ _ Hx).
Qed.

(** X7. A lookup in the merged holdings: a key that is not the code of a
    fund of the result is absent; for any other key the legacy holding wins
    and the portfolio's own is the fallback. *)
Theorem mergedHoldings_lookup (portfolio oldData r : value) (k : string) :
  truthy portfolio = true -> truthy oldData = true ->
  NoDup (map fst (holdingsOf oldData)) ->
  Part000.mergeOldDataToPortfolio portfolio oldData = Some r ->
  assoc k (ownProps (member r "holdings"))
  = if has (fundCodes (arrayItems (member r "funds"))) (VStr k) then
      match assoc k (holdingsOf oldData) with
      | Some v => Some v
      | None => assoc k (holdingsOf portfolio)
      end
    else None.
Proof.
  intros Hp Ho Hnd H.
  destruct (merge_inv _ _ _ Hp Ho H)
    as (pf & ex & olf & codes & pfav & ofav & pg & og & mg & pt & m1 & ot & m2
        & _ & _ & _ & Ecodes & _ & _ & _ & _ & _ & _ & _ & _ & _ & ->).
  apply codesOf_fundCodes in Ecodes.
  match goal with
  | |- context [overlay ?b [("funds", ?f); ("favorites", ?fa); ("groups", ?g);
                            ("holdings", ?h); ("pendingTrades", ?t)]] =>
      destruct (overlay_merged b f fa g h t) as (Hf & _ & _ & Hh & _)
  end.
  cbn zeta in *. rewrite !member_obj, Hf, Hh. cbn [arrayItems ownProps].
  rewrite <- Ecodes, pruneHoldings_assoc, has_setOf.
  destruct (has codes (VStr k)); [ | reflexivity].
  now apply assoc_overlay.
Qed.

Lemma mergedHoldings_lookup_witness :
  assoc "000001" (ownProps (member sampleMerged "holdings"))
  = Some (VObj [("share", VNum (Fin 5))])
  /\ assoc "999999" (ownProps (member sampleMerged "holdings")) = None.
Proof.
  split.
  - rewrite (mergedHoldings_lookup samplePortfolio sampleLegacy sampleMerged "000001").
    + reflexivity.
    + reflexivity.
    + reflexivity.
    + cbn. repeat constructor; cbn; intuition discriminate.
    + vm_compute. reflexivity.
  - rewrite (mergedHoldings_lookup samplePortfolio sampleLegacy sampleMerged "999999").
    + reflexivity.
    + reflexivity.
    + reflexivity.
    + cbn. repeat constructor; cbn; intuition discriminate.
    + vm_compute. reflexivity.
Defined.

(** ** Merger: the merged favorites *)

Lemma In_fold_setAdd (l acc : list value) (x : value) :
  In x (fold_left setAdd l acc) <-> In x acc \/ In x l.
Proof.
  revert acc. induction l as [ | y l IH]; intros acc; cbn [fold_left].
  - cbn. tauto.
  - rewrite IH. unfold setAdd. destruct (has acc y) eqn:E.
    + apply has_In in E. cbn. intuition (subst; auto).
    + rewrite in_app_iff. cbn. tauto.
Qed.

Lemma In_setOf (l : list value) (x : value) : In x (setOf l) <-> In x l.
Proof. unfold setOf. rewrite In_fold_setAdd. cbn. tauto. Qed.

Lemma distinct_fold_setAdd (l acc : list value) :
  distinctCodes acc -> distinctCodes (fold_left setAdd l acc).
Proof.
  revert acc. induction l as [ | y l IH]; intros acc H; cbn [fold_left]; [exact H | ].
  apply IH. unfold setAdd. destruct (has acc y) eqn:E; [exact H | ].
  apply distinctCodes_app; [exact H | cbn; auto | ].
  intros x [<- | []]. exact E.
Qed.

(** X8. The merged favorites list no code twice, and list exactly the
    favorites of the portfolio or of the legacy data that are codes of
    funds of the result. *)
Theorem mergedFavorites_set (portfolio oldData r : value) :
  truthy portfolio = true -> truthy oldData = true ->
  Part000.mergeOldDataToPortfolio portfolio oldData = Some r ->
  exists portfolioFavorites oldFavorites favorites,
    iterate (orElse (member portfolio "favorites") (VArr [])) = Some portfolioFavorites
    /\ iterate (orElse (member oldData "favorites") (VArr [])) = Some oldFavorites
    /\ member r "favorites" = VArr favorites
    /\ distinctCodes favorites
    /\ forall c,
         In c favorites
         <-> (In c portfolioFavorites \/ In c oldFavorites)
             /\ has (fundCodes (arrayItems (member r "funds"))) c = true.
Proof.
  intros Hp Ho H.
  destruct (merge_inv _ _ _ Hp Ho H)
    as (pf & ex & olf & codes & pfav & ofav & pg & og & mg & pt & m1 & ot & m2
        & _ & _ & _ & Ecodes & Epfav & Eofav & _ & _ & _ & _ & _ & _ & _ & ->).
  apply codesOf_fundCodes in Ecodes.
  match goal with
  | |- context [overlay ?b [("funds", ?f); ("favorites", ?fa); ("groups", ?g);
                            ("holdings", ?h); ("pendingTrades", ?t)]] =>
      destruct (overlay_merged b f fa g h t) as (Hf & Hfa & _)
  end.
  cbn zeta in *. rewrite !member_obj, Hf, Hfa. cbn [arrayItems].
  rewrite <- Ecodes.
  exists pfav, ofav. eexists.
  split; [exact Epfav | ]. split; [exact Eofav | ]. split; [reflexivity | ].
  split.
  - apply distinctCodes_filter. unfold setOf. now apply distinct_fold_setAdd.
  - intros c. rewrite filter_In, In_setOf, in_app_iff, has_setOf. tauto.
Qed.

Lemma mergedFavorites_set_witness :
  member sampleMerged "favorites" = VArr [VStr "110022"; VStr "000001"].
Proof.
  destruct (mergedFavorites_set samplePortfolio sampleLegacy sampleMerged)
    as (pfav & lfav & favs & _ & _ & Hm & _).
  - reflexivity.
  - reflexivity.
  - vm_compute. reflexivity.
  - rewrite Hm. vm_compute in Hm. exact (eq_sym Hm).
Defined.

(** ** Merger: what becomes of the groups *)

Lemma sameButCodes_refl (g : value) : sameButCodes g g.
Proof. intros k _. reflexivity. Qed.

Lemma sameButCodes_trans (a b c : value) :
  sameButCodes a b -> sameButCodes b c -> sameButCodes a c.
Proof. intros Hab Hbc k Hk. now rewrite (Hbc k Hk), (Hab k Hk). Qed.

Lemma sameButCodes_set (g : value) (codes : value) :
  sameButCodes g (VObj (overlay (ownProps g) [("codes", codes)])).
Proof.
  intros k Hk. cbn [ownProps overlay fold_left fst snd].
  apply assoc_assocSet_other. congruence.
Qed.

Lemma Forall2_sameButCodes_refl (l : list value) : Forall2 sameButCodes l l.
Proof. induction l; constructor; auto using sameButCodes_refl. Qed.

Lemma Forall2_sameButCodes_trans (a b c : list value) :
  Forall2 sameButCodes a b -> Forall2 sameButCodes b c -> Forall2 sameButCodes a c.
Proof.
  intros Hab. revert c. induction Hab as [ | x y a b Hxy _ IH]; intros c Hbc.
  - inversion Hbc. constructor.
  - inversion Hbc as [ | y' z b' c' Hyz Hbc']; subst.
    constructor; eauto using sameButCodes_trans.
Qed.

Lemma Forall2_update (i : nat) (v : value) (l : list value) :
  (forall x, nth_error l i = Some x -> sameButCodes x v) ->
  Forall2 sameButCodes l (update i v l).
Proof.
  revert i. induction l as [ | y l IH]; intros i H; cbn [update].
  - destruct i; constructor.
  - destruct i as [ | i].
    + constructor; [apply H; reflexivity | apply Forall2_sameButCodes_refl].
    + constructor; [apply sameButCodes_refl | ]. apply IH. intros x Hx. now apply H.
Qed.

Lemma mergeGroup_keeps (allCodes merged out : list value) (incoming : value) :
  Part000.mergeGroup allCodes merged incoming = Some out ->
  exists kept tail,
    out = kept ++ tail
    /\ Forall2 sameButCodes merged kept
    /\ List.length tail <= 1
    /\ Forall (fun g' => sameButCodes incoming g'
                         /\ isArray (member g' "codes") = true) tail.
Proof.
  intros H. unfold Part000.mergeGroup in H.
  obind_inv H. destruct o as [i | ].
  - repeat obind_inv H. injection H as <-.
    eexists. exists []. rewrite app_nil_r.
    split; [reflexivity | ]. split; [ | split; [cbn; lia | constructor]].
    apply Forall2_update. intros x Hx.
    rewrite (nth_error_nth _ _ VUndefined Hx). apply sameButCodes_set.
  - repeat obind_inv H. injection H as <-.
    exists merged. eexists.
    split; [reflexivity | ].
    split; [apply Forall2_sameButCodes_refl | ].
    split; [cbn; lia | ].
    constructor; [ | constructor]. split; [apply sameButCodes_set | ].
    cbn [overlay fold_left fst snd]. now rewrite assocSet_codes.
Qed.

Lemma mergeGroups_keeps (allCodes incoming merged out : list value) :
  Part000.mergeGroups allCodes merged incoming = Some out ->
  exists kept tail,
    out = kept ++ tail
    /\ Forall2 sameButCodes merged kept
    /\ List.length tail <= List.length incoming
    /\ Forall (fun g' => exists g, In g incoming /\ sameButCodes g g') tail.
Proof.
  revert merged. induction incoming as [ | g rest IH]; intros merged H;
    cbn [Part000.mergeGroups] in H.
  - injection H as <-. exists merged, []. rewrite app_nil_r.
    split; [reflexivity | ].
    split; [apply Forall2_sameButCodes_refl | split; [cbn; lia | constructor]].
  - obind_inv H.
    destruct (mergeGroup_keeps _ _ _ _ E) as (a & t1 & -> & Ha & Ht1 & Hg).
    destruct (IH _ H) as (b & t2 & -> & Hb & Ht2 & Hrest).
    apply Forall2_app_inv_l in Hb. destruct Hb as (b1 & b2 & Hb1 & Hb2 & ->).
    exists b1, (b2 ++ t2). rewrite app_assoc.
    split; [reflexivity | ].
    split; [eauto using Forall2_sameButCodes_trans | ].
    split.
    + rewrite length_app. apply Forall2_length in Hb2. cbn [List.length]. lia.
    + apply Forall_app. split.
      * clear - Hb2 Hg. induction Hb2 as [ | x y t1 b2 Hxy _ IHb]; constructor.
        -- inversion Hg as [ | x' l (Hx & _) Hl]; subst.
           exists g. split; [now left | eauto using sameButCodes_trans].
        -- apply IHb. now inversion Hg.
      * eapply Forall_impl; [ | exact Hrest].
        intros g' (g0 & Hin & Hs). exists g0. split; [now right | exact Hs].
Qed.

(** X9. The merge removes and reorders no group of the portfolio and
    changes nothing of one but its [codes]: the merged groups begin with
    the portfolio's groups, each in its place and with every other property
    as it was; they end with at most one new group for each legacy group,
    each with the properties of a legacy group other than [codes]. *)
Theorem mergedGroups_keep (portfolio oldData r : value) :
  truthy portfolio = true -> truthy oldData = true ->
  Part000.mergeOldDataToPortfolio portfolio oldData = Some r ->
  exists portfolioGroups kept added,
    iterate (orElse (member portfolio "groups") (VArr [])) = Some portfolioGroups
    /\ member r "groups" = VArr (kept ++ added)
    /\ Forall2 sameButCodes portfolioGroups kept
    /\ List.length added <= List.length (arrayItems (member oldData "groups"))
    /\ Forall (fun g' => exists g,
                 In g (arrayItems (member oldData "groups"))
                 /\ sameButCodes g g') added.
Proof.
  intros Hp Ho H.
  destruct (merge_inv _ _ _ Hp Ho H)
    as (pf & ex & olf & codes & pfav & ofav & pg & og & mg & pt & m1 & ot & m2
        & _ & _ & _ & _ & _ & _ & Epg & Eog & Emg & _ & _ & _ & _ & ->).
  apply asArray_orElse in Eog.
  match goal with
  | |- context [overlay ?b [("funds", ?f); ("favorites", ?fa); ("groups", ?g);
                            ("holdings", ?h); ("pendingTrades", ?t)]] =>
      destruct (overlay_merged b f fa g h t) as (_ & _ & Hg & _)
  end.
  cbn zeta in *. rewrite !member_obj, Hg.
  destruct (mergeGroups_keeps _ _ _ _ Emg) as (kept & added & -> & Hk & Hl & Ha).
  exists pg, kept, added. subst og. auto.
Qed.

Lemma mergedGroups_keep_witness :
  exists kept added,
    member sampleMerged "groups" = VArr (kept ++ added)
    /\ List.length kept = 2
    /\ List.length added <= 2.
Proof.
  destruct (mergedGroups_keep samplePortfolio sampleLegacy sampleMerged)
    as (pg & kept & added & Epg & Hm & Hk & Hl & _).
  - reflexivity.
  - reflexivity.
  - vm_compute. reflexivity.
  - exists kept, added. split; [exact Hm | split; [ | exact Hl]].
    apply Forall2_length in Hk. rewrite <- Hk.
    vm_compute in Epg. injection Epg as <-. reflexivity.
Defined.

(** ** Merger and validator together *)

Lemma merged_sound (portfolio oldData r : value) :
  soundPortfolio portfolio -> truthy oldData = true ->
  Part000.mergeOldDataToPortfolio portfolio oldData = Some r ->
  soundPortfolio r
  /\ keys r = portfolioKeys
  /\ member r "id" = member portfolio "id"
  /\ member r "name" = member portfolio "name"
  /\ member r "createdAt" = member portfolio "createdAt"
  /\ forall w, Part000.repairPortfolio r w = Some (r, w).
Proof.
  intros Hs Ho H. pose proof Hs as Hs'.
  destruct Hs' as (id & name & createdAt & funds & favorites & groups & holdings
                   & trades & -> & Hid & Hname & Hc).
  match type of H with
  | Part000.mergeOldDataToPortfolio ?p _ = _ =>
      destruct (merge_inv p _ _ eq_refl Ho H)
        as (pf & ex & olf & codes & pfav & ofav & pg & og & mg & pt & m1 & ot & m2
            & _ & _ & _ & _ & _ & _ & _ & _ & _ & _ & _ & _ & _ & ->)
  end.
  cbn [ownProps overlay fold_left assocSet fst snd String.eqb Ascii.eqb Bool.eqb].
  match goal with
  | |- soundPortfolio ?x /\ _ => assert (Hr : soundPortfolio x)
  end.
  { do 8 eexists. split; [reflexivity | auto]. }
  split; [exact Hr | ].
  split; [reflexivity | ]. split; [reflexivity | ]. split; [reflexivity | ].
  split; [reflexivity | ].
  intros w. now apply repairPortfolio_fixed.
Qed.

(** X10. Merging keeps a portfolio valid: the merge of a portfolio that
    passes every check of the validator has the same eight fields in the
    same order, the same [id], [name] and [createdAt], and passes every
    check again, so that validation returns it as it is. *)
Theorem merge_keeps_sound (portfolio oldData r : value) :
  soundPortfolio portfolio -> truthy oldData = true ->
  Part000.mergeOldDataToPortfolio portfolio oldData = Some r ->
  soundPortfolio r
  /\ keys r = portfolioKeys
  /\ member r "id" = member portfolio "id"
  /\ member r "name" = member portfolio "name"
  /\ member r "createdAt" = member portfolio "createdAt"
  /\ forall w, Part000.repairPortfolio r w = Some (r, w).
Proof. apply merged_sound. Qed.

Lemma merge_keeps_sound_witness : soundPortfolio sampleSoundMerged.
Proof.
  apply (merge_keeps_sound sampleSound sampleLegacy sampleSoundMerged).
  - do 8 eexists. split; [reflexivity | repeat split].
  - reflexivity.
  - vm_compute. reflexivity.
Defined.

(** ** Merger: nothing to merge *)

Lemma fold_setAdd_fresh (l acc : list value) :
  (forall x, In x l -> has acc x = false) -> distinctCodes l ->
  fold_left setAdd l acc = acc ++ l.
Proof.
  revert acc. induction l as [ | y l IH]; intros acc Hacc Hd; cbn [fold_left].
  - now rewrite app_nil_r.
  - destruct Hd as (Hy & Hd). unfold setAdd at 2.
    rewrite (Hacc y (or_introl eq_refl)).
    rewrite IH; [now rewrite <- app_assoc | | exact Hd].
    intros x Hx. rewrite has_app, (Hacc x (or_intror Hx)). cbn.
    rewrite orb_false_r.
    destruct (sameValueZero x y) eqn:E; [ | reflexivity].
    rewrite sameValueZero_sym in E.
    assert (Hh : has l y = true) by (unfold has; apply existsb_exists; eauto).
    congruence.
Qed.

Lemma setOf_distinct (l : list value) : distinctCodes l -> setOf l = l.
Proof. intros H. unfold setOf. now rewrite fold_setAdd_fresh. Qed.

Lemma filter_all {A : Type} (f : A -> bool) (l : list A) :
  Forall (fun x => f x = true) l -> filter f l = l.
Proof.
  induction 1 as [ | x l Hx _ IH]; cbn; [reflexivity | ]. now rewrite Hx, IH.
Qed.

Lemma prune_noop (allCodes : list value) (ks : list string) (h : plist) :
  Forall (fun k => has allCodes (VStr k) = true) ks ->
  fold_left
    (fun holdings code =>
       if has allCodes (VStr code) then holdings else assocRemove holdings code)
    ks h = h.
Proof.
  intros H. revert h. induction H as [ | k ks Hk _ IH]; intros h; cbn [fold_left].
  - reflexivity.
  - now rewrite Hk, IH.
Qed.

Lemma addTrades_fresh (allCodes trades : list value) (ks : list string) (m : plist) :
  Forall (fun t => retained allCodes t = true) trades ->
  mapOpt Part000.keyOf trades = Some ks ->
  NoDup (map fst m ++ ks) ->
  Part000.addTrades allCodes m trades = Some (m ++ combine ks trades)
  /\ map snd (combine ks trades) = trades.
Proof.
  intros Hr. revert ks m.
  induction Hr as [ | t trades Ht _ IH]; intros ks m Hks Hnd;
    cbn [mapOpt] in Hks; cbn [Part000.addTrades].
  - injection Hks as <-. cbn. now rewrite app_nil_r.
  - repeat obind_inv Hks. injection Hks as <-.
    unfold Part000.addTrade. fold (retained allCodes t). rewrite Ht, E.
    cbn [obind].
    rewrite assocSet_fresh.
    + destruct (IH l (m ++ [(s, t)]) eq_refl) as (Hrun & Hmap).
      * rewrite map_app. cbn [map fst]. now rewrite <- app_assoc.
      * rewrite Hrun. cbn [combine map snd]. rewrite Hmap, <- app_assoc.
        split; reflexivity.
    + intros Hin. apply NoDup_remove_2 in Hnd. apply Hnd.
      apply in_or_app. now left.
Qed.

(** X11. Nothing to merge, nothing changed: when the legacy document has
    none of the five collections and the portfolio is valid and consistent
    (no null fund, favorites pairwise distinct and among the fund codes,
    holdings keyed by fund codes, pending trades all of listed funds and of
    pairwise distinct keys), the merge returns a portfolio equal to the one
    it was given. *)
Theorem merge_nothing (portfolio oldData : value) :
  soundPortfolio portfolio -> truthy oldData = true ->
  Forall (fun field => truthy (member oldData field) = false) mergedKeys ->
  Forall (fun f => nullish f = false) (arrayItems (member portfolio "funds")) ->
  distinctCodes (arrayItems (member portfolio "favorites")) ->
  Forall (fun c => has (fundCodes (arrayItems (member portfolio "funds"))) c = true)
    (arrayItems (member portfolio "favorites")) ->
  Forall (fun k => has (fundCodes (arrayItems (member portfolio "funds"))) (VStr k)
                   = true)
    (keys (member portfolio "holdings")) ->
  Forall (fun t => retained (fundCodes (arrayItems (member portfolio "funds"))) t
                   = true)
    (arrayItems (member portfolio "pendingTrades")) ->
  (exists ks,
     mapOpt Part000.keyOf (arrayItems (member portfolio "pendingTrades")) = Some ks
     /\ NoDup ks) ->
  Part000.mergeOldDataToPortfolio portfolio oldData = Some portfolio.
Proof.
  intros Hs Ho Hfalsy.
  destruct Hs as (id & name & createdAt & funds & favorites & groups & holdings
                  & trades & -> & Hid & Hname & Hc).
  unfold mergedKeys in Hfalsy. rewrite !Forall_cons_iff in Hfalsy.
  destruct Hfalsy as (Hf1 & Hf2 & Hf3 & Hf4 & Hf5 & _).
  unfold keys. rewrite !member_obj.
  cbn [assoc String.eqb Ascii.eqb Bool.eqb arrayItems ownProps].
  intros Hnn Hfd Hfh Hhh Htr (ks & Hks & Hnd).
  destruct (codesOf_total _ Hnn) as (ex & Eex).
  pose proof (codesOf_fundCodes _ _ Eex) as Hex.
  unfold Part000.mergeOldDataToPortfolio. rewrite Ho. cbn [truthy negb orb].
  unfold orElse. rewrite !member_obj.
  cbn [assoc String.eqb Ascii.eqb Bool.eqb].
  rewrite Hf1, Hf2, Hf3, Hf4, Hf5.
  cbn [truthy asArray iterate obind ownProps filter].
  rewrite Eex. cbn [obind]. rewrite app_nil_r, Eex. cbn [obind].
  rewrite !app_nil_r.
  cbn [Part000.mergeGroups overlay fold_left obind].
  rewrite (setOf_distinct _ Hfd).
  rewrite filter_all
    by (eapply Forall_impl; [ | exact Hfh]; intros c Hcc; now rewrite has_setOf, Hex).
  unfold Part000.pruneHoldings.
  rewrite prune_noop
    by (eapply Forall_impl; [ | exact Hhh]; intros k Hk; now rewrite has_setOf, Hex).
  destruct (addTrades_fresh (setOf ex) trades ks []) as (Hrun & Hmap).
  { eapply Forall_impl; [ | exact Htr]. intros t Ht. unfold retained in *.
    now rewrite has_setOf, Hex. }
  { exact Hks. }
  { exact Hnd. }
  rewrite Hrun. cbn [obind Part000.addTrades app]. rewrite Hmap.
  cbn [overlay fold_left assocSet fst snd String.eqb Ascii.eqb Bool.eqb].
  reflexivity.
Qed.

Lemma merge_nothing_witness :
  Part000.mergeOldDataToPortfolio sampleSound sampleSettings = Some sampleSound.
Proof.
  apply merge_nothing.
  - do 8 eexists. split; [reflexivity | repeat split].
  - reflexivity.
  - cbn. repeat constructor.
  - cbn. repeat constructor.
  - vm_compute. repeat split.
  - cbn. repeat constructor.
  - cbn. repeat constructor.
  - cbn. repeat constructor.
  - eexists. split; [vm_compute; reflexivity | ].
    repeat constructor; cbn; intuition discriminate.
Defined.

(** ** Factory and merger together: importing into a new portfolio *)

(** X12. Importing legacy data into a portfolio fresh from
    [createPortfolio]: the merge returns whenever the legacy collections are
    absent or arrays, the legacy groups are not null and have [codes]
    absent or an array, and the legacy trades have primitive key fields.
    Its result is valid for the validator; its funds are the legacy funds
    that carry a code; favorites, groups, holdings and trades refer to
    those funds only; and it satisfies the whole invariant when the codes
    of the legacy funds are pairwise distinct. *)
Theorem import_into_new (name oldData p : value) (w w' : world) :
  Part000.createPortfolio name w = Some (p, w') ->
  truthy oldData = true ->
  (Forall (fun field => arrayOrFalsy (member oldData field) = true)
     ["funds"; "favorites"; "groups"; "pendingTrades"] ->
   Forall (fun g => nullish g = false /\ arrayOrFalsy (member g "codes") = true)
     (arrayItems (member oldData "groups")) ->
   Forall plainKeyed (arrayItems (member oldData "pendingTrades")) ->
   exists r, Part000.mergeOldDataToPortfolio p oldData = Some r)
  /\ forall r,
       Part000.mergeOldDataToPortfolio p oldData = Some r ->
       soundPortfolio r
       /\ member r "funds"
          = VArr (filter hasCode (arrayItems (member oldData "funds")))
       /\ closedFavorites r /\ closedGroups r /\ closedHoldings r /\ closedTrades r
       /\ (distinctCodes
             (fundCodes (filter hasCode (arrayItems (member oldData "funds")))) ->
           closedPortfolio r).
Proof.
  intros Ec Ho.
  destruct (createPortfolio_result name w) as (id & t & w1 & E & Hid).
  rewrite E in Ec. injection Ec as <- _. clear E.
  set (p := VObj [("id", VStr id);
                  ("name", orElse name (VStr "新账本"));
                  ("createdAt", VStr (toISOString t));
                  ("funds", VArr []); ("favorites", VArr []);
                  ("groups", VArr []); ("holdings", VObj []);
                  ("pendingTrades", VArr [])]).
  assert (Hp : truthy p = true) by reflexivity.
  assert (Hs : soundPortfolio p).
  { do 8 eexists. split; [reflexivity | ].
    split; [destruct id; [discriminate Hid | reflexivity] | ].
    split; [ | apply toISOString_truthy].
    unfold orElse. destruct (truthy name) eqn:Hn; [exact Hn | reflexivity]. }
  split.
  - intros Hfields Hgroups Htrades.
    rewrite !Forall_cons_iff in Hfields.
    destruct Hfields as (H1 & H2 & H3 & H4 & _).
    apply (merge_total p oldData Hp Ho).
    unfold mergeable.
    split; [repeat constructor; assumption | ].
    split; [constructor | ]. split; [constructor | ].
    split; [exact Hgroups | ]. split; [constructor | exact Htrades].
  - intros r H.
    destruct (merged_closed _ _ _ Hp Ho H) as (Hd & Hfav & Hg & Hh & Ht).
    destruct (mergedFunds_shape _ _ _ Hp Ho H) as (Hf & _).
    destruct (merged_sound _ _ _ Hs Ho H) as (Hsr & _).
    assert (Hfunds : member r "funds"
                     = VArr (filter hasCode (arrayItems (member oldData "funds")))).
    { rewrite Hf. cbn [p member ownProps assoc String.eqb Ascii.eqb Bool.eqb
                         arrayItems fundCodes map app].
      f_equal. apply filter_ext. intros f. cbn. now rewrite andb_true_r. }
    assert (Hcg : closedGroups r) by (apply Hg; constructor).
    split; [exact Hsr | ]. split; [exact Hfunds | ].
    repeat (split; [assumption | ]).
    intros Hl. unfold closedPortfolio.
    split; [apply Hd; [exact I | exact Hl] | auto].
Qed.

Lemma import_into_new_witness :
  exists p w' r,
    Part000.createPortfolio (VStr "导入") sampleWorld = Some (p, w')
    /\ Part000.mergeOldDataToPortfolio p sampleLegacy = Some r
    /\ closedPortfolio r.
Proof.
  destruct (Part000.createPortfolio (VStr "导入") sampleWorld) as [[p w'] | ] eqn:Ec;
    [ | vm_compute in Ec; discriminate Ec].
  destruct (import_into_new (VStr "导入") sampleLegacy p sampleWorld w' Ec)
    as (Hreturn & Hresult).
  - reflexivity.
  - destruct Hreturn as (r & Er).
    + cbn. repeat constructor.
    + cbn. repeat constructor.
    + cbn. unfold plainKeyed. cbn. repeat constructor.
    + exists p, w', r. split; [reflexivity | split; [exact Er | ]].
      destruct (Hresult r Er) as (_ & _ & _ & _ & _ & _ & Hall).
      apply Hall. vm_compute. repeat split.
Defined.
